(** * Broadcast-along-HW, multi-core: work split, program construction, patching

    A shallow embedding of [bcast_multi_core_hw]
    (libs/tt_dnn/op_library/bcast/multi_core_hw/bcast_op_multi_core_hw.cpp)
    and of the host-side records it manipulates, followed by the properties
    of the tile partition, the runtime arguments and the patch callback. *)

From Stdlib Require Import ZArith Lia.
From stdpp Require Import base numbers list gmap strings.

Local Open Scope Z_scope.

(** ** 32-bit unsigned arithmetic ([uint32_t]) *)

Module U32.

Definition modulus : Z := 2 ^ 32.

Definition wrap (z : Z) : Z := z mod modulus.

Definition add (a b : Z) : Z := wrap (a + b).

Definition mul (a b : Z) : Z := wrap (a * b).

Definition in_range (z : Z) : Prop := 0 <= z < modulus.

End U32.

(** ** Core coordinates and core ranges *)

Record CoreCoord := mkCoreCoord { x : Z; y : Z }.

Record CoreRange := mkCoreRange { range_start : CoreCoord; range_end : CoreCoord }.

(** A [CoreRangeSet] is a union of rectangles. *)
Definition CoreRangeSet := list CoreRange.

Definition core_key (c : CoreCoord) : Z * Z := (x c, y c).

Definition core_in_range (r : CoreRange) (c : CoreCoord) : bool :=
  (x (range_start r) <=? x c) && (x c <=? x (range_end r)) &&
  (y (range_start r) <=? y c) && (y c <=? y (range_end r)).

Definition core_coord_in_core_ranges (s : CoreRangeSet) (c : CoreCoord) : bool :=
  existsb (fun r => core_in_range r c) s.

(** Number of coordinates of a rectangle and of a set of rectangles. *)
Definition range_size (r : CoreRange) : Z :=
  (x (range_end r) - x (range_start r) + 1) * (y (range_end r) - y (range_start r) + 1).

Definition num_cores_of (s : CoreRangeSet) : Z :=
  foldr (fun r acc => range_size r + acc) 0 s.

(** The row-major enumeration of the grid used by the runtime-argument loop
    and by the patch callback: [CoreCoord core = {i / num_cores_y, i % num_cores_y}]. *)
Definition core_of_index (num_cores_y i : Z) : CoreCoord :=
  mkCoreCoord (i / num_cores_y) (i mod num_cores_y).

(** ** The work splitter *)

(** Modelled from the spec: the rectangles covering the cores whose row-major
    index lies in [lo, hi), for a grid with [rows] cores per column.  The
    helper that builds core range sets lives in tt_dnn/op_library/work_split.hpp,
    a header that is missing here; the spec describes a CoreRangeSet
    as a union of rectangular regions and the groups as runs of cores in the
    order [i -> (i / rows, i % rows)]. *)
Definition cores_between (rows lo hi : Z) : CoreRangeSet :=
  if hi <=? lo then []
  else
    let c0 := lo / rows in
    let r0 := lo mod rows in
    let c1 := (hi - 1) / rows in
    let r1 := (hi - 1) mod rows in
    if c0 =? c1 then
      [mkCoreRange (mkCoreCoord c0 r0) (mkCoreCoord c0 r1)]
    else
      mkCoreRange (mkCoreCoord c0 r0) (mkCoreCoord c0 (rows - 1))
      :: (if c0 + 1 <? c1
          then [mkCoreRange (mkCoreCoord (c0 + 1) 0) (mkCoreCoord (c1 - 1) (rows - 1))]
          else [])
      ++ [mkCoreRange (mkCoreCoord c1 0) (mkCoreCoord c1 r1)].

Record WorkSplit := mkWorkSplit {
  num_cores : Z;
  all_cores : CoreRangeSet;
  core_group_1 : CoreRangeSet;
  core_group_2 : CoreRangeSet;
  num_tiles_per_core_group_1 : Z;
  num_tiles_per_core_group_2 : Z
}.

(** Modelled from the spec: [split_work_to_cores] of
    tt_dnn/op_library/work_split.hpp, a header that is missing here.
    Section 4.1 of the spec: [num_active_cores = min(cols*rows, total_tiles)],
    [base = total_tiles / num_active_cores],
    [remainder = total_tiles % num_active_cores], group 1 is the first
    [remainder] cores in row-major order with [base + 1] tiles each (present
    only if [remainder > 0]), group 2 the remaining cores with [base] tiles
    each (present only if [num_active_cores - remainder > 0]);
    [total_tiles = 0] gives no active cores and two empty groups. *)
Definition split_work_to_cores (grid_size : CoreCoord) (units_to_divide : Z) : WorkSplit :=
  let cols := x grid_size in
  let rows := y grid_size in
  let num_active_cores := Z.min (cols * rows) units_to_divide in
  let base := if num_active_cores =? 0 then 0 else units_to_divide / num_active_cores in
  let remainder := if num_active_cores =? 0 then 0 else units_to_divide mod num_active_cores in
  {| num_cores := num_active_cores;
     all_cores := cores_between rows 0 num_active_cores;
     core_group_1 :=
       if 0 <? remainder then cores_between rows 0 remainder else [];
     core_group_2 :=
       if 0 <? num_active_cores - remainder
       then cores_between rows remainder num_active_cores else [];
     num_tiles_per_core_group_1 := base + 1;
     num_tiles_per_core_group_2 := base |}.

(** ** Enumerations and records of the host API named by the source *)

(** The source names [BcastOpDim::HW], [BufferType::DRAM],
    [DataMovementProcessor::RISCV_0/1], [NOC::RISCV_0/1_default] and
    [MathFidelity::HiFi4]; the other constructors stand for the remaining
    values of these enumerations (the spec speaks of an axis, of the
    add/sub/mul variants and of two residency classes). *)

Module BcastOpDim.
Inductive Enum := H | W | HW.
End BcastOpDim.

Module BcastOpMath.
Inductive Enum := ADD | SUB | MUL.
End BcastOpMath.

Module BcastOpParallelizationStrategy.
Inductive Enum := MULTI_CORE_H | MULTI_CORE_W | MULTI_CORE_HW | SINGLE_CORE.
End BcastOpParallelizationStrategy.

Inductive BufferType := DRAM | L1.

Inductive DataMovementProcessor := RISCV_0 | RISCV_1.

Inductive NOC := RISCV_0_default | RISCV_1_default.

Inductive MathFidelity := LoFi | HiFi2 | HiFi3 | HiFi4.

(** What the file takes from headers that are missing here:
    the tile constants of tt_metal/common/constants.hpp, the element types and
    formats with their conversion, size and numeric code, and the kernel file
    names chosen by [bcast_op_utils]. *)
Class Platform := {
  TILE_WIDTH : Z;
  TILE_HEIGHT : Z;
  TILE_HW : Z;
  DataType : Type;
  DataFormat : Type;
  datatype_to_dataformat_converter : DataType -> DataFormat;
  DataFormat_code : DataFormat -> Z;
  TileSize : DataFormat -> Z;
  get_reader_name : BcastOpDim.Enum -> BcastOpParallelizationStrategy.Enum -> string;
  get_compute_name : BcastOpDim.Enum -> string
}.

Inductive result (A : Type) :=
  | Ok (a : A)
  | Fatal (what : string).
Arguments Ok {A} a.
Arguments Fatal {A} what.

Record Buffer := mkBuffer { address : Z; buffer_type : BufferType }.

Record Device := mkDevice { compute_and_storage_grid_size : CoreCoord }.

Record Shape := mkShape { dim0 : Z; dim1 : Z; dim2 : Z; dim3 : Z }.

Section HostModel.
Context {P : Platform}.

Record Tensor := mkTensor {
  shape : Shape;
  dtype : DataType;
  buffer : option Buffer;
  device : Device
}.

(** Modelled from the spec: the TileQueue record
    [{index, core_range, capacity_in_tiles, byte_size, element_format}]
    behind [CreateCircularBuffers] (tt_metal/host_api.hpp, missing here). *)
Record CircularBuffer := mkCircularBuffer {
  buffer_index : Z;
  cb_core_ranges : CoreRangeSet;
  cb_num_tiles : Z;
  cb_size_in_bytes : Z;
  cb_data_format : DataFormat
}.

Inductive KernelConfig :=
  | DataMovementConfig (processor : DataMovementProcessor) (noc : NOC)
  | ComputeConfig (math_fidelity : MathFidelity) (fp32_dest_acc_en math_approx_mode : bool).

(** Modelled from the spec: the KernelInstance record
    [{role, core_range, compile_time_args, per_core_runtime_args}] behind
    [CreateDataMovementKernel], [CreateComputeKernel], [SetRuntimeArgs] and
    [GetRuntimeArgs] (tt_metal/host_api.hpp, missing here);
    [defines] holds what [bcast_op_utils::add_defines] selects, the broadcast
    axis and arithmetic variant. *)
Record Kernel := mkKernel {
  kernel_path : string;
  kernel_core_ranges : CoreRangeSet;
  compile_time_args : list Z;
  kernel_config : KernelConfig;
  defines : list (BcastOpDim.Enum * BcastOpMath.Enum);
  runtime_args : gmap (Z * Z) (list Z)
}.

(** Modelled from the spec: a Program owns its tile queues and kernel
    instances; a kernel pointer of the source is the position of the kernel
    in the Program. *)
Record Program := mkProgram {
  circular_buffers : list CircularBuffer;
  kernels : list Kernel
}.

Definition empty_Program : Program := mkProgram [] [].

(** Modelled from the spec: [CreateCircularBuffers] of tt_metal/host_api.hpp
    (missing here) adds one tile queue to the Program.  The allocator behind
    it, which may refuse a queue that exceeds the local storage of a core, is
    a collaborator outside this model. *)
Definition CreateCircularBuffers (program : Program) (index : Z) (cores : CoreRangeSet)
    (num_tiles size_in_bytes : Z) (fmt : DataFormat) : Program :=
  mkProgram
    (circular_buffers program ++ [mkCircularBuffer index cores num_tiles size_in_bytes fmt])
    (kernels program).

(** Modelled from the spec: [CreateDataMovementKernel] and
    [CreateComputeKernel] of tt_metal/host_api.hpp (missing here) add one
    kernel instance, without runtime arguments, and return its handle. *)
Definition add_kernel (program : Program) (k : Kernel) : Program * nat :=
  (mkProgram (circular_buffers program) (kernels program ++ [k]),
   length (kernels program)).

Definition CreateDataMovementKernel (program : Program) (path : string) (cores : CoreRangeSet)
    (compile_args : list Z) (processor : DataMovementProcessor) (noc : NOC) : Program * nat :=
  add_kernel program
    (mkKernel path cores compile_args (DataMovementConfig processor noc) [] ∅).

Definition CreateComputeKernel (program : Program) (path : string) (cores : CoreRangeSet)
    (compile_args : list Z) (fidelity : MathFidelity) (fp32_dest_acc_en math_approx_mode : bool)
    : Program * nat :=
  add_kernel program
    (mkKernel path cores compile_args
       (ComputeConfig fidelity fp32_dest_acc_en math_approx_mode) [] ∅).

Definition update_kernel (program : Program) (kernel : nat) (f : Kernel -> Kernel) : Program :=
  mkProgram (circular_buffers program) (alter f kernel (kernels program)).

(** Modelled from the spec: [bcast_op_utils::add_defines] (missing here)
    records the defines that select the broadcast axis and arithmetic. *)
Definition add_defines (program : Program) (kernel : nat)
    (bcast_dim : BcastOpDim.Enum) (bcast_math : BcastOpMath.Enum) : Program :=
  update_kernel program kernel (fun k =>
    mkKernel (kernel_path k) (kernel_core_ranges k) (compile_time_args k) (kernel_config k)
      (defines k ++ [(bcast_dim, bcast_math)]) (runtime_args k)).

Definition with_runtime_args (k : Kernel) (args : gmap (Z * Z) (list Z)) : Kernel :=
  mkKernel (kernel_path k) (kernel_core_ranges k) (compile_time_args k) (kernel_config k)
    (defines k) args.

(** Modelled from the spec: [SetRuntimeArgs] and [GetRuntimeArgs] of
    tt_metal/host_api.hpp (missing here) store and read back the runtime
    argument vector of one core of one kernel. *)
Definition SetRuntimeArgs (program : Program) (kernel : nat) (core : CoreCoord)
    (args : list Z) : Program :=
  update_kernel program kernel (fun k =>
    with_runtime_args k (<[core_key core := args]> (runtime_args k))).

Definition kernel_runtime_args (program : Program) (kernel : nat) (core : CoreCoord)
    : option (list Z) :=
  k ← kernels program !! kernel; runtime_args k !! core_key core.

Definition GetRuntimeArgs (program : Program) (kernel : nat) (core : CoreCoord) : list Z :=
  default [] (kernel_runtime_args program kernel core).

End HostModel.

(** ** Program construction: [bcast_multi_core_hw] *)

Section Bcast.
Context {P : Platform}.

(** What the override callback captures. *)
Record Callback := mkCallback {
  cb_binary_reader_kernel : nat;
  cb_unary_writer_kernel : nat;
  cb_num_cores : Z;
  cb_num_cores_y : Z
}.

Record ProgramWithCallbacks := mkProgramWithCallbacks {
  program : Program;
  override_callback : Callback
}.

(** Lines 23-34: the shape arithmetic, all in [uint32_t]. *)
Definition NC_of (a : Tensor) : Z :=
  U32.mul (U32.wrap (dim0 (shape a))) (U32.wrap (dim1 (shape a))).

Definition Wt_of (a : Tensor) : Z := U32.wrap (dim3 (shape a)) / TILE_WIDTH.

Definition Ht_of (a : Tensor) : Z := U32.wrap (dim2 (shape a)) / TILE_HEIGHT.

Definition num_tensor_tiles (a : Tensor) : Z :=
  U32.mul (U32.mul (NC_of a) (Ht_of a)) (Wt_of a).

Definition num_btensor_tiles (a b : Tensor) : Z :=
  U32.mul (U32.mul (NC_of a) (U32.wrap (dim2 (shape b)))) (U32.wrap (dim3 (shape b)))
  / TILE_HW.

Definition bnc1 (b : Tensor) : Z :=
  if U32.mul (U32.wrap (dim0 (shape b))) (U32.wrap (dim1 (shape b))) =? 1 then 1 else 0.

Definition is_dram (buf : Buffer) : Z :=
  match buffer_type buf with DRAM => 1 | L1 => 0 end.

(** What the loop of lines 157-199 reads from its surroundings. *)
Record LoopEnv := mkLoopEnv {
  env_binary_reader_kernel : nat;
  env_unary_writer_kernel : nat;
  env_num_cores_y : Z;
  env_core_group_1 : CoreRangeSet;
  env_core_group_2 : CoreRangeSet;
  env_num_tiles_per_core_group_1 : Z;
  env_num_tiles_per_core_group_2 : Z;
  env_a_address : Z;
  env_b_address : Z;
  env_output_address : Z;
  env_num_btensor_tiles : Z;
  env_bnc1 : Z;
  env_HtWt : Z
}.

(** Lines 159-166: the group of a core decides its tile count. *)
Definition num_tensor_tiles_per_core (e : LoopEnv) (core : CoreCoord) : option Z :=
  if core_coord_in_core_ranges (env_core_group_1 e) core
  then Some (U32.wrap (env_num_tiles_per_core_group_1 e))
  else if core_coord_in_core_ranges (env_core_group_2 e) core
  then Some (U32.wrap (env_num_tiles_per_core_group_2 e))
  else None.

Definition reader_runtime_args (e : LoopEnv) (tiles_per_core num_tiles_read : Z) : list Z :=
  [ env_a_address e;      (* 0 *)
    0;                    (* 1 *)
    0;                    (* 2 *)
    tiles_per_core;       (* 3 *)
    env_b_address e;      (* 4 *)
    0;                    (* 5 *)
    0;                    (* 6 *)
    env_num_btensor_tiles e; (* 7 *)
    tiles_per_core;       (* 8 *)
    1;                    (* 9 *)
    1;                    (* 10 *)
    tiles_per_core;       (* 11 *)
    env_bnc1 e;           (* 12 *)
    num_tiles_read;       (* 13 *)
    env_HtWt e            (* 14 *) ].

Definition writer_runtime_args (e : LoopEnv) (tiles_per_core num_tiles_read : Z) : list Z :=
  [ env_output_address e; tiles_per_core; num_tiles_read ].

(** One iteration of the loop of lines 157-199, on the state
    [(program, num_tiles_read)]. *)
Definition set_core_runtime_args (e : LoopEnv) (i : Z) (st : Program * Z)
    : result (Program * Z) :=
  let '(program, num_tiles_read) := st in
  if env_num_cores_y e =? 0 then Fatal "division by zero"
  else
    let core := core_of_index (env_num_cores_y e) i in
    match num_tensor_tiles_per_core e core with
    | None => Fatal "Core not in specified core ranges"
    | Some tiles_per_core =>
        let program :=
          SetRuntimeArgs program (env_binary_reader_kernel e) core
            (reader_runtime_args e tiles_per_core num_tiles_read) in
        let program :=
          SetRuntimeArgs program (env_unary_writer_kernel e) core
            (writer_runtime_args e tiles_per_core num_tiles_read) in
        Ok (program, U32.add num_tiles_read tiles_per_core)
    end.

Fixpoint runtime_args_loop (e : LoopEnv) (indices : list Z) (st : Program * Z)
    : result (Program * Z) :=
  match indices with
  | [] => Ok st
  | i :: rest =>
      match set_core_runtime_args e i st with
      | Ok st' => runtime_args_loop e rest st'
      | Fatal what => Fatal what
      end
  end.

Definition bcast_multi_core_hw (a b output : Tensor)
    (bcast_math : BcastOpMath.Enum) (bcast_dim : BcastOpDim.Enum)
    : result ProgramWithCallbacks :=
  match bcast_dim with
  | BcastOpDim.HW =>
    let Ht := Ht_of a in
    let Wt := Wt_of a in
    let program := empty_Program in
    let grid := compute_and_storage_grid_size (device a) in
    let num_cores_y := U32.wrap (y grid) in
    let ws := split_work_to_cores grid (num_tensor_tiles a) in
    match buffer output with
    | None => Fatal "Output buffer should be allocated on device!"
    | Some dst_buffer =>
      let reader_name :=
        get_reader_name bcast_dim BcastOpParallelizationStrategy.MULTI_CORE_HW in
      let compute_name := get_compute_name bcast_dim in
      let fmt := datatype_to_dataformat_converter (dtype a) in
      let single_tile_size := U32.wrap (TileSize fmt) in
      let src0_cb_index := 0 in
      let num_input_tiles := 2 in
      let program :=
        CreateCircularBuffers program src0_cb_index (all_cores ws) num_input_tiles
          (U32.mul num_input_tiles single_tile_size) fmt in
      let src1_cb_index := 1 in
      let program :=
        CreateCircularBuffers program src1_cb_index (all_cores ws) num_input_tiles
          (U32.mul num_input_tiles single_tile_size) fmt in
      let output_cb_index := 16 in
      let num_output_tiles := 2 in
      let program :=
        CreateCircularBuffers program output_cb_index (all_cores ws) num_output_tiles
          (U32.mul num_output_tiles single_tile_size) fmt in
      match buffer a, buffer b with
      | Some src0_buffer, Some src1_buffer =>
        let reader_compile_time_args :=
          [U32.wrap (DataFormat_code fmt); is_dram src0_buffer; is_dram src1_buffer] in
        let writer_compile_time_args :=
          [output_cb_index; U32.wrap (DataFormat_code fmt); is_dram dst_buffer] in
        let '(program, binary_reader_kernel) :=
          CreateDataMovementKernel program reader_name (all_cores ws)
            reader_compile_time_args RISCV_1 RISCV_1_default in
        let '(program, unary_writer_kernel) :=
          CreateDataMovementKernel program
            "tt_metal/kernels/dataflow/writer_unary_interleaved_start_id.cpp"
            (all_cores ws) writer_compile_time_args RISCV_0 RISCV_0_default in
        let compute_kernel_args_group_1 :=
          [1; 1; U32.wrap (num_tiles_per_core_group_1 ws)] in
        let '(program, bcast_kernel_group_1) :=
          CreateComputeKernel program compute_name (core_group_1 ws)
            compute_kernel_args_group_1 HiFi4 false false in
        let program := add_defines program bcast_kernel_group_1 bcast_dim bcast_math in
        let program :=
          match core_group_2 ws with
          | [] => program
          | _ :: _ =>
            let compute_kernel_args_group_2 :=
              [1; 1; U32.wrap (num_tiles_per_core_group_2 ws)] in
            let '(program, bcast_kernel_group_2) :=
              CreateComputeKernel program compute_name (core_group_2 ws)
                compute_kernel_args_group_2 HiFi4 false false in
            add_defines program bcast_kernel_group_2 bcast_dim bcast_math
          end in
        let e :=
          {| env_binary_reader_kernel := binary_reader_kernel;
             env_unary_writer_kernel := unary_writer_kernel;
             env_num_cores_y := num_cores_y;
             env_core_group_1 := core_group_1 ws;
             env_core_group_2 := core_group_2 ws;
             env_num_tiles_per_core_group_1 := num_tiles_per_core_group_1 ws;
             env_num_tiles_per_core_group_2 := num_tiles_per_core_group_2 ws;
             env_a_address := address src0_buffer;
             env_b_address := address src1_buffer;
             env_output_address := address dst_buffer;
             env_num_btensor_tiles := num_btensor_tiles a b;
             env_bnc1 := bnc1 b;
             env_HtWt := U32.mul Ht Wt |} in
        match runtime_args_loop e (seqZ 0 (U32.wrap (num_cores ws))) (program, 0) with
        | Fatal what => Fatal what
        | Ok (program, _) =>
            Ok (mkProgramWithCallbacks program
                  (mkCallback binary_reader_kernel unary_writer_kernel
                     (U32.wrap (num_cores ws)) num_cores_y))
        end
      | _, _ => Fatal "null buffer dereferenced"
      end
    end
  | _ => Fatal "bcast_dim == BcastOpDim::HW"
  end.

(** ** The override callback (lines 201-234) *)

(** [runtime_args[slot] = value] on a vector: defined only inside the vector. *)
Definition store_arg (args : list Z) (slot : nat) (value : Z) : option (list Z) :=
  if decide (slot < length args)%nat then Some (<[slot := value]> args) else None.

Definition override_core_runtime_args (cb : Callback) (src_a src_b dst : Buffer)
    (i : Z) (program : Program) : result unit * Program :=
  if cb_num_cores_y cb =? 0 then (Fatal "division by zero", program)
  else
    let core := core_of_index (cb_num_cores_y cb) i in
    let runtime_args := GetRuntimeArgs program (cb_binary_reader_kernel cb) core in
    match store_arg runtime_args 0 (address src_a) ≫= (fun args => store_arg args 4 (address src_b)) with
    | None => (Fatal "runtime argument index out of range", program)
    | Some runtime_args =>
        let program := SetRuntimeArgs program (cb_binary_reader_kernel cb) core runtime_args in
        let runtime_args := GetRuntimeArgs program (cb_unary_writer_kernel cb) core in
        match store_arg runtime_args 0 (address dst) with
        | None => (Fatal "runtime argument index out of range", program)
        | Some runtime_args =>
            (Ok tt, SetRuntimeArgs program (cb_unary_writer_kernel cb) core runtime_args)
        end
    end.

Fixpoint override_loop (cb : Callback) (src_a src_b dst : Buffer)
    (indices : list Z) (program : Program) : result unit * Program :=
  match indices with
  | [] => (Ok tt, program)
  | i :: rest =>
      match override_core_runtime_args cb src_a src_b dst i program with
      | (Ok _, program') => override_loop cb src_a src_b dst rest program'
      | (Fatal what, program') => (Fatal what, program')
      end
  end.

(** The callback returns how it ended and the Program it leaves behind;
    [vector::at] throws before anything is written. *)
Definition override_runtime_args_callback (cb : Callback)
    (input_buffers output_buffers : list Buffer) (program : Program)
    : result unit * Program :=
  match input_buffers !! 0%nat with
  | None => (Fatal "vector::at", program)
  | Some src_dram_buffer_a =>
    match input_buffers !! 1%nat with
    | None => (Fatal "vector::at", program)
    | Some src_dram_buffer_b =>
      match output_buffers !! 0%nat with
      | None => (Fatal "vector::at", program)
      | Some dst_dram_buffer =>
          override_loop cb src_dram_buffer_a src_dram_buffer_b dst_dram_buffer
            (seqZ 0 (cb_num_cores cb)) program
      end
    end
  end.

End Bcast.

(** ** Notions used to state the properties *)

(** Row-major index of a coordinate in a grid with [rows] cores per column. *)
Definition index_of_core (rows : Z) (c : CoreCoord) : Z := x c * rows + y c.

(** Tiles handed to a core by a work split: by group membership, group 1 first,
    as the runtime-argument loop selects it. *)
Definition tiles_assigned (ws : WorkSplit) (c : CoreCoord) : Z :=
  if core_coord_in_core_ranges (core_group_1 ws) c then num_tiles_per_core_group_1 ws
  else if core_coord_in_core_ranges (core_group_2 ws) c then num_tiles_per_core_group_2 ws
  else 0.

(** [f 0 + f 1 + ... + f (n - 1)]. *)
Definition sum_upto (f : Z -> Z) (n : Z) : Z :=
  foldr (fun i acc => f i + acc) 0 (seqZ 0 n).

(** A device grid has dimensions that fit [uint32_t]; it is non-empty when it
    has at least one core. *)
Definition valid_grid (g : CoreCoord) : Prop :=
  U32.in_range (x g) /\ U32.in_range (y g).

Definition nonempty_grid (g : CoreCoord) : Prop := 0 < x g /\ 0 < y g.

Section Notions.
Context {P : Platform}.

(** The loop variables read by the iteration for core [i]. *)
Definition tiles_of (e : LoopEnv) (i : Z) : option Z :=
  num_tensor_tiles_per_core e (core_of_index (env_num_cores_y e) i).

(** [num_tiles_read] on entry to the iteration number [k]. *)
Fixpoint tiles_read (e : LoopEnv) (k : nat) : Z :=
  match k with
  | O => 0
  | S k' => U32.add (tiles_read e k') (default 0 (tiles_of e (Z.of_nat k')))
  end.

(** The environment of the loop for given tensors and buffers. *)
Definition loop_env (a b : Tensor) (src0_buffer src1_buffer dst_buffer : Buffer) : LoopEnv :=
  let grid := compute_and_storage_grid_size (device a) in
  let ws := split_work_to_cores grid (num_tensor_tiles a) in
  {| env_binary_reader_kernel := 0%nat;
     env_unary_writer_kernel := 1%nat;
     env_num_cores_y := U32.wrap (y grid);
     env_core_group_1 := core_group_1 ws;
     env_core_group_2 := core_group_2 ws;
     env_num_tiles_per_core_group_1 := num_tiles_per_core_group_1 ws;
     env_num_tiles_per_core_group_2 := num_tiles_per_core_group_2 ws;
     env_a_address := address src0_buffer;
     env_b_address := address src1_buffer;
     env_output_address := address dst_buffer;
     env_num_btensor_tiles := num_btensor_tiles a b;
     env_bnc1 := bnc1 b;
     env_HtWt := U32.mul (Ht_of a) (Wt_of a) |}.

(** The queues and kernels [bcast_multi_core_hw] creates before the loop
    (lines 58-155), with the runtime arguments left open. *)
Definition bcast_circular_buffers (a : Tensor) : list CircularBuffer :=
  let ws := split_work_to_cores (compute_and_storage_grid_size (device a))
              (num_tensor_tiles a) in
  let fmt := datatype_to_dataformat_converter (dtype a) in
  let size := U32.mul 2 (U32.wrap (TileSize fmt)) in
  [ mkCircularBuffer 0 (all_cores ws) 2 size fmt;
    mkCircularBuffer 1 (all_cores ws) 2 size fmt;
    mkCircularBuffer 16 (all_cores ws) 2 size fmt ].

Definition reader_kernel (a : Tensor) (src0_buffer src1_buffer : Buffer)
    (args : gmap (Z * Z) (list Z)) : Kernel :=
  let ws := split_work_to_cores (compute_and_storage_grid_size (device a))
              (num_tensor_tiles a) in
  let fmt := datatype_to_dataformat_converter (dtype a) in
  mkKernel (get_reader_name BcastOpDim.HW BcastOpParallelizationStrategy.MULTI_CORE_HW)
    (all_cores ws)
    [U32.wrap (DataFormat_code fmt); is_dram src0_buffer; is_dram src1_buffer]
    (DataMovementConfig RISCV_1 RISCV_1_default) [] args.

Definition writer_kernel (a : Tensor) (dst_buffer : Buffer)
    (args : gmap (Z * Z) (list Z)) : Kernel :=
  let ws := split_work_to_cores (compute_and_storage_grid_size (device a))
              (num_tensor_tiles a) in
  let fmt := datatype_to_dataformat_converter (dtype a) in
  mkKernel "tt_metal/kernels/dataflow/writer_unary_interleaved_start_id.cpp"
    (all_cores ws)
    [16; U32.wrap (DataFormat_code fmt); is_dram dst_buffer]
    (DataMovementConfig RISCV_0 RISCV_0_default) [] args.

Definition compute_kernel (cores : CoreRangeSet) (tiles_per_core : Z)
    (bcast_math : BcastOpMath.Enum) : Kernel :=
  mkKernel (get_compute_name BcastOpDim.HW) cores [1; 1; U32.wrap tiles_per_core]
    (ComputeConfig HiFi4 false false) [(BcastOpDim.HW, bcast_math)] ∅.

Definition compute_kernels (a : Tensor) (bcast_math : BcastOpMath.Enum) : list Kernel :=
  let ws := split_work_to_cores (compute_and_storage_grid_size (device a))
              (num_tensor_tiles a) in
  compute_kernel (core_group_1 ws) (num_tiles_per_core_group_1 ws) bcast_math
  :: match core_group_2 ws with
     | [] => []
     | _ :: _ =>
         [compute_kernel (core_group_2 ws) (num_tiles_per_core_group_2 ws) bcast_math]
     end.

(** The number of loop iterations and the captured [num_cores_y]. *)
Definition bcast_num_cores (a : Tensor) : Z :=
  U32.wrap (num_cores (split_work_to_cores (compute_and_storage_grid_size (device a))
                         (num_tensor_tiles a))).

Definition bcast_num_cores_y (a : Tensor) : Z :=
  U32.wrap (y (compute_and_storage_grid_size (device a))).

(** What the loop leaves in the reader and writer argument maps [mr], [mw]. *)
Definition stored_runtime_args (a b : Tensor) (src0_buffer src1_buffer dst_buffer : Buffer)
    (mr mw : gmap (Z * Z) (list Z)) : Prop :=
  let e := loop_env a b src0_buffer src1_buffer dst_buffer in
  let key i := core_key (core_of_index (bcast_num_cores_y a) i) in
  (0 < bcast_num_cores a -> bcast_num_cores_y a <> 0) /\
  (forall i, 0 <= i < bcast_num_cores a ->
     exists t, tiles_of e i = Some t /\
       mr !! key i = Some (reader_runtime_args e t (tiles_read e (Z.to_nat i))) /\
       mw !! key i = Some (writer_runtime_args e t (tiles_read e (Z.to_nat i)))) /\
  (forall k, (forall i, 0 <= i < bcast_num_cores a -> k <> key i) ->
     mr !! k = None /\ mw !! k = None).

(** Runtime arguments stored for the [i]-th active core of a built Program. *)
Definition reader_args (pwc : ProgramWithCallbacks) (i : Z) : option (list Z) :=
  let cb := override_callback pwc in
  kernel_runtime_args (program pwc) (cb_binary_reader_kernel cb)
    (core_of_index (cb_num_cores_y cb) i).

Definition writer_args (pwc : ProgramWithCallbacks) (i : Z) : option (list Z) :=
  let cb := override_callback pwc in
  kernel_runtime_args (program pwc) (cb_unary_writer_kernel cb)
    (core_of_index (cb_num_cores_y cb) i).

(** The window [(next_tile, tiles_per_core)] of the [i]-th active core, read
    back from reader slots 13 and 3. *)
Definition core_window (pwc : ProgramWithCallbacks) (i : Z) : option (Z * Z) :=
  args ← reader_args pwc i;
  next_tile ← args !! 13%nat;
  tiles_per_core ← args !! 3%nat;
  Some (next_tile, tiles_per_core).

Definition in_window (w : option (Z * Z)) (t : Z) : Prop :=
  match w with
  | Some (next_tile, tiles_per_core) => next_tile <= t < next_tile + tiles_per_core
  | None => False
  end.

(** The writes of the override callback on one argument vector. *)
Definition patch_reader_args (src_a src_b : Buffer) (args : list Z) : list Z :=
  <[4%nat := address src_b]> (<[0%nat := address src_a]> args).

Definition patch_writer_args (dst : Buffer) (args : list Z) : list Z :=
  <[0%nat := address dst]> args.

(** Address-bearing slots: reader slots 0 and 4, writer slot 0. *)
Definition address_slot (cb : Callback) (kernel slot : nat) : bool :=
  (bool_decide (kernel = cb_binary_reader_kernel cb)
   && (bool_decide (slot = 0%nat) || bool_decide (slot = 4%nat)))
  || (bool_decide (kernel = cb_unary_writer_kernel cb) && bool_decide (slot = 0%nat)).

Definition active_keys (cb : Callback) : list (Z * Z) :=
  (fun i => core_key (core_of_index (cb_num_cores_y cb) i)) <$> seqZ 0 (cb_num_cores cb).

(** [f] applied to the argument vectors stored under [keys], one key after
    the other. *)
Definition patch_map (f : list Z -> list Z) (keys : list (Z * Z))
    (m : gmap (Z * Z) (list Z)) : gmap (Z * Z) (list Z) :=
  foldl (fun m key => alter f key m) m keys.

(** The Program a callback invocation leaves behind. *)
Definition patched (pwc : ProgramWithCallbacks) (input_buffers output_buffers : list Buffer)
    : Program :=
  (override_runtime_args_callback (override_callback pwc) input_buffers output_buffers
     (program pwc)).2.

End Notions.

(** ** Statements examined on concrete inputs *)

Section Statements.
Context {P : Platform}.

(** Operand B's tile count computed with its own batch and channel extents,
    in the arithmetic of line 32. *)
Definition btensor_own_tiles (b : Tensor) : Z :=
  U32.mul (U32.mul (NC_of b) (U32.wrap (dim2 (shape b)))) (U32.wrap (dim3 (shape b)))
  / TILE_HW.

(** Reader slot 7 holds [num_btensor_tiles] on every active core, and that
    value differs from operand B's own tile count whenever [bN*bC] differs
    from [N*C]. *)
Definition btensor_tiles_always_differ (a b : Tensor) (pwc : ProgramWithCallbacks) : Prop :=
  (forall i, 0 <= i < bcast_num_cores a ->
     reader_args pwc i ≫= (fun args => args !! 7%nat) = Some (num_btensor_tiles a b)) /\
  (NC_of b <> NC_of a -> num_btensor_tiles a b <> btensor_own_tiles b).

(** With no tiles to process, construction succeeds with no active core and
    no kernel in the Program. *)
Definition zero_tiles_no_kernels (a b output : Tensor) (bcast_math : BcastOpMath.Enum)
    : Prop :=
  num_tensor_tiles a = 0 ->
  exists pwc,
    bcast_multi_core_hw a b output bcast_math BcastOpDim.HW = Ok pwc /\
    cb_num_cores (override_callback pwc) = 0 /\
    kernels (program pwc) = [].

End Statements.

(** ** A concrete platform and concrete tensors *)

(** 32 x 32 tiles of 2048 bytes; one element type. *)
Definition tile32 : Platform :=
  {| TILE_WIDTH := 32;
     TILE_HEIGHT := 32;
     TILE_HW := 1024;
     DataType := unit;
     DataFormat := unit;
     datatype_to_dataformat_converter := fun _ => tt;
     DataFormat_code := fun _ => 5;
     TileSize := fun _ => 2048;
     get_reader_name := fun _ _ => "reader_bcast_hw";
     get_compute_name := fun _ => "bcast_hw" |}.

Definition grid_2x2 : Device := mkDevice (mkCoreCoord 2 2).

Definition tensor_on (P : Platform) (dt : @DataType P) (s : Shape) (addr : Z) : @Tensor P :=
  @mkTensor P s dt (Some (mkBuffer addr DRAM)) grid_2x2.

(** Five tiles of operand A, one tile of operand B. *)
Definition a_5 : @Tensor tile32 := tensor_on tile32 tt (mkShape 1 5 32 32) 4096.
Definition b_1 : @Tensor tile32 := tensor_on tile32 tt (mkShape 1 1 32 32) 8192.
Definition out_5 : @Tensor tile32 := tensor_on tile32 tt (mkShape 1 5 32 32) 12288.

(** An operand A without tiles. *)
Definition a_0 : @Tensor tile32 := tensor_on tile32 tt (mkShape 0 1 32 32) 4096.
Definition out_0 : @Tensor tile32 := tensor_on tile32 tt (mkShape 0 1 32 32) 12288.

(** An operand A whose element count exceeds 32 bits: [2^22 + 1] tiles. *)
Definition a_wide : @Tensor tile32 := tensor_on tile32 tt (mkShape 4194305 1 32 32) 4096.
Definition out_wide : @Tensor tile32 := tensor_on tile32 tt (mkShape 4194305 1 32 32) 12288.

(** ** Tensors that differ in their buffer only *)

Section Rebuild.
Context {P : Platform}.

(** The tensor [t] with its data at [buf]: same shape, element type and
    device. *)
Definition with_buffer (t : Tensor) (buf : Buffer) : Tensor :=
  mkTensor (shape t) (dtype t) (Some buf) (device t).

(** A Program with the callback built for it. *)
Definition with_program (pwc : ProgramWithCallbacks) (p : Program) : ProgramWithCallbacks :=
  mkProgramWithCallbacks p (override_callback pwc).

End Rebuild.

(** * Properties *)

(** ** Arithmetic *)

Lemma wrap_range z : U32.in_range (U32.wrap z).
Proof. unfold U32.in_range, U32.wrap, U32.modulus. apply Z.mod_pos_bound. lia. Qed.

Lemma wrap_small z : U32.in_range z -> U32.wrap z = z.
Proof. unfold U32.in_range, U32.wrap. intros Hz. apply Z.mod_small. exact Hz. Qed.

(** ** Core ranges and the row-major enumeration *)
Lemma core_of_index_inj rows i j :
  rows <> 0 -> core_of_index rows i = core_of_index rows j -> i = j.
Proof.
  intros Hr Heq. unfold core_of_index in Heq.
  injection Heq as Hd Hm.
  rewrite (Z.div_mod i rows), (Z.div_mod j rows) by lia.
  rewrite Hd, Hm. reflexivity.
Qed.

Lemma core_in_range_iff r c :
  core_in_range r c = true <->
  x (range_start r) <= x c <= x (range_end r) /\
  y (range_start r) <= y c <= y (range_end r).
Proof.
  unfold core_in_range. rewrite !andb_true_iff, !Z.leb_le. lia.
Qed.

Lemma cores_between_iff rows lo hi c :
  0 < rows -> 0 <= lo ->
  core_coord_in_core_ranges (cores_between rows lo hi) c = true <->
  0 <= y c < rows /\ lo <= x c * rows + y c < hi.
Proof.
  intros Hr Hlo. unfold cores_between.
  destruct (Z.leb_spec hi lo) as [Hle|Hlt].
  { simpl. split; [discriminate | lia]. }
  pose proof (Z.div_mod lo rows ltac:(lia)) as E0.
  pose proof (Z.mod_pos_bound lo rows Hr) as B0.
  pose proof (Z.div_mod (hi - 1) rows ltac:(lia)) as E1.
  pose proof (Z.mod_pos_bound (hi - 1) rows Hr) as B1.
  set (c0 := lo / rows) in *. set (r0 := lo mod rows) in *.
  set (c1 := (hi - 1) / rows) in *. set (r1 := (hi - 1) mod rows) in *.
  clearbody c0 r0 c1 r1.
  destruct (Z.eqb_spec c0 c1) as [Hc|Hc].
  - simpl. rewrite orb_false_r, core_in_range_iff. simpl.
    subst c1. split; intros Hin.
    + assert (x c = c0) by lia. subst c0. nia.
    + assert (x c = c0) by nia. subst c0. nia.
  - assert (c0 < c1) as Hlt' by nia.
    destruct (Z.ltb_spec (c0 + 1) c1) as [Hm|Hm]; simpl;
      rewrite ?orb_false_r, !orb_true_iff, !core_in_range_iff; simpl.
    + split.
      * intros [Hin|[Hin|Hin]]; nia.
      * intros Hin.
        destruct (Z.lt_trichotomy (x c) c0) as [?|[?|?]]; [nia|left; nia|].
        destruct (Z.lt_trichotomy (x c) c1) as [?|[?|?]];
          [right; left; nia|right; right; nia|nia].
    + split.
      * intros [Hin|Hin]; nia.
      * intros Hin.
        destruct (Z.lt_trichotomy (x c) c0) as [?|[?|?]]; [nia|left; nia|].
        destruct (Z.lt_trichotomy (x c) c1) as [?|[?|?]]; [nia|right; nia|nia].
Qed.

Lemma core_of_index_coords rows i :
  0 < rows ->
  0 <= y (core_of_index rows i) < rows /\
  x (core_of_index rows i) * rows + y (core_of_index rows i) = i.
Proof.
  intros Hr. unfold core_of_index. simpl.
  pose proof (Z.div_mod i rows ltac:(lia)).
  pose proof (Z.mod_pos_bound i rows Hr). lia.
Qed.

Lemma cores_between_index rows lo hi i :
  0 < rows -> 0 <= lo ->
  core_coord_in_core_ranges (cores_between rows lo hi) (core_of_index rows i) = true <->
  lo <= i < hi.
Proof.
  intros Hr Hlo. rewrite cores_between_iff by assumption.
  pose proof (core_of_index_coords rows i Hr). lia.
Qed.

Lemma cores_between_index_bool rows lo hi i :
  0 < rows -> 0 <= lo ->
  core_coord_in_core_ranges (cores_between rows lo hi) (core_of_index rows i) =
  (lo <=? i) && (i <? hi).
Proof.
  intros Hr Hlo. apply eq_true_iff_eq.
  rewrite cores_between_index, andb_true_iff, Z.leb_le, Z.ltb_lt by assumption.
  reflexivity.
Qed.

Lemma num_cores_of_cores_between rows lo hi :
  0 < rows -> 0 <= lo -> lo <= hi ->
  num_cores_of (cores_between rows lo hi) = hi - lo.
Proof.
  intros Hr Hlo Hle. unfold cores_between.
  destruct (Z.leb_spec hi lo) as [?|Hlt]; [simpl; lia|].
  pose proof (Z.div_mod lo rows ltac:(lia)) as E0.
  pose proof (Z.mod_pos_bound lo rows Hr) as B0.
  pose proof (Z.div_mod (hi - 1) rows ltac:(lia)) as E1.
  pose proof (Z.mod_pos_bound (hi - 1) rows Hr) as B1.
  set (c0 := lo / rows) in *. set (r0 := lo mod rows) in *.
  set (c1 := (hi - 1) / rows) in *. set (r1 := (hi - 1) mod rows) in *.
  clearbody c0 r0 c1 r1.
  destruct (Z.eqb_spec c0 c1) as [Hc|Hc].
  - subst c1. unfold num_cores_of, range_size. simpl. lia.
  - destruct (Z.ltb_spec (c0 + 1) c1); unfold num_cores_of, range_size; simpl; nia.
Qed.

(** ** Sums over an index range *)

Lemma seqZ_snoc n : 0 <= n -> seqZ 0 (n + 1) = seqZ 0 n ++ [n].
Proof.
  intros Hn. rewrite seqZ_app by lia.
  change (seqZ (0 + n) 1) with [Z.of_nat 0 + (0 + n)].
  replace (Z.of_nat 0 + (0 + n)) with n by lia. reflexivity.
Qed.

Lemma sum_upto_snoc f n : 0 <= n -> sum_upto f (n + 1) = sum_upto f n + f n.
Proof.
  intros Hn. unfold sum_upto. rewrite seqZ_snoc by lia.
  rewrite foldr_app. simpl.
  generalize (seqZ 0 n). intros l. induction l as [|a l IH]; simpl; [lia|].
  rewrite IH. lia.
Qed.

Lemma sum_upto_0 f : sum_upto f 0 = 0.
Proof. reflexivity. Qed.

Lemma sum_upto_ext f g n :
  (forall i, 0 <= i < n -> f i = g i) -> sum_upto f n = sum_upto g n.
Proof.
  destruct (Z.le_gt_cases 0 n) as [Hn|Hn].
  - pattern n. apply natlike_ind; [| |exact Hn].
    + intros _. reflexivity.
    + intros k Hk IH H. unfold Z.succ in *. rewrite !sum_upto_snoc by lia.
      rewrite IH by (intros; apply H; lia). rewrite H by lia. reflexivity.
  - intros _. unfold sum_upto. rewrite seqZ_nil by lia. reflexivity.
Qed.

Lemma sum_upto_staircase base R n :
  0 <= R -> 0 <= n ->
  sum_upto (fun i => if i <? R then base + 1 else base) n = n * base + Z.min n R.
Proof.
  intros HR Hn. pattern n. apply natlike_ind; [| |exact Hn].
  - rewrite sum_upto_0. lia.
  - intros k Hk IH. unfold Z.succ. rewrite sum_upto_snoc by lia. rewrite IH.
    destruct (Z.ltb_spec k R); lia.
Qed.

(** ** The work splitter *)

Lemma core_of_index_of_core rows c :
  0 <= y c < rows -> core_of_index rows (index_of_core rows c) = c.
Proof.
  intros Hy. destruct c as [cx cy]. unfold core_of_index, index_of_core. simpl in *.
  f_equal.
  - symmetry. apply (Z.div_unique_pos _ _ _ cy); lia.
  - symmetry. apply (Z.mod_unique_pos _ _ cx); lia.
Qed.

Lemma index_of_core_of_index rows i :
  0 < rows -> index_of_core rows (core_of_index rows i) = i.
Proof.
  intros Hr. unfold index_of_core. apply (core_of_index_coords rows i Hr).
Qed.

Section SplitFacts.

Variables (grid : CoreCoord) (total : Z).
Hypothesis Hcols : 0 <= x grid.
Hypothesis Hrows : 0 <= y grid.
Hypothesis Htotal : 0 <= total.

Local Abbreviation ws := (split_work_to_cores grid total).
Local Abbreviation n := (Z.min (x grid * y grid) total).
Local Abbreviation rows := (y grid).

Lemma split_num_cores : num_cores ws = n.
Proof using Hcols Hrows Htotal. reflexivity. Qed.

Lemma split_num_cores_nonneg : 0 <= n.
Proof using Hcols Hrows Htotal. nia. Qed.

Lemma split_rows_pos : 0 < n -> 0 < rows.
Proof using Hcols Hrows Htotal. intros Hn. nia. Qed.

Lemma split_zero :
  n = 0 -> all_cores ws = [] /\ core_group_1 ws = [] /\ core_group_2 ws = [].
Proof using Hcols Hrows Htotal.
  intros Hn. unfold split_work_to_cores. rewrite Hn. simpl.
  unfold cores_between. simpl. auto.
Qed.

Lemma split_tiles_per_core :
  0 < n ->
  num_tiles_per_core_group_1 ws = total / n + 1 /\
  num_tiles_per_core_group_2 ws = total / n.
Proof using Hcols Hrows Htotal.
  intros Hn. unfold split_work_to_cores. simpl.
  destruct (Z.eqb_spec n 0); [lia|]. auto.
Qed.

Lemma split_remainder_bounds : 0 < n -> 0 <= total mod n < n.
Proof using Hcols Hrows Htotal. intros. apply Z.mod_pos_bound. lia. Qed.

Lemma split_group_1_iff c :
  core_coord_in_core_ranges (core_group_1 ws) c = true <->
  0 < n /\ 0 <= y c < rows /\ 0 <= index_of_core rows c < total mod n.
Proof using Hcols Hrows Htotal.
  pose proof split_num_cores_nonneg as Hn0.
  unfold split_work_to_cores. simpl.
  destruct (Z.eqb_spec n 0) as [Hn|Hn].
  - simpl. split; [discriminate|lia].
  - pose proof (split_remainder_bounds ltac:(lia)) as HR.
    pose proof (split_rows_pos ltac:(lia)) as Hr.
    destruct (Z.ltb_spec 0 (total mod n)) as [H0|H0].
    + rewrite cores_between_iff by lia. unfold index_of_core. lia.
    + simpl. split; [discriminate|]. unfold index_of_core. lia.
Qed.

Lemma split_group_2_iff c :
  core_coord_in_core_ranges (core_group_2 ws) c = true <->
  0 < n /\ 0 <= y c < rows /\ total mod n <= index_of_core rows c < n.
Proof using Hcols Hrows Htotal.
  pose proof split_num_cores_nonneg as Hn0.
  unfold split_work_to_cores. simpl.
  destruct (Z.eqb_spec n 0) as [Hn|Hn].
  - simpl. rewrite Hn. simpl. split; [discriminate|lia].
  - pose proof (split_remainder_bounds ltac:(lia)) as HR.
    pose proof (split_rows_pos ltac:(lia)) as Hr.
    destruct (Z.ltb_spec 0 (n - total mod n)) as [H0|H0]; [|lia].
    rewrite cores_between_iff by lia. unfold index_of_core. lia.
Qed.

Lemma split_all_cores_iff c :
  core_coord_in_core_ranges (all_cores ws) c = true <->
  0 < n /\ 0 <= y c < rows /\ 0 <= index_of_core rows c < n.
Proof using Hcols Hrows Htotal.
  pose proof split_num_cores_nonneg as Hn0.
  unfold split_work_to_cores. simpl.
  destruct (Z.eqb_spec n 0) as [Hn|Hn].
  - rewrite Hn. unfold cores_between. simpl. split; [discriminate|lia].
  - pose proof (split_rows_pos ltac:(lia)) as Hr.
    rewrite cores_between_iff by lia. unfold index_of_core. lia.
Qed.

Lemma split_group_1_index i :
  0 <= i < n ->
  core_coord_in_core_ranges (core_group_1 ws) (core_of_index rows i) = (i <? total mod n).
Proof using Hcols Hrows Htotal.
  intros Hi. pose proof (split_rows_pos ltac:(lia)) as Hr.
  apply eq_true_iff_eq. rewrite split_group_1_iff, Z.ltb_lt.
  rewrite index_of_core_of_index by assumption.
  pose proof (core_of_index_coords rows i Hr). lia.
Qed.

Lemma split_group_2_index i :
  0 <= i < n ->
  core_coord_in_core_ranges (core_group_2 ws) (core_of_index rows i) = (total mod n <=? i).
Proof using Hcols Hrows Htotal.
  intros Hi. pose proof (split_rows_pos ltac:(lia)) as Hr.
  apply eq_true_iff_eq. rewrite split_group_2_iff, Z.leb_le.
  rewrite index_of_core_of_index by assumption.
  pose proof (core_of_index_coords rows i Hr). lia.
Qed.

Lemma split_tiles_assigned_index i :
  0 <= i < n ->
  tiles_assigned ws (core_of_index rows i) =
  if i <? total mod n then total / n + 1 else total / n.
Proof using Hcols Hrows Htotal.
  intros Hi. unfold tiles_assigned.
  rewrite split_group_1_index, split_group_2_index by assumption.
  destruct (split_tiles_per_core ltac:(lia)) as [-> ->].
  destruct (Z.ltb_spec i (total mod n)); [reflexivity|].
  destruct (Z.leb_spec (total mod n) i); [reflexivity|lia].
Qed.

Lemma split_group_sizes :
  num_cores_of (core_group_1 ws) = (if n =? 0 then 0 else total mod n) /\
  num_cores_of (core_group_2 ws) = n - (if n =? 0 then 0 else total mod n).
Proof using Hcols Hrows Htotal.
  pose proof split_num_cores_nonneg as Hn0.
  unfold split_work_to_cores. simpl.
  destruct (Z.eqb_spec n 0) as [Hn|Hn].
  - rewrite Hn. simpl. auto.
  - pose proof (split_remainder_bounds ltac:(lia)) as HR.
    pose proof (split_rows_pos ltac:(lia)) as Hr.
    split.
    + destruct (Z.ltb_spec 0 (total mod n)).
      * rewrite num_cores_of_cores_between by lia. lia.
      * simpl. lia.
    + destruct (Z.ltb_spec 0 (n - total mod n)); [|lia].
      rewrite num_cores_of_cores_between by lia. lia.
Qed.

End SplitFacts.

(** C2 (coverage).  For every grid shape [(cols, rows)] and every total tile
    count [total >= 0], a grid without cores being given no tile, the work
    split has exactly [min (cols * rows) total] active cores: the cores of
    group 1 or group 2 are exactly the images of
    the indices [0 <= i < num_cores] under the row-major enumeration, which
    is injective on them; the two groups share no core, their sizes add up to
    [num_cores], they make up [all_cores]; and the tiles per core summed over
    all assigned cores give [total]. *)
Theorem split_work_coverage (grid : CoreCoord) (total : Z) :
  0 <= x grid -> 0 <= y grid -> 0 <= total ->
  (0 < total -> 0 < x grid * y grid) ->
  let ws := split_work_to_cores grid total in
  num_cores ws = Z.min (x grid * y grid) total /\
  (forall c,
     core_coord_in_core_ranges (core_group_1 ws) c
     || core_coord_in_core_ranges (core_group_2 ws) c = true <->
     exists i, 0 <= i < num_cores ws /\ c = core_of_index (y grid) i) /\
  (forall i j, 0 <= i < num_cores ws -> 0 <= j < num_cores ws ->
     core_of_index (y grid) i = core_of_index (y grid) j -> i = j) /\
  (forall c,
     ~ (core_coord_in_core_ranges (core_group_1 ws) c = true /\
        core_coord_in_core_ranges (core_group_2 ws) c = true)) /\
  (forall c,
     core_coord_in_core_ranges (all_cores ws) c =
     core_coord_in_core_ranges (core_group_1 ws) c
     || core_coord_in_core_ranges (core_group_2 ws) c) /\
  num_cores_of (core_group_1 ws) + num_cores_of (core_group_2 ws) = num_cores ws /\
  sum_upto (fun i => tiles_assigned ws (core_of_index (y grid) i)) (num_cores ws) = total /\
  num_cores_of (core_group_1 ws) * num_tiles_per_core_group_1 ws
  + num_cores_of (core_group_2 ws) * num_tiles_per_core_group_2 ws = total.
Proof.
  intros Hc Hr Ht Hcores ws. subst ws.
  pose proof (split_num_cores_nonneg grid total Hc Hr Ht) as Hn0.
  pose proof (split_rows_pos grid total Hc Hr Ht) as Hrows.
  pose proof (split_group_1_iff grid total Hc Hr Ht) as G1.
  pose proof (split_group_2_iff grid total Hc Hr Ht) as G2.
  pose proof (split_all_cores_iff grid total Hc Hr Ht) as GA.
  pose proof (split_remainder_bounds grid total Hc Hr Ht) as HR.
  pose proof (split_tiles_per_core grid total Hc Hr Ht) as HT.
  pose proof (split_group_sizes grid total Hc Hr Ht) as HS.
  change (num_cores (split_work_to_cores grid total)) with (Z.min (x grid * y grid) total).
  set (n := Z.min (x grid * y grid) total) in *.
  repeat split.
  - rewrite orb_true_iff, G1, G2. intros Hin.
    exists (index_of_core (y grid) c).
    rewrite core_of_index_of_core by lia. split; [lia|reflexivity].
  - intros (i & Hi & ->). specialize (Hrows ltac:(lia)). specialize (HR ltac:(lia)).
    rewrite orb_true_iff, G1, G2, index_of_core_of_index by assumption.
    pose proof (core_of_index_coords (y grid) i Hrows). lia.
  - intros i j Hi Hj Heq. apply (core_of_index_inj (y grid)); [lia|exact Heq].
  - intros c [H1 H2]. apply G1 in H1. apply G2 in H2. lia.
  - intros c. apply eq_true_iff_eq. rewrite orb_true_iff, GA, G1, G2.
    split; [|lia]. intros (Hn & Hy & Hi). specialize (HR Hn). lia.
  - destruct HS as [-> ->]. lia.
  - destruct (Z.eq_dec n 0) as [E|E]; [rewrite E; rewrite sum_upto_0; subst n; lia|].
    rewrite (sum_upto_ext _ (fun i => if i <? total mod n then total / n + 1 else total / n)).
    + specialize (HR ltac:(lia)). rewrite sum_upto_staircase by lia.
      pose proof (Z.div_mod total n E). nia.
    + intros i Hi. apply (split_tiles_assigned_index grid total Hc Hr Ht i Hi).
  - destruct HS as [-> ->]. destruct (Z.eqb_spec n 0) as [E|E].
    + subst n. lia.
    + destruct (HT ltac:(lia)) as [-> ->]. pose proof (Z.div_mod total n E). nia.
Qed.

(** C3 (balance).  When the division leaves a remainder [R > 0], the first
    [R] active cores in row-major order are exactly the cores of group 1 and
    the other active cores are exactly those of group 2; group-1 cores are
    assigned [base + 1] tiles and group-2 cores [base], with
    [base = total / num_cores].  For every input, whenever both groups are
    non-empty their per-core tile counts differ by at most 1. *)
Theorem split_work_balance (grid : CoreCoord) (total : Z) :
  0 <= x grid -> 0 <= y grid -> 0 <= total ->
  let ws := split_work_to_cores grid total in
  let base := total / num_cores ws in
  let R := total mod num_cores ws in
  (0 < num_cores ws -> 0 < R ->
     (forall i, 0 <= i < num_cores ws ->
        core_coord_in_core_ranges (core_group_1 ws) (core_of_index (y grid) i) = (i <? R) /\
        core_coord_in_core_ranges (core_group_2 ws) (core_of_index (y grid) i) = (R <=? i) /\
        tiles_assigned ws (core_of_index (y grid) i) = (if i <? R then base + 1 else base)) /\
     num_cores_of (core_group_1 ws) = R /\
     num_tiles_per_core_group_1 ws = base + 1 /\
     num_tiles_per_core_group_2 ws = base) /\
  (core_group_1 ws <> [] -> core_group_2 ws <> [] ->
     Z.abs (num_tiles_per_core_group_1 ws - num_tiles_per_core_group_2 ws) <= 1).
Proof.
  intros Hc Hr Ht ws base R. subst ws base R.
  change (num_cores (split_work_to_cores grid total)) with (Z.min (x grid * y grid) total).
  split.
  - intros Hn HR.
    repeat split.
    + apply (split_group_1_index grid total Hc Hr Ht i). lia.
    + apply (split_group_2_index grid total Hc Hr Ht i). lia.
    + apply (split_tiles_assigned_index grid total Hc Hr Ht i). lia.
    + destruct (split_group_sizes grid total Hc Hr Ht) as [E _]. rewrite E.
      destruct (Z.eqb_spec (Z.min (x grid * y grid) total) 0); [lia|reflexivity].
    + apply (split_tiles_per_core grid total Hc Hr Ht Hn).
    + apply (split_tiles_per_core grid total Hc Hr Ht Hn).
  - intros _ _. unfold split_work_to_cores. simpl. lia.
Qed.


(** ** The runtime-argument loop *)

Section LoopFacts.
Context {P : Platform}.

Lemma runtime_args_loop_app e l1 l2 st :
  runtime_args_loop e (l1 ++ l2) st =
  match runtime_args_loop e l1 st with
  | Ok st' => runtime_args_loop e l2 st'
  | Fatal what => Fatal what
  end.
Proof.
  revert st. induction l1 as [|i l1 IH]; intros st; simpl; [reflexivity|].
  destruct (set_core_runtime_args e i st); [apply IH|reflexivity].
Qed.

Lemma set_core_runtime_args_shape e i cbs k0 k1 rest off st' :
  env_binary_reader_kernel e = 0%nat ->
  env_unary_writer_kernel e = 1%nat ->
  set_core_runtime_args e i (mkProgram cbs (k0 :: k1 :: rest), off) = Ok st' ->
  env_num_cores_y e <> 0 /\
  exists t, tiles_of e i = Some t /\
    st' =
    (mkProgram cbs
       (with_runtime_args k0
          (<[core_key (core_of_index (env_num_cores_y e) i) := reader_runtime_args e t off]>
             (runtime_args k0))
        :: with_runtime_args k1
          (<[core_key (core_of_index (env_num_cores_y e) i) := writer_runtime_args e t off]>
             (runtime_args k1))
        :: rest),
     U32.add off t).
Proof.
  intros Hr Hw. unfold set_core_runtime_args, tiles_of.
  destruct (Z.eqb_spec (env_num_cores_y e) 0) as [|Hy]; [discriminate|].
  destruct (num_tensor_tiles_per_core e _) as [t|]; [|discriminate].
  intros [= <-]. split; [exact Hy|]. exists t. split; [reflexivity|].
  rewrite Hr, Hw. reflexivity.
Qed.

Lemma runtime_args_loop_inv e (k : nat) cbs k0 k1 rest st :
  env_binary_reader_kernel e = 0%nat ->
  env_unary_writer_kernel e = 1%nat ->
  runtime_args_loop e (seqZ 0 (Z.of_nat k)) (mkProgram cbs (k0 :: k1 :: rest), 0) = Ok st ->
  exists mr mw,
    st = (mkProgram cbs (with_runtime_args k0 mr :: with_runtime_args k1 mw :: rest),
          tiles_read e k) /\
    ((0 < k)%nat -> env_num_cores_y e <> 0) /\
    (forall i, 0 <= i < Z.of_nat k ->
       exists t, tiles_of e i = Some t /\
         mr !! core_key (core_of_index (env_num_cores_y e) i)
           = Some (reader_runtime_args e t (tiles_read e (Z.to_nat i))) /\
         mw !! core_key (core_of_index (env_num_cores_y e) i)
           = Some (writer_runtime_args e t (tiles_read e (Z.to_nat i)))) /\
    (forall key,
       (forall i, 0 <= i < Z.of_nat k -> key <> core_key (core_of_index (env_num_cores_y e) i)) ->
       mr !! key = runtime_args k0 !! key /\ mw !! key = runtime_args k1 !! key).
Proof.
  intros Hr Hw. revert st. induction k as [|k IH]; intros st.
  - simpl. intros [= <-]. exists (runtime_args k0), (runtime_args k1).
    split; [destruct k0, k1; reflexivity|].
    split; [lia|]. split; [intros; lia|]. auto.
  - replace (Z.of_nat (S k)) with (Z.of_nat k + 1) by lia.
    rewrite seqZ_snoc by lia. rewrite runtime_args_loop_app.
    destruct (runtime_args_loop e (seqZ 0 (Z.of_nat k)) _) as [st1|] eqn:E1; [|discriminate].
    destruct (IH st1 eq_refl) as (mr & mw & -> & Hy & Hact & Hoth).
    cbn [runtime_args_loop].
    destruct (set_core_runtime_args _ _ _) as [st2|] eqn:E2; [|discriminate].
    intros [= <-].
    apply set_core_runtime_args_shape in E2 as (Hy' & t & Ht & ->); [|assumption..].
    eexists _, _. split; [simpl; rewrite Ht; reflexivity|].
    split; [auto|]. split.
    + intros i Hi. destruct (Z.eq_dec i (Z.of_nat k)) as [->|Hne].
      * exists t. rewrite Nat2Z.id. simpl. rewrite !lookup_insert_eq. auto.
      * destruct (Hact i ltac:(lia)) as (t' & Ht' & Hmr & Hmw).
        exists t'. simpl. rewrite !lookup_insert_ne; [auto| |].
        -- intros Heq. apply Hne. symmetry. apply (core_of_index_inj _ _ _ Hy').
           destruct (core_of_index _ (Z.of_nat k)), (core_of_index _ i).
           unfold core_key in Heq. simpl in Heq. congruence.
        -- intros Heq. apply Hne. symmetry. apply (core_of_index_inj _ _ _ Hy').
           destruct (core_of_index _ (Z.of_nat k)), (core_of_index _ i).
           unfold core_key in Heq. simpl in Heq. congruence.
    + intros key Hkey. simpl.
      rewrite !lookup_insert_ne by (apply not_eq_sym, Hkey; lia).
      apply Hoth. intros i Hi. apply Hkey. lia.
Qed.

End LoopFacts.

(** ** The built Program *)

Section BuildFacts.
Context {P : Platform}.

Lemma bcast_multi_core_hw_unfold a b output math src0 src1 dst :
  buffer a = Some src0 -> buffer b = Some src1 -> buffer output = Some dst ->
  bcast_multi_core_hw a b output math BcastOpDim.HW =
  match runtime_args_loop (loop_env a b src0 src1 dst) (seqZ 0 (bcast_num_cores a))
          (mkProgram (bcast_circular_buffers a)
             (reader_kernel a src0 src1 ∅ :: writer_kernel a dst ∅ :: compute_kernels a math),
           0) with
  | Fatal what => Fatal what
  | Ok (program, _) =>
      Ok (mkProgramWithCallbacks program
            (mkCallback 0 1 (bcast_num_cores a) (bcast_num_cores_y a)))
  end.
Proof.
  intros Ha Hb Ho. unfold bcast_multi_core_hw. rewrite Ha, Hb, Ho.
  unfold compute_kernels, loop_env.
  destruct (core_group_2 _); reflexivity.
Qed.

Lemma bcast_multi_core_hw_ok a b output math dim pwc :
  bcast_multi_core_hw a b output math dim = Ok pwc ->
  exists src0 src1 dst,
    dim = BcastOpDim.HW /\
    buffer a = Some src0 /\ buffer b = Some src1 /\ buffer output = Some dst.
Proof.
  unfold bcast_multi_core_hw.
  destruct dim; try discriminate.
  destruct (buffer output) as [dst|]; [|discriminate].
  destruct (buffer a) as [src0|]; [|discriminate].
  destruct (buffer b) as [src1|]; [|discriminate].
  intros _. eauto 10.
Qed.

Lemma bcast_num_cores_nonneg a : 0 <= bcast_num_cores a.
Proof. unfold bcast_num_cores. apply wrap_range. Qed.

Lemma bcast_built a b output math dim pwc :
  bcast_multi_core_hw a b output math dim = Ok pwc ->
  exists src0 src1 dst mr mw,
    dim = BcastOpDim.HW /\
    buffer a = Some src0 /\ buffer b = Some src1 /\ buffer output = Some dst /\
    pwc =
    mkProgramWithCallbacks
      (mkProgram (bcast_circular_buffers a)
         (reader_kernel a src0 src1 mr :: writer_kernel a dst mw :: compute_kernels a math))
      (mkCallback 0 1 (bcast_num_cores a) (bcast_num_cores_y a)) /\
    stored_runtime_args a b src0 src1 dst mr mw.
Proof.
  intros Hb.
  destruct (bcast_multi_core_hw_ok _ _ _ _ _ _ Hb) as (src0 & src1 & dst & -> & Ha & Hb' & Ho).
  rewrite (bcast_multi_core_hw_unfold _ _ _ _ _ _ _ Ha Hb' Ho) in Hb.
  destruct (runtime_args_loop _ _ _) as [[p off]|] eqn:E; [|discriminate].
  injection Hb as <-.
  pose proof (bcast_num_cores_nonneg a) as Hn.
  rewrite <- (Z2Nat.id (bcast_num_cores a)) in E by exact Hn.
  apply runtime_args_loop_inv in E as (mr & mw & [= -> _] & Hy & Hact & Hoth);
    [|reflexivity..].
  exists src0, src1, dst, mr, mw.
  split; [reflexivity|]. do 3 (split; [assumption|]). split; [reflexivity|].
  unfold stored_runtime_args. cbv zeta. split; [|split].
  - intros Hpos. apply Hy. lia.
  - intros i Hi. apply Hact. lia.
  - intros k Hk. apply Hoth. intros i Hi. apply Hk. lia.
Qed.

End BuildFacts.

(** ** Outcome of the loop, and the loop on a device grid *)

Section LoopOutcome.
Context {P : Platform}.

Lemma runtime_args_loop_succeeds e indices st :
  (indices <> [] -> env_num_cores_y e <> 0) ->
  (forall i, i ∈ indices -> is_Some (tiles_of e i)) ->
  exists st', runtime_args_loop e indices st = Ok st'.
Proof.
  revert st. induction indices as [|i rest IH]; intros st Hy Hsome.
  - exists st. reflexivity.
  - simpl. destruct st as [p off]. unfold set_core_runtime_args.
    destruct (Z.eqb_spec (env_num_cores_y e) 0) as [E|_]; [exfalso; apply Hy; [discriminate|exact E]|].
    destruct (Hsome i ltac:(left)) as [t Ht]. unfold tiles_of in Ht. rewrite Ht.
    apply IH.
    + intros _. apply Hy. discriminate.
    + intros j Hj. apply Hsome. right. exact Hj.
Qed.

Lemma runtime_args_loop_fatal e indices st :
  runtime_args_loop e indices st = Fatal "Core not in specified core ranges" ->
  exists i, i ∈ indices /\
    core_coord_in_core_ranges (env_core_group_1 e) (core_of_index (env_num_cores_y e) i) = false /\
    core_coord_in_core_ranges (env_core_group_2 e) (core_of_index (env_num_cores_y e) i) = false.
Proof.
  revert st. induction indices as [|i rest IH]; intros st; simpl; [discriminate|].
  destruct (set_core_runtime_args e i st) as [st'|what] eqn:E.
  - intros Hf. destruct (IH _ Hf) as (j & Hj & Hg). exists j. split; [right; exact Hj|exact Hg].
  - intros [= ->]. exists i. split; [left|].
    destruct st as [p off]. unfold set_core_runtime_args in E.
    destruct (env_num_cores_y e =? 0); [discriminate|].
    unfold num_tensor_tiles_per_core in E.
    destruct (core_coord_in_core_ranges (env_core_group_1 e) _); [discriminate|].
    destruct (core_coord_in_core_ranges (env_core_group_2 e) _); [discriminate|].
    auto.
Qed.

End LoopOutcome.

Section ValidGrid.
Context {P : Platform}.
Variables (a b : Tensor) (src0 src1 dst : Buffer).

Local Abbreviation grid := (compute_and_storage_grid_size (device a)).
Local Abbreviation total := (num_tensor_tiles a).
Local Abbreviation n := (Z.min (x grid * y grid) total).
Local Abbreviation e := (loop_env a b src0 src1 dst).

Hypothesis Hgrid : valid_grid grid.

Lemma num_tensor_tiles_range : U32.in_range (num_tensor_tiles a).
Proof using Type. apply wrap_range. Qed.

Lemma bcast_num_cores_y_valid : bcast_num_cores_y a = y grid.
Proof using Hgrid. unfold bcast_num_cores_y. apply wrap_small, Hgrid. Qed.

Lemma bcast_num_cores_valid : bcast_num_cores a = n.
Proof using Hgrid.
  unfold bcast_num_cores. simpl. apply wrap_small.
  pose proof num_tensor_tiles_range as Ht. destruct Hgrid as [Hx Hy].
  unfold U32.in_range in *. nia.
Qed.

Lemma valid_grid_nonneg : 0 <= x grid /\ 0 <= y grid /\ 0 <= total.
Proof using Hgrid.
  pose proof num_tensor_tiles_range as Ht. destruct Hgrid as [Hx Hy].
  unfold U32.in_range in *. lia.
Qed.

Lemma tiles_of_valid i :
  0 <= i < n ->
  tiles_of e i = Some (if i <? total mod n then total / n + 1 else total / n).
Proof using Hgrid.
  intros Hi. destruct valid_grid_nonneg as (Hx & Hy & Ht).
  pose proof num_tensor_tiles_range as Htr. unfold U32.in_range in Htr.
  unfold tiles_of, num_tensor_tiles_per_core, loop_env.
  cbn [env_num_cores_y env_core_group_1 env_core_group_2
       env_num_tiles_per_core_group_1 env_num_tiles_per_core_group_2].
  change (U32.wrap (y grid)) with (bcast_num_cores_y a). rewrite bcast_num_cores_y_valid.
  rewrite (split_group_1_index grid total Hx Hy Ht i Hi).
  rewrite (split_group_2_index grid total Hx Hy Ht i Hi).
  destruct (split_tiles_per_core grid total Hx Hy Ht ltac:(lia)) as [-> ->].
  pose proof (Z.div_mod total n ltac:(lia)) as Hdm.
  pose proof (Z.mod_pos_bound total n ltac:(lia)) as HR.
  assert (0 <= total / n) as Hb by (apply Z.div_pos; lia).
  destruct (Z.ltb_spec i (total mod n)) as [H1|H1].
  - f_equal. apply wrap_small. unfold U32.in_range. nia.
  - destruct (Z.leb_spec (total mod n) i); [|lia].
    f_equal. apply wrap_small. unfold U32.in_range. nia.
Qed.

Lemma tiles_read_valid (k : nat) :
  Z.of_nat k <= n ->
  tiles_read e k = Z.of_nat k * (total / n) + Z.min (Z.of_nat k) (total mod n).
Proof using Hgrid.
  destruct valid_grid_nonneg as (Hx & Hy & Ht).
  pose proof num_tensor_tiles_range as Htr. unfold U32.in_range in Htr.
  induction k as [|k IH]; intros Hk.
  - assert (0 <= total mod n).
    { destruct (Z.eq_dec n 0) as [E|E]; [rewrite E, Z.mod_0_r; lia|].
      apply Z.mod_pos_bound. lia. }
    simpl. lia.
  - cbn [tiles_read]. rewrite IH by lia. rewrite tiles_of_valid by lia. simpl.
    pose proof (Z.div_mod total n ltac:(lia)) as Hdm.
    pose proof (Z.mod_pos_bound total n ltac:(lia)) as HR.
    assert (0 <= total / n) as Hb by (apply Z.div_pos; lia).
    unfold U32.add. rewrite wrap_small.
    + destruct (Z.ltb_spec (Z.of_nat k) (total mod n)); lia.
    + unfold U32.in_range. destruct (Z.ltb_spec (Z.of_nat k) (total mod n)); nia.
Qed.

End ValidGrid.

(** ** Construction succeeds *)

Section Construction.
Context {P : Platform}.

Lemma bcast_succeeds a b output math src0 src1 dst :
  valid_grid (compute_and_storage_grid_size (device a)) ->
  buffer a = Some src0 -> buffer b = Some src1 -> buffer output = Some dst ->
  exists pwc, bcast_multi_core_hw a b output math BcastOpDim.HW = Ok pwc.
Proof.
  intros Hgrid Ha Hb Ho.
  rewrite (bcast_multi_core_hw_unfold _ _ _ _ _ _ _ Ha Hb Ho).
  destruct (valid_grid_nonneg a Hgrid) as (Hx & Hy & Ht).
  destruct (runtime_args_loop_succeeds (loop_env a b src0 src1 dst)
              (seqZ 0 (bcast_num_cores a))
              (mkProgram (bcast_circular_buffers a)
                 (reader_kernel a src0 src1 ∅ :: writer_kernel a dst ∅
                  :: compute_kernels a math), 0)) as [[p off] ->].
  - intros Hne. change (bcast_num_cores_y a <> 0).
    rewrite bcast_num_cores_y_valid by assumption.
    rewrite bcast_num_cores_valid in Hne by assumption.
    intros E. apply Hne. rewrite E, Z.mul_0_r. apply seqZ_nil. lia.
  - intros i Hi. apply elem_of_seqZ in Hi.
    rewrite bcast_num_cores_valid in Hi by assumption.
    rewrite (tiles_of_valid a b src0 src1 dst Hgrid i) by lia. eauto.
  - eauto.
Qed.

(** C9 (every visited core belongs to a group).  On a device grid, every
    core index [i < num_cores] visited by the runtime-argument loop maps to a
    coordinate [(i / rows, i % rows)] that is a member of group 1 or of
    group 2, so construction never ends in the fatal "Core not in specified
    core ranges"; the loop, for any groups whatsoever, ends in that error
    only if some visited core is in neither group. *)
Theorem visited_core_in_a_group a b output math dim :
  valid_grid (compute_and_storage_grid_size (device a)) ->
  let ws := split_work_to_cores (compute_and_storage_grid_size (device a))
              (num_tensor_tiles a) in
  (forall i, 0 <= i < bcast_num_cores a ->
     core_coord_in_core_ranges (core_group_1 ws) (core_of_index (bcast_num_cores_y a) i) = true \/
     core_coord_in_core_ranges (core_group_2 ws) (core_of_index (bcast_num_cores_y a) i) = true) /\
  bcast_multi_core_hw a b output math dim <> Fatal "Core not in specified core ranges" /\
  (forall e indices st,
     runtime_args_loop e indices st = Fatal "Core not in specified core ranges" ->
     exists i, i ∈ indices /\
       core_coord_in_core_ranges (env_core_group_1 e)
         (core_of_index (env_num_cores_y e) i) = false /\
       core_coord_in_core_ranges (env_core_group_2 e)
         (core_of_index (env_num_cores_y e) i) = false).
Proof.
  intros Hgrid ws. subst ws.
  destruct (valid_grid_nonneg a Hgrid) as (Hx & Hy & Ht).
  split; [|split].
  - intros i Hi. rewrite bcast_num_cores_y_valid by assumption.
    rewrite bcast_num_cores_valid in Hi by assumption.
    rewrite (split_group_1_index _ _ Hx Hy Ht i Hi), (split_group_2_index _ _ Hx Hy Ht i Hi).
    destruct (Z.ltb_spec i (num_tensor_tiles a mod
                Z.min (x (compute_and_storage_grid_size (device a)) *
                       y (compute_and_storage_grid_size (device a))) (num_tensor_tiles a))).
    + left. reflexivity.
    + right. apply Z.leb_le. lia.
  - destruct dim; try (simpl; discriminate).
    destruct (buffer output) as [dst|] eqn:Ho;
      [|unfold bcast_multi_core_hw; rewrite Ho; discriminate].
    destruct (buffer a) as [src0|] eqn:Ha;
      [|unfold bcast_multi_core_hw; rewrite Ho, Ha; discriminate].
    destruct (buffer b) as [src1|] eqn:Hb;
      [|unfold bcast_multi_core_hw; rewrite Ho, Ha, Hb; discriminate].
    destruct (bcast_succeeds a b output math src0 src1 dst Hgrid Ha Hb Ho) as [pwc ->].
    discriminate.
  - intros e indices st. apply runtime_args_loop_fatal.
Qed.

End Construction.

(** ** The windows of the active cores *)

Lemma staircase_cover (o : Z -> Z) n t :
  0 <= n -> o 0 <= t < o n -> exists i, 0 <= i < n /\ o i <= t < o (i + 1).
Proof.
  intros Hn. pattern n. apply natlike_ind; [| |exact Hn].
  - lia.
  - intros k Hk IH Ht. unfold Z.succ in *.
    destruct (Z.lt_ge_cases t (o k)) as [Hlt|Hge].
    + destruct (IH ltac:(lia)) as (i & Hi & Hw). exists i. split; [lia|exact Hw].
    + exists k. lia.
Qed.

Section Windows.
Context {P : Platform}.

Lemma reader_args_built a b output math dim pwc i :
  bcast_multi_core_hw a b output math dim = Ok pwc ->
  0 <= i < bcast_num_cores a ->
  exists src0 src1 dst t,
    buffer a = Some src0 /\ buffer b = Some src1 /\ buffer output = Some dst /\
    tiles_of (loop_env a b src0 src1 dst) i = Some t /\
    reader_args pwc i =
      Some (reader_runtime_args (loop_env a b src0 src1 dst) t
              (tiles_read (loop_env a b src0 src1 dst) (Z.to_nat i))) /\
    writer_args pwc i =
      Some (writer_runtime_args (loop_env a b src0 src1 dst) t
              (tiles_read (loop_env a b src0 src1 dst) (Z.to_nat i))).
Proof.
  intros Hb Hi.
  destruct (bcast_built _ _ _ _ _ _ Hb)
    as (src0 & src1 & dst & mr & mw & -> & Ha & Hb' & Ho & -> & Hy & Hact & Hoth).
  destruct (Hact i Hi) as (t & Ht & Hr & Hw).
  exists src0, src1, dst, t. repeat split; assumption.
Qed.

Lemma core_window_valid a b output math dim pwc i :
  valid_grid (compute_and_storage_grid_size (device a)) ->
  bcast_multi_core_hw a b output math dim = Ok pwc ->
  let grid := compute_and_storage_grid_size (device a) in
  let total := num_tensor_tiles a in
  let n := Z.min (x grid * y grid) total in
  0 <= i < n ->
  core_window pwc i =
    Some (i * (total / n) + Z.min i (total mod n),
          if i <? total mod n then total / n + 1 else total / n) /\
  writer_args pwc i ≫= (fun args => args !! 2%nat)
    = Some (i * (total / n) + Z.min i (total mod n)) /\
  writer_args pwc i ≫= (fun args => args !! 1%nat)
    = Some (if i <? total mod n then total / n + 1 else total / n).
Proof.
  intros Hgrid Hb grid total n Hi.
  destruct (reader_args_built _ _ _ _ _ _ i Hb) as
    (src0 & src1 & dst & t & Ha & Hb' & Ho & Ht & Hr & Hw).
  { rewrite bcast_num_cores_valid by assumption. exact Hi. }
  rewrite (tiles_of_valid a b src0 src1 dst Hgrid i Hi) in Ht. injection Ht as <-.
  rewrite (tiles_read_valid a b src0 src1 dst Hgrid) in Hr, Hw by (fold grid total n; lia).
  rewrite Z2Nat.id in Hr, Hw by lia.
  unfold core_window. rewrite Hr, Hw. repeat split; reflexivity.
Qed.

(** C1 (tiling partition).  On a device grid, which has at least one core
    when there is a tile to process, for every total tile count, the windows [[next_tile, next_tile + tiles_per_core)] stored by the
    runtime-argument loop for the active cores, visited in the order
    [i -> (i / rows, i % rows)], start at 0, follow one another without gap,
    end at [total], and partition [[0, total)]: a tile lies in some window
    iff it is in [[0, total)], and no tile lies in two windows.  The number of
    windows is the splitter's [num_cores], and the writer receives the same
    window as the reader. *)
Theorem windows_partition a b output math dim pwc :
  valid_grid (compute_and_storage_grid_size (device a)) ->
  (0 < num_tensor_tiles a -> nonempty_grid (compute_and_storage_grid_size (device a))) ->
  bcast_multi_core_hw a b output math dim = Ok pwc ->
  let n := cb_num_cores (override_callback pwc) in
  let total := num_tensor_tiles a in
  n = num_cores (split_work_to_cores (compute_and_storage_grid_size (device a)) total) /\
  (forall i, 0 <= i < n ->
     exists next_tile tiles_per_core,
       core_window pwc i = Some (next_tile, tiles_per_core) /\
       writer_args pwc i ≫= (fun args => args !! 2%nat) = Some next_tile /\
       writer_args pwc i ≫= (fun args => args !! 1%nat) = Some tiles_per_core /\
       0 <= tiles_per_core /\
       (i = 0 -> next_tile = 0) /\
       (i + 1 < n -> fst <$> core_window pwc (i + 1) = Some (next_tile + tiles_per_core)) /\
       (i + 1 = n -> next_tile + tiles_per_core = total)) /\
  (forall t, 0 <= t < total <-> exists i, 0 <= i < n /\ in_window (core_window pwc i) t) /\
  (forall i j t, 0 <= i < n -> 0 <= j < n ->
     in_window (core_window pwc i) t -> in_window (core_window pwc j) t -> i = j).
Proof.
  intros Hgrid Hcores Hb n total.
  pose proof (core_window_valid a b output math dim pwc) as Hwin.
  specialize (fun i => Hwin i Hgrid Hb). cbv zeta in Hwin.
  assert (n = Z.min (x (compute_and_storage_grid_size (device a)) *
                     y (compute_and_storage_grid_size (device a))) total) as Hn.
  { destruct (bcast_built _ _ _ _ _ _ Hb)
      as (src0 & src1 & dst & mr & mw & _ & _ & _ & _ & -> & _).
    subst n. simpl. apply bcast_num_cores_valid. exact Hgrid. }
  fold total in Hwin. rewrite <- Hn in Hwin.
  pose proof (num_tensor_tiles_range a) as Htr. fold total in Htr. unfold U32.in_range in Htr.
  destruct (valid_grid_nonneg a Hgrid) as (Hx & Hy & _).
  assert (0 <= n) as Hn0 by nia.
  assert (n = 0 -> total = 0) as Hz.
  { intros Hzero. destruct (Z.eq_dec total 0) as [|Hpos]; [assumption|].
    destruct (Hcores ltac:(lia)) as [Hcols Hrows]. nia. }
  set (base := total / n) in *. set (R := total mod n) in *.
  assert (0 < n -> 0 <= base /\ 0 <= R < n /\ total = n * base + R) as Hdm.
  { intros Hpos. subst base R.
    pose proof (Z.div_mod total n ltac:(lia)). pose proof (Z.mod_pos_bound total n Hpos).
    assert (0 <= total / n) by (apply Z.div_pos; lia). lia. }
  clearbody base R.
  set (o := fun i => i * base + Z.min i R).
  split; [exact Hn|]. split; [|split].
  - intros i Hi. destruct (Hwin i Hi) as (Hw & Hw2 & Hw1).
    destruct (Hdm ltac:(lia)) as (Hb0 & HR & Htot).
    eexists _, _. split; [exact Hw|]. split; [exact Hw2|]. split; [exact Hw1|].
    split; [destruct (i <? R); lia|]. split; [intros ->; lia|]. split.
    + intros Hlt. destruct (Hwin (i + 1) ltac:(lia)) as (-> & _). simpl. f_equal.
      destruct (Z.ltb_spec i R); lia.
    + intros Hlast. destruct (Z.ltb_spec i R); nia.
  - intros t. split.
    + intros Ht. assert (0 < n) as Hpos by lia.
      destruct (Hdm Hpos) as (Hb0 & HR & Htot).
      destruct (staircase_cover o n t Hn0) as (i & Hi & Hti).
      { subst o. simpl. lia. }
      exists i. split; [exact Hi|]. destruct (Hwin i Hi) as (-> & _). simpl.
      subst o. simpl in Hti. destruct (Z.ltb_spec i R); lia.
    + intros (i & Hi & Hin). destruct (Hwin i Hi) as (Hw & _). rewrite Hw in Hin. simpl in Hin.
      destruct (Hdm ltac:(lia)) as (Hb0 & HR & Htot).
      destruct (Z.ltb_spec i R); nia.
  - intros i j t Hi Hj Hin1 Hin2.
    destruct (Hwin i Hi) as (Hw1 & _). destruct (Hwin j Hj) as (Hw2 & _).
    rewrite Hw1 in Hin1. rewrite Hw2 in Hin2. simpl in Hin1, Hin2.
    destruct (Hdm ltac:(lia)) as (Hb0 & HR & Htot).
    destruct (Z.lt_trichotomy i j) as [Hlt|[Heq|Hgt]]; [exfalso|exact Heq|exfalso].
    + destruct (Z.ltb_spec i R), (Z.ltb_spec j R); nia.
    + destruct (Z.ltb_spec i R), (Z.ltb_spec j R); nia.
Qed.

End Windows.

(** ** The override callback in closed form *)

Section PatchFacts.
Context {P : Platform}.

Lemma insert_as_alter (f : list Z -> list Z) (m : gmap (Z * Z) (list Z)) key l :
  m !! key = Some l -> <[key := f l]> m = alter f key m.
Proof.
  intros Hl. apply map_eq. intros k.
  rewrite lookup_insert, lookup_alter.
  destruct (decide (key = k)) as [<-|]; [rewrite Hl|]; reflexivity.
Qed.

Lemma lookup_patch_map (f : list Z -> list Z) (keys : list (Z * Z)) (m : gmap (Z * Z) (list Z)) (key : Z * Z) :
  (forall l, f (f l) = f l) ->
  patch_map f keys m !! key = if decide (key ∈ keys) then f <$> m !! key else m !! key.
Proof.
  intros Hf. unfold patch_map. revert m.
  induction keys as [|k keys IH]; intros m; simpl.
  - destruct (decide (key ∈ [])) as [Hin|]; [inversion Hin|reflexivity].
  - rewrite IH, lookup_alter.
    destruct (decide (key ∈ k :: keys)) as [Hin|Hnin];
      destruct (decide (key ∈ keys)) as [Hin'|Hnin'];
      destruct (decide (k = key)) as [Heq|Hne];
      try subst k;
      try subst k;
      try (destruct (m !! key); simpl; rewrite ?Hf; reflexivity);
      exfalso; rewrite elem_of_cons in *; intuition congruence.
Qed.

Lemma patch_reader_args_idemp sa sb l :
  patch_reader_args sa sb (patch_reader_args sa sb l) = patch_reader_args sa sb l.
Proof.
  unfold patch_reader_args.
  rewrite (list_insert_insert_ne _ 0 4) by lia.
  rewrite !list_insert_insert_eq. reflexivity.
Qed.

Lemma patch_writer_args_idemp d l :
  patch_writer_args d (patch_writer_args d l) = patch_writer_args d l.
Proof. unfold patch_writer_args. apply list_insert_insert_eq. Qed.

Lemma length_patch_reader_args sa sb l : length (patch_reader_args sa sb l) = length l.
Proof. unfold patch_reader_args. rewrite !length_insert. reflexivity. Qed.

Lemma length_patch_writer_args d l : length (patch_writer_args d l) = length l.
Proof. unfold patch_writer_args. apply length_insert. Qed.

Lemma override_core_shape cb sa sb d i cbs k0 k1 rest lr lw :
  cb_binary_reader_kernel cb = 0%nat ->
  cb_unary_writer_kernel cb = 1%nat ->
  cb_num_cores_y cb <> 0 ->
  runtime_args k0 !! core_key (core_of_index (cb_num_cores_y cb) i) = Some lr ->
  (4 < length lr)%nat ->
  runtime_args k1 !! core_key (core_of_index (cb_num_cores_y cb) i) = Some lw ->
  (0 < length lw)%nat ->
  override_core_runtime_args cb sa sb d i (mkProgram cbs (k0 :: k1 :: rest)) =
  (Ok tt,
   mkProgram cbs
     (with_runtime_args k0
        (alter (patch_reader_args sa sb) (core_key (core_of_index (cb_num_cores_y cb) i))
           (runtime_args k0))
      :: with_runtime_args k1
        (alter (patch_writer_args d) (core_key (core_of_index (cb_num_cores_y cb) i))
           (runtime_args k1))
      :: rest)).
Proof.
  intros Hr Hw Hy Hlr Hlen Hlw Hlenw.
  unfold override_core_runtime_args.
  destruct (Z.eqb_spec (cb_num_cores_y cb) 0) as [|_]; [contradiction|].
  rewrite Hr, Hw. unfold GetRuntimeArgs, kernel_runtime_args. simpl.
  rewrite Hlr, Hlw. simpl.
  unfold store_arg. rewrite decide_True by lia. simpl.
  rewrite decide_True by (rewrite length_insert; lia).
  rewrite decide_True by lia.
  unfold SetRuntimeArgs, update_kernel. simpl.
  change (<[4%nat:=address sb]> (<[0%nat:=address sa]> lr)) with (patch_reader_args sa sb lr).
  change (<[0%nat:=address d]> lw) with (patch_writer_args d lw).
  rewrite (insert_as_alter (patch_reader_args sa sb) _ _ lr Hlr).
  rewrite (insert_as_alter (patch_writer_args d) _ _ lw Hlw).
  reflexivity.
Qed.

Lemma override_loop_closed cb sa sb d (indices : list Z) cbs k0 k1 rest :
  cb_binary_reader_kernel cb = 0%nat ->
  cb_unary_writer_kernel cb = 1%nat ->
  (indices <> [] -> cb_num_cores_y cb <> 0) ->
  (forall i, i ∈ indices ->
     exists l, runtime_args k0 !! core_key (core_of_index (cb_num_cores_y cb) i) = Some l /\
               (4 < length l)%nat) ->
  (forall i, i ∈ indices ->
     exists l, runtime_args k1 !! core_key (core_of_index (cb_num_cores_y cb) i) = Some l /\
               (0 < length l)%nat) ->
  let keys := (fun i => core_key (core_of_index (cb_num_cores_y cb) i)) <$> indices in
  override_loop cb sa sb d indices (mkProgram cbs (k0 :: k1 :: rest)) =
  (Ok tt,
   mkProgram cbs
     (with_runtime_args k0 (patch_map (patch_reader_args sa sb) keys (runtime_args k0))
      :: with_runtime_args k1 (patch_map (patch_writer_args d) keys (runtime_args k1))
      :: rest)).
Proof.
  intros Hr Hw. revert k0 k1.
  induction indices as [|i indices IH]; intros k0 k1 Hy Hk0 Hk1 keys.
  - simpl. destruct k0, k1. reflexivity.
  - cbn [override_loop].
    destruct (Hk0 i ltac:(left)) as (lr & Hlr & Hlenr).
    destruct (Hk1 i ltac:(left)) as (lw & Hlw & Hlenw).
    rewrite (override_core_shape cb sa sb d i cbs k0 k1 rest lr lw Hr Hw
               (Hy ltac:(discriminate)) Hlr Hlenr Hlw Hlenw).
    rewrite IH.
    + subst keys. unfold patch_map, with_runtime_args.
      cbn [runtime_args kernel_path kernel_core_ranges compile_time_args kernel_config
           defines fmap list_fmap foldl].
      reflexivity.
    + intros _. apply Hy. discriminate.
    + intros j Hj. unfold with_runtime_args. cbn [runtime_args]. rewrite lookup_alter.
      destruct (Hk0 j ltac:(right; exact Hj)) as (l & Hl & Hlen).
      destruct (decide _) as [E|E].
      * rewrite E, Hl. cbn [fmap option_fmap option_map]. eexists. split; [reflexivity|].
        rewrite length_patch_reader_args. exact Hlen.
      * rewrite Hl. eexists. split; [reflexivity|exact Hlen].
    + intros j Hj. unfold with_runtime_args. cbn [runtime_args]. rewrite lookup_alter.
      destruct (Hk1 j ltac:(right; exact Hj)) as (l & Hl & Hlen).
      destruct (decide _) as [E|E].
      * rewrite E, Hl. cbn [fmap option_fmap option_map]. eexists. split; [reflexivity|].
        rewrite length_patch_writer_args. exact Hlen.
      * rewrite Hl. eexists. split; [reflexivity|exact Hlen].
Qed.

End PatchFacts.

Section PatchClaims.
Context {P : Platform}.

Lemma patch_map_idemp (f : list Z -> list Z) (keys : list (Z * Z))
    (m : gmap (Z * Z) (list Z)) :
  (forall l, f (f l) = f l) ->
  patch_map f keys (patch_map f keys m) = patch_map f keys m.
Proof.
  intros Hf. apply map_eq. intros key.
  rewrite !lookup_patch_map by exact Hf.
  destruct (decide (key ∈ keys)); [|reflexivity].
  destruct (m !! key); cbn [fmap option_fmap option_map]; [rewrite Hf|]; reflexivity.
Qed.

Lemma with_runtime_args_twice k m m' :
  with_runtime_args (with_runtime_args k m) m' = with_runtime_args k m'.
Proof.
  unfold with_runtime_args.
  cbn [kernel_path kernel_core_ranges compile_time_args kernel_config defines].
  reflexivity.
Qed.

Lemma runtime_args_with k m : runtime_args (with_runtime_args k m) = m.
Proof. unfold with_runtime_args. cbn [runtime_args]. reflexivity. Qed.

Lemma callback_closed cb sa sb d input_buffers output_buffers cbs k0 k1 rest :
  cb_binary_reader_kernel cb = 0%nat ->
  cb_unary_writer_kernel cb = 1%nat ->
  (0 < cb_num_cores cb -> cb_num_cores_y cb <> 0) ->
  (forall i, 0 <= i < cb_num_cores cb ->
     exists l, runtime_args k0 !! core_key (core_of_index (cb_num_cores_y cb) i) = Some l /\
               (4 < length l)%nat) ->
  (forall i, 0 <= i < cb_num_cores cb ->
     exists l, runtime_args k1 !! core_key (core_of_index (cb_num_cores_y cb) i) = Some l /\
               (0 < length l)%nat) ->
  input_buffers !! 0%nat = Some sa ->
  input_buffers !! 1%nat = Some sb ->
  output_buffers !! 0%nat = Some d ->
  override_runtime_args_callback cb input_buffers output_buffers
    (mkProgram cbs (k0 :: k1 :: rest)) =
  (Ok tt,
   mkProgram cbs
     (with_runtime_args k0
        (patch_map (patch_reader_args sa sb) (active_keys cb) (runtime_args k0))
      :: with_runtime_args k1
        (patch_map (patch_writer_args d) (active_keys cb) (runtime_args k1))
      :: rest)).
Proof.
  intros Hr Hw Hy Hk0 Hk1 Ha Hb Hd.
  unfold override_runtime_args_callback. rewrite Ha, Hb, Hd.
  apply override_loop_closed; try assumption.
  - intros Hne. apply Hy. destruct (Z.lt_ge_cases 0 (cb_num_cores cb)) as [|Hle]; [assumption|].
    exfalso. apply Hne. apply seqZ_nil. lia.
  - intros i Hi. apply elem_of_seqZ in Hi. apply Hk0. lia.
  - intros i Hi. apply elem_of_seqZ in Hi. apply Hk1. lia.
Qed.

Lemma active_key_elem cb i :
  0 <= i < cb_num_cores cb ->
  core_key (core_of_index (cb_num_cores_y cb) i) ∈ active_keys cb.
Proof.
  intros Hi. unfold active_keys. apply list_elem_of_fmap. exists i. split; [reflexivity|].
  apply elem_of_seqZ. lia.
Qed.

Lemma callback_twice cb sa sb d input_buffers output_buffers cbs k0 k1 rest :
  cb_binary_reader_kernel cb = 0%nat ->
  cb_unary_writer_kernel cb = 1%nat ->
  (0 < cb_num_cores cb -> cb_num_cores_y cb <> 0) ->
  (forall i, 0 <= i < cb_num_cores cb ->
     exists l, runtime_args k0 !! core_key (core_of_index (cb_num_cores_y cb) i) = Some l /\
               (4 < length l)%nat) ->
  (forall i, 0 <= i < cb_num_cores cb ->
     exists l, runtime_args k1 !! core_key (core_of_index (cb_num_cores_y cb) i) = Some l /\
               (0 < length l)%nat) ->
  input_buffers !! 0%nat = Some sa ->
  input_buffers !! 1%nat = Some sb ->
  output_buffers !! 0%nat = Some d ->
  forall once,
    override_runtime_args_callback cb input_buffers output_buffers
      (mkProgram cbs (k0 :: k1 :: rest)) = (Ok tt, once) ->
    override_runtime_args_callback cb input_buffers output_buffers once = (Ok tt, once).
Proof.
  intros Hr Hw Hy Hk0 Hk1 Ha Hb Hd once.
  rewrite (callback_closed cb sa sb d _ _ cbs k0 k1 rest Hr Hw Hy Hk0 Hk1 Ha Hb Hd).
  intros [= <-].
  rewrite (callback_closed cb sa sb d _ _ cbs _ _ rest Hr Hw Hy); try assumption.
  - rewrite !with_runtime_args_twice, !runtime_args_with.
    rewrite (patch_map_idemp _ _ _ (patch_reader_args_idemp sa sb)).
    rewrite (patch_map_idemp _ _ _ (patch_writer_args_idemp d)).
    reflexivity.
  - intros i Hi. rewrite runtime_args_with.
    rewrite lookup_patch_map by apply patch_reader_args_idemp.
    rewrite decide_True by (apply active_key_elem; exact Hi).
    destruct (Hk0 i Hi) as (l & -> & Hlen). cbn [fmap option_fmap option_map].
    eexists. split; [reflexivity|]. rewrite length_patch_reader_args. exact Hlen.
  - intros i Hi. rewrite runtime_args_with.
    rewrite lookup_patch_map by apply patch_writer_args_idemp.
    rewrite decide_True by (apply active_key_elem; exact Hi).
    destruct (Hk1 i Hi) as (l & -> & Hlen). cbn [fmap option_fmap option_map].
    eexists. split; [reflexivity|]. rewrite length_patch_writer_args. exact Hlen.
Qed.

Lemma stored_runtime_args_ready a b src0 src1 dst mr mw :
  stored_runtime_args a b src0 src1 dst mr mw ->
  (0 < bcast_num_cores a -> bcast_num_cores_y a <> 0) /\
  (forall i, 0 <= i < bcast_num_cores a ->
     exists l, mr !! core_key (core_of_index (bcast_num_cores_y a) i) = Some l /\
               (4 < length l)%nat) /\
  (forall i, 0 <= i < bcast_num_cores a ->
     exists l, mw !! core_key (core_of_index (bcast_num_cores_y a) i) = Some l /\
               (0 < length l)%nat).
Proof.
  intros (Hy & Hact & _). split; [exact Hy|]. split; intros i Hi.
  - destruct (Hact i Hi) as (t & _ & Hr & _). eexists. split; [exact Hr|]. simpl. lia.
  - destruct (Hact i Hi) as (t & _ & _ & Hw). eexists. split; [exact Hw|]. simpl. lia.
Qed.

End PatchClaims.

(** ** The override callback: frame and idempotence *)

Section PatchTheorems.
Context {P : Platform}.

Lemma patch_reader_args_frame sa sb args slot :
  slot <> 0%nat -> slot <> 4%nat ->
  patch_reader_args sa sb args !! slot = args !! slot.
Proof.
  intros H0 H4. unfold patch_reader_args.
  rewrite !list_lookup_insert_ne by congruence. reflexivity.
Qed.

Lemma patch_writer_args_frame d args slot :
  slot <> 0%nat -> patch_writer_args d args !! slot = args !! slot.
Proof.
  intros H0. unfold patch_writer_args.
  rewrite list_lookup_insert_ne by congruence. reflexivity.
Qed.

(** The frame left by [patch_map] on one argument map. *)
Lemma patch_map_frame (f : list Z -> list Z) (keys : list (Z * Z))
    (m : gmap (Z * Z) (list Z)) (touched : nat -> bool) (key : Z * Z) :
  (forall l, f (f l) = f l) ->
  (forall l, length (f l) = length l) ->
  (forall l slot, touched slot = false -> f l !! slot = l !! slot) ->
  (key ∉ keys -> patch_map f keys m !! key = m !! key) /\
  match m !! key, patch_map f keys m !! key with
  | Some args, Some args' =>
      length args' = length args /\
      forall slot, touched slot = false -> args' !! slot = args !! slot
  | None, None => True
  | _, _ => False
  end.
Proof.
  intros Hf Hlen Hkeep. rewrite lookup_patch_map by exact Hf. split.
  - intros Hnin. rewrite decide_False by exact Hnin. reflexivity.
  - destruct (decide (key ∈ keys)); destruct (m !! key) as [args|];
      cbn [fmap option_fmap option_map]; auto.
Qed.

(** C4 (patch isolation).  For every built Program and every pair of buffer
    lists, the override callback leaves the queues (index, cores, capacity,
    byte size, format) as they are, keeps the number of kernels, and for every
    kernel keeps its path, core ranges, compile-time arguments, configuration
    and defines; in the runtime arguments it touches only the argument
    vectors of the active cores, keeps their lengths, and changes no slot
    other than the address-bearing ones (reader slots 0 and 4, writer
    slot 0). *)
Theorem patch_changes_only_addresses a b output math dim pwc input_buffers output_buffers :
  bcast_multi_core_hw a b output math dim = Ok pwc ->
  let p := program pwc in
  let p' := patched pwc input_buffers output_buffers in
  let cb := override_callback pwc in
  circular_buffers p' = circular_buffers p /\
  length (kernels p') = length (kernels p) /\
  forall h k k',
    kernels p !! h = Some k -> kernels p' !! h = Some k' ->
    kernel_path k' = kernel_path k /\
    kernel_core_ranges k' = kernel_core_ranges k /\
    compile_time_args k' = compile_time_args k /\
    kernel_config k' = kernel_config k /\
    defines k' = defines k /\
    forall key : Z * Z,
      (key ∉ active_keys cb -> runtime_args k' !! key = runtime_args k !! key) /\
      match runtime_args k !! key, runtime_args k' !! key with
      | Some args, Some args' =>
          length args' = length args /\
          forall slot, address_slot cb h slot = false -> args' !! slot = args !! slot
      | None, None => True
      | _, _ => False
      end.
Proof.
  intros Hbuilt p p' cb.
  destruct (bcast_built _ _ _ _ _ _ Hbuilt)
    as (src0 & src1 & dst & mr & mw & -> & Ha & Hb & Ho & -> & Hstored).
  destruct (stored_runtime_args_ready _ _ _ _ _ _ _ Hstored) as (Hy & Hk0 & Hk1).
  assert (Hsame :
    forall q, q = p ->
      circular_buffers q = circular_buffers p /\
      length (kernels q) = length (kernels p) /\
      forall h k k',
        kernels p !! h = Some k -> kernels q !! h = Some k' ->
        kernel_path k' = kernel_path k /\
        kernel_core_ranges k' = kernel_core_ranges k /\
        compile_time_args k' = compile_time_args k /\
        kernel_config k' = kernel_config k /\
        defines k' = defines k /\
        forall key : Z * Z,
          (key ∉ active_keys cb -> runtime_args k' !! key = runtime_args k !! key) /\
          match runtime_args k !! key, runtime_args k' !! key with
          | Some args, Some args' =>
              length args' = length args /\
              forall slot, address_slot cb h slot = false -> args' !! slot = args !! slot
          | None, None => True
          | _, _ => False
          end).
  { intros q ->. split; [reflexivity|]. split; [reflexivity|].
    intros h k k' Hk Hk'. rewrite Hk in Hk'. injection Hk' as <-.
    do 5 (split; [reflexivity|]).
    intros ky. split; [reflexivity|]. destruct (runtime_args k !! ky); auto. }
  subst p'. unfold patched.
  cbn [program override_callback].
  unfold override_runtime_args_callback.
  destruct (input_buffers !! 0%nat) as [sa|] eqn:E0; [|apply Hsame; reflexivity].
  destruct (input_buffers !! 1%nat) as [sb|] eqn:E1; [|apply Hsame; reflexivity].
  destruct (output_buffers !! 0%nat) as [d|] eqn:E2; [|apply Hsame; reflexivity].
  clear Hsame.
  pose proof (callback_closed cb sa sb d input_buffers output_buffers
                (bcast_circular_buffers a) (reader_kernel a src0 src1 mr)
                (writer_kernel a dst mw) (compute_kernels a math)
                eq_refl eq_refl Hy Hk0 Hk1 E0 E1 E2) as Hcl.
  unfold override_runtime_args_callback in Hcl. rewrite E0, E1, E2 in Hcl.
  subst cb. cbn [override_callback cb_num_cores] in *.
  rewrite Hcl. clear Hcl. cbn [snd].
  subst p. cbn [program circular_buffers kernels].
  split; [reflexivity|]. split; [reflexivity|].
  intros h k k' Hk Hk'.
  destruct h as [|[|h]]; cbn [lookup list_lookup] in Hk, Hk'.
  - injection Hk as <-. injection Hk' as <-.
    rewrite runtime_args_with. unfold with_runtime_args.
    cbn [kernel_path kernel_core_ranges compile_time_args kernel_config defines].
    do 5 (split; [reflexivity|]).
    intros ky. unfold reader_kernel. cbn [runtime_args].
    apply patch_map_frame.
    + apply patch_reader_args_idemp.
    + apply length_patch_reader_args.
    + intros l slot Hslot. unfold address_slot in Hslot.
      cbn [cb_binary_reader_kernel cb_unary_writer_kernel] in Hslot.
      rewrite (bool_decide_true (0%nat = 0%nat)), (bool_decide_false (0%nat = 1%nat)) in Hslot
        by congruence.
      cbn [andb orb] in Hslot. rewrite orb_false_r in Hslot.
      apply orb_false_iff in Hslot as [H0 H4].
      apply bool_decide_eq_false in H0, H4.
      apply patch_reader_args_frame; assumption.
  - injection Hk as <-. injection Hk' as <-.
    rewrite runtime_args_with. unfold with_runtime_args.
    cbn [kernel_path kernel_core_ranges compile_time_args kernel_config defines].
    do 5 (split; [reflexivity|]).
    intros ky. unfold writer_kernel. cbn [runtime_args].
    apply patch_map_frame.
    + apply patch_writer_args_idemp.
    + apply length_patch_writer_args.
    + intros l slot Hslot. unfold address_slot in Hslot.
      cbn [cb_binary_reader_kernel cb_unary_writer_kernel] in Hslot.
      rewrite (bool_decide_false (1%nat = 0%nat)), (bool_decide_true (1%nat = 1%nat)) in Hslot
        by congruence.
      cbn [andb orb] in Hslot.
      apply bool_decide_eq_false in Hslot.
      apply patch_writer_args_frame; assumption.
  - rewrite Hk in Hk'. injection Hk' as <-.
    do 5 (split; [reflexivity|]).
    intros ky. split; [reflexivity|]. destruct (runtime_args k !! ky); auto.
Qed.

(** C5 (idempotent patch).  For every built Program and every pair of buffer
    lists, invoking the override callback a second time with the same buffers
    ends the same way and leaves the Program, hence every kernel's runtime
    arguments, exactly as the first invocation left it. *)
Theorem patch_idempotent a b output math dim pwc input_buffers output_buffers :
  bcast_multi_core_hw a b output math dim = Ok pwc ->
  let cb := override_callback pwc in
  let first := override_runtime_args_callback cb input_buffers output_buffers (program pwc) in
  override_runtime_args_callback cb input_buffers output_buffers first.2 = first.
Proof.
  intros Hbuilt cb first.
  destruct (bcast_built _ _ _ _ _ _ Hbuilt)
    as (src0 & src1 & dst & mr & mw & -> & Ha & Hb & Ho & -> & Hstored).
  destruct (stored_runtime_args_ready _ _ _ _ _ _ _ Hstored) as (Hy & Hk0 & Hk1).
  subst first. cbn [program override_callback] in *.
  destruct (input_buffers !! 0%nat) as [sa|] eqn:E0;
    [|unfold override_runtime_args_callback; rewrite ?E0; cbn [snd]; rewrite ?E0; reflexivity].
  destruct (input_buffers !! 1%nat) as [sb|] eqn:E1;
    [|unfold override_runtime_args_callback; rewrite ?E0, ?E1; cbn [snd]; rewrite ?E0, ?E1;
      reflexivity].
  destruct (output_buffers !! 0%nat) as [d|] eqn:E2;
    [|unfold override_runtime_args_callback; rewrite ?E0, ?E1, ?E2; cbn [snd];
      rewrite ?E0, ?E1, ?E2; reflexivity].
  pose proof (callback_closed cb sa sb d input_buffers output_buffers
                (bcast_circular_buffers a) (reader_kernel a src0 src1 mr)
                (writer_kernel a dst mw) (compute_kernels a math)
                eq_refl eq_refl Hy Hk0 Hk1 E0 E1 E2) as Hcl.
  pose proof (callback_twice cb sa sb d input_buffers output_buffers
                (bcast_circular_buffers a) (reader_kernel a src0 src1 mr)
                (writer_kernel a dst mw) (compute_kernels a math)
                eq_refl eq_refl Hy Hk0 Hk1 E0 E1 E2 _ Hcl) as Htw.
  rewrite Hcl. cbn [snd]. exact Htw.
Qed.

End PatchTheorems.

(** ** Queues, flags and tile counts of the built Program *)

Section ArgumentClaims.
Context {P : Platform}.

Lemma built_callback a b output math dim pwc :
  bcast_multi_core_hw a b output math dim = Ok pwc ->
  override_callback pwc = mkCallback 0 1 (bcast_num_cores a) (bcast_num_cores_y a).
Proof.
  intros Hb. destruct (bcast_built _ _ _ _ _ _ Hb)
    as (src0 & src1 & dst & mr & mw & _ & _ & _ & _ & -> & _). reflexivity.
Qed.

Lemma mul_wrap_product n c h w :
  U32.mul (U32.mul (U32.mul n c) h) w = (n * c * h * w) mod U32.modulus.
Proof.
  unfold U32.mul, U32.wrap.
  rewrite Z.mul_mod_idemp_l by (unfold U32.modulus; lia).
  rewrite <- (Z.mul_assoc _ h w).
  rewrite Z.mul_mod_idemp_l by (unfold U32.modulus; lia).
  rewrite Z.mul_assoc. reflexivity.
Qed.

Lemma group_core_visited a c :
  let grid := compute_and_storage_grid_size (device a) in
  let ws := split_work_to_cores grid (num_tensor_tiles a) in
  valid_grid grid ->
  core_coord_in_core_ranges (core_group_1 ws) c = true \/
  core_coord_in_core_ranges (core_group_2 ws) c = true ->
  exists i, 0 <= i < bcast_num_cores a /\ c = core_of_index (bcast_num_cores_y a) i.
Proof.
  intros grid ws Hgrid Hin.
  destruct (valid_grid_nonneg a Hgrid) as (Hx & Hy & Ht). fold grid in Hx, Hy.
  pose proof (split_group_1_iff grid (num_tensor_tiles a) Hx Hy Ht c) as G1.
  pose proof (split_group_2_iff grid (num_tensor_tiles a) Hx Hy Ht c) as G2.
  fold ws in G1, G2.
  rewrite (bcast_num_cores_y_valid a Hgrid), (bcast_num_cores_valid a Hgrid). fold grid.
  set (n := Z.min (x grid * y grid) (num_tensor_tiles a)) in *.
  assert (0 < n /\ 0 <= y c < y grid /\ 0 <= index_of_core (y grid) c < n)
    as (Hn & Hyc & Hi).
  { destruct Hin as [Hin|Hin]; [apply G1 in Hin|apply G2 in Hin];
      destruct Hin as (Hn & Hyc & Hi);
      pose proof (Z.mod_pos_bound (num_tensor_tiles a) n Hn); lia. }
  exists (index_of_core (y grid) c). split; [exact Hi|].
  symmetry. apply core_of_index_of_core. exact Hyc.
Qed.

(** C7 (scalar-like flag).  A built Program has as many active cores as the
    work split counts, and reader slot 12 of every one of them, the core of
    every index below that count and, on a device grid, every core of group 1
    and of group 2, holds 1 when [bN*bC == 1] in the [uint32_t] arithmetic of
    line 34 and 0 otherwise; when the two extents fit [uint32_t] and their
    product does not overflow, that is exactly when the batch times channel
    extent of operand B equals 1. *)
Theorem scalar_like_flag a b output math dim pwc :
  bcast_multi_core_hw a b output math dim = Ok pwc ->
  let bN := dim0 (shape b) in
  let bC := dim1 (shape b) in
  let grid := compute_and_storage_grid_size (device a) in
  let ws := split_work_to_cores grid (num_tensor_tiles a) in
  let bnc1 := if U32.mul (U32.wrap bN) (U32.wrap bC) =? 1 then 1 else 0 in
  cb_num_cores (override_callback pwc) = U32.wrap (num_cores ws) /\
  (forall i, 0 <= i < U32.wrap (num_cores ws) ->
     reader_args pwc i ≫= (fun args => args !! 12%nat) = Some bnc1) /\
  (valid_grid grid ->
   forall c,
     core_coord_in_core_ranges (core_group_1 ws) c = true \/
     core_coord_in_core_ranges (core_group_2 ws) c = true ->
     kernel_runtime_args (program pwc) (cb_binary_reader_kernel (override_callback pwc)) c
       ≫= (fun args => args !! 12%nat) = Some bnc1) /\
  (U32.in_range bN -> U32.in_range bC -> bN * bC < U32.modulus ->
     (U32.mul (U32.wrap bN) (U32.wrap bC) =? 1) = (bN * bC =? 1)).
Proof.
  intros Hb bN bC grid ws flag.
  assert (forall i, 0 <= i < bcast_num_cores a ->
            reader_args pwc i ≫= (fun args => args !! 12%nat) = Some flag) as Hslot.
  { intros i Hi.
    destruct (reader_args_built _ _ _ _ _ _ i Hb Hi)
      as (src0 & src1 & dst & t & _ & _ & _ & _ & -> & _).
    reflexivity. }
  split; [|split; [|split]].
  - rewrite (built_callback _ _ _ _ _ _ Hb). reflexivity.
  - exact Hslot.
  - intros Hgrid c Hin.
    destruct (group_core_visited a c Hgrid Hin) as (i & Hi & ->).
    specialize (Hslot i Hi). unfold reader_args in Hslot.
    rewrite (built_callback _ _ _ _ _ _ Hb) in Hslot |- *. exact Hslot.
  - intros HN HC Hprod. rewrite !wrap_small by assumption.
    unfold U32.mul. rewrite wrap_small; [reflexivity|].
    unfold U32.in_range in *. nia.
Qed.

(** C10 as amended (operand-B tile count).  A built Program has as many
    active cores as the work split counts, and reader slot 7 of every one of
    them, the core of every index below that count and, on a device grid,
    every core of group 1 and of group 2, holds the same value,
    [num_btensor_tiles], which is [((N*C*bH*bW) mod 2^32) / TILE_HW] with
    operand A's [N] and [C] (read as [uint32_t]).  When [TILE_HW > 0],
    operand B has at least one tile per batch and channel
    ([TILE_HW <= bH*bW]) and neither [N*C*bH*bW] nor [bN*bC*bH*bW] overflows
    32 bits, that value differs from operand B's own tile count whenever
    [bN*bC] differs from [N*C]; when both products are below [TILE_HW], both
    counts are 0. *)
Theorem btensor_tiles_slot a b output math dim pwc :
  bcast_multi_core_hw a b output math dim = Ok pwc ->
  let N := U32.wrap (dim0 (shape a)) in
  let C := U32.wrap (dim1 (shape a)) in
  let bN := U32.wrap (dim0 (shape b)) in
  let bC := U32.wrap (dim1 (shape b)) in
  let bH := U32.wrap (dim2 (shape b)) in
  let bW := U32.wrap (dim3 (shape b)) in
  let grid := compute_and_storage_grid_size (device a) in
  let ws := split_work_to_cores grid (num_tensor_tiles a) in
  cb_num_cores (override_callback pwc) = U32.wrap (num_cores ws) /\
  (forall i, 0 <= i < U32.wrap (num_cores ws) ->
     reader_args pwc i ≫= (fun args => args !! 7%nat) = Some (num_btensor_tiles a b)) /\
  (valid_grid grid ->
   forall c,
     core_coord_in_core_ranges (core_group_1 ws) c = true \/
     core_coord_in_core_ranges (core_group_2 ws) c = true ->
     kernel_runtime_args (program pwc) (cb_binary_reader_kernel (override_callback pwc)) c
       ≫= (fun args => args !! 7%nat) = Some (num_btensor_tiles a b)) /\
  num_btensor_tiles a b = ((N * C * bH * bW) mod U32.modulus) / TILE_HW /\
  (0 < TILE_HW ->
   TILE_HW <= bH * bW ->
   N * C * bH * bW < U32.modulus ->
   bN * bC * bH * bW < U32.modulus ->
   bN * bC <> N * C ->
   num_btensor_tiles a b <> btensor_own_tiles b) /\
  (N * C * bH * bW < TILE_HW -> bN * bC * bH * bW < TILE_HW ->
   TILE_HW <= U32.modulus ->
   num_btensor_tiles a b = 0 /\ btensor_own_tiles b = 0).
Proof.
  intros Hb N C bN bC bH bW grid ws.
  assert (forall i, 0 <= i < bcast_num_cores a ->
            reader_args pwc i ≫= (fun args => args !! 7%nat) = Some (num_btensor_tiles a b))
    as Hslot.
  { intros i Hi.
    destruct (reader_args_built _ _ _ _ _ _ i Hb Hi)
      as (src0 & src1 & dst & t & _ & _ & _ & _ & -> & _).
    reflexivity. }
  pose proof (wrap_range (dim0 (shape a))) as HN. pose proof (wrap_range (dim1 (shape a))) as HC.
  pose proof (wrap_range (dim0 (shape b))) as HbN. pose proof (wrap_range (dim1 (shape b))) as HbC.
  pose proof (wrap_range (dim2 (shape b))) as HbH. pose proof (wrap_range (dim3 (shape b))) as HbW.
  fold N in HN. fold C in HC. fold bN in HbN. fold bC in HbC. fold bH in HbH. fold bW in HbW.
  unfold U32.in_range in *.
  assert (num_btensor_tiles a b = ((N * C * bH * bW) mod U32.modulus) / TILE_HW) as Enum.
  { unfold num_btensor_tiles, NC_of. rewrite mul_wrap_product. reflexivity. }
  assert (btensor_own_tiles b = ((bN * bC * bH * bW) mod U32.modulus) / TILE_HW) as Eown.
  { unfold btensor_own_tiles, NC_of. rewrite mul_wrap_product. reflexivity. }
  split; [|split; [|split; [|split; [|split]]]].
  - rewrite (built_callback _ _ _ _ _ _ Hb). reflexivity.
  - exact Hslot.
  - intros Hgrid c Hin.
    destruct (group_core_visited a c Hgrid Hin) as (i & Hi & ->).
    specialize (Hslot i Hi). unfold reader_args in Hslot.
    rewrite (built_callback _ _ _ _ _ _ Hb) in Hslot |- *. exact Hslot.
  - exact Enum.
  - intros Htile Hfull Ha Hb' Hne. rewrite Enum, Eown.
    rewrite !Z.mod_small by nia.
    set (s := bH * bW) in *.
    replace (N * C * bH * bW) with (N * C * s) by (unfold s; ring).
    replace (bN * bC * bH * bW) with (bN * bC * s) by (unfold s; ring).
    set (p := N * C) in *. set (q := bN * bC) in *.
    assert (0 <= p) by (unfold p; nia). assert (0 <= q) by (unfold q; nia).
    clearbody p q s.
    intros Heq.
    destruct (Z.lt_trichotomy p q) as [Hlt|[Heq'|Hgt]]; [|congruence|].
    + assert (p * s + TILE_HW <= q * s) as Hstep by nia.
      pose proof (Z.div_le_mono (p * s + TILE_HW) (q * s) TILE_HW Htile Hstep) as Hd.
      replace (p * s + TILE_HW) with (p * s + 1 * TILE_HW) in Hd by ring.
      rewrite Z.div_add in Hd by lia. lia.
    + assert (q * s + TILE_HW <= p * s) as Hstep by nia.
      pose proof (Z.div_le_mono (q * s + TILE_HW) (p * s) TILE_HW Htile Hstep) as Hd.
      replace (q * s + TILE_HW) with (q * s + 1 * TILE_HW) in Hd by ring.
      rewrite Z.div_add in Hd by lia. lia.
  - intros Ha Hb' Htile. rewrite Enum, Eown.
    rewrite !Z.mod_small by nia.
    split; apply Z.div_small; nia.
Qed.

(** C8 (tile queues).  Every construction allocates exactly three tile
    queues, with the pairwise distinct indices 0, 1 and 16, each over
    [all_cores], each with capacity 2 tiles and, for a tile size below
    [2^31], byte size [2 * TileSize format]; on a device grid, [all_cores]
    holds exactly the active cores, the coordinates [(i / rows, i % rows)]
    for [i < num_cores], which are the cores of group 1 and group 2. *)
Theorem three_tile_queues a b output math dim pwc :
  bcast_multi_core_hw a b output math dim = Ok pwc ->
  let fmt := datatype_to_dataformat_converter (dtype a) in
  let grid := compute_and_storage_grid_size (device a) in
  let ws := split_work_to_cores grid (num_tensor_tiles a) in
  0 <= TileSize fmt < 2 ^ 31 ->
  circular_buffers (program pwc) =
    [ mkCircularBuffer 0 (all_cores ws) 2 (2 * TileSize fmt) fmt;
      mkCircularBuffer 1 (all_cores ws) 2 (2 * TileSize fmt) fmt;
      mkCircularBuffer 16 (all_cores ws) 2 (2 * TileSize fmt) fmt ] /\
  NoDup (buffer_index <$> circular_buffers (program pwc)) /\
  (valid_grid grid ->
   forall c,
     (core_coord_in_core_ranges (all_cores ws) c = true <->
      exists i, 0 <= i < num_cores ws /\ c = core_of_index (y grid) i) /\
     core_coord_in_core_ranges (all_cores ws) c =
     core_coord_in_core_ranges (core_group_1 ws) c
     || core_coord_in_core_ranges (core_group_2 ws) c).
Proof.
  intros Hb fmt grid ws Hsize.
  destruct (bcast_built _ _ _ _ _ _ Hb)
    as (src0 & src1 & dst & mr & mw & _ & _ & _ & _ & -> & _).
  cbn [program circular_buffers]. unfold bcast_circular_buffers. fold fmt grid ws.
  assert (U32.mul 2 (U32.wrap (TileSize fmt)) = 2 * TileSize fmt) as ->.
  { unfold U32.mul. rewrite (wrap_small (TileSize fmt)) by (unfold U32.in_range, U32.modulus; lia).
    apply wrap_small. unfold U32.in_range, U32.modulus. lia. }
  split; [reflexivity|]. split.
  - cbn [fmap list_fmap buffer_index].
    repeat constructor; rewrite ?elem_of_cons, ?elem_of_nil; intuition congruence.
  - intros Hgrid c.
    destruct (valid_grid_nonneg a Hgrid) as (Hx & Hy & Ht). fold grid in Hx, Hy.
    pose proof (split_all_cores_iff grid (num_tensor_tiles a) Hx Hy Ht c) as GA.
    pose proof (split_group_1_iff grid (num_tensor_tiles a) Hx Hy Ht c) as G1.
    pose proof (split_group_2_iff grid (num_tensor_tiles a) Hx Hy Ht c) as G2.
    fold ws in GA, G1, G2.
    change (num_cores ws) with (Z.min (x grid * y grid) (num_tensor_tiles a)).
    set (n := Z.min (x grid * y grid) (num_tensor_tiles a)) in *.
    split.
    + rewrite GA. split.
      * intros (Hn & Hyc & Hi). exists (index_of_core (y grid) c).
        rewrite core_of_index_of_core by exact Hyc. split; [exact Hi|reflexivity].
      * intros (i & Hi & ->).
        assert (0 < x grid * y grid) as Hxy by (subst n; lia).
        assert (0 < y grid) as Hr.
        { destruct (Z.eq_dec (y grid) 0) as [E|E]; [rewrite E in Hxy; lia|lia]. }
        rewrite index_of_core_of_index by exact Hr.
        pose proof (core_of_index_coords (y grid) i Hr). lia.
    + apply eq_true_iff_eq. rewrite orb_true_iff, GA, G1, G2.
      split.
      * intros (Hn & Hyc & Hi).
        pose proof (Z.mod_pos_bound (num_tensor_tiles a) n Hn). lia.
      * intros [(Hn & Hyc & Hi)|(Hn & Hyc & Hi)];
          pose proof (Z.mod_pos_bound (num_tensor_tiles a) n Hn); lia.
Qed.

(** C6 as amended (no tiles).  On a device grid, with all three buffers
    allocated and no tile to process, construction succeeds with zero active
    cores; the Program holds the reader, the writer and the group-1 compute
    kernel, each over an empty core range and without runtime arguments, no
    group-2 compute kernel, and its queues span no core. *)
Theorem zero_tiles_construction a b output math src0 src1 dst :
  valid_grid (compute_and_storage_grid_size (device a)) ->
  num_tensor_tiles a = 0 ->
  buffer a = Some src0 -> buffer b = Some src1 -> buffer output = Some dst ->
  exists pwc,
    bcast_multi_core_hw a b output math BcastOpDim.HW = Ok pwc /\
    cb_num_cores (override_callback pwc) = 0 /\
    kernels (program pwc) =
      [ reader_kernel a src0 src1 ∅; writer_kernel a dst ∅; compute_kernel [] 1 math ] /\
    (forall k, k ∈ kernels (program pwc) ->
       kernel_core_ranges k = [] /\ runtime_args k = ∅) /\
    (forall q, q ∈ circular_buffers (program pwc) -> cb_core_ranges q = []).
Proof.
  intros Hgrid Hzero Ha Hb Ho.
  destruct (valid_grid_nonneg a Hgrid) as (Hx & Hy & Ht).
  set (grid := compute_and_storage_grid_size (device a)) in *.
  assert (Z.min (x grid * y grid) (num_tensor_tiles a) = 0) as Hn by (rewrite Hzero; nia).
  destruct (split_zero grid (num_tensor_tiles a) Hx Hy Ht Hn) as (Hall & Hg1 & Hg2).
  assert (num_tiles_per_core_group_1 (split_work_to_cores grid (num_tensor_tiles a)) = 1) as Ht1.
  { unfold split_work_to_cores. cbn [num_tiles_per_core_group_1]. rewrite Hn. reflexivity. }
  assert (bcast_num_cores a = 0) as Hnc.
  { unfold bcast_num_cores. fold grid.
    change (num_cores (split_work_to_cores grid (num_tensor_tiles a)))
      with (Z.min (x grid * y grid) (num_tensor_tiles a)).
    rewrite Hn. reflexivity. }
  rewrite (bcast_multi_core_hw_unfold _ _ _ _ _ _ _ Ha Hb Ho).
  rewrite Hnc. cbn [seqZ]. change (seqZ 0 0) with (@nil Z). cbn [runtime_args_loop].
  eexists. split; [reflexivity|]. cbn [override_callback cb_num_cores program kernels circular_buffers].
  split; [reflexivity|].
  assert (compute_kernels a math = [compute_kernel [] 1 math]) as Hck.
  { unfold compute_kernels. fold grid. rewrite Hg1, Hg2, Ht1. reflexivity. }
  rewrite Hck. split; [reflexivity|]. split.
  - intros k Hk. rewrite !elem_of_cons, elem_of_nil in Hk.
    destruct Hk as [->|[->|[->|[]]]].
    + unfold reader_kernel. cbn [kernel_core_ranges runtime_args]. fold grid. rewrite Hall. auto.
    + unfold writer_kernel. cbn [kernel_core_ranges runtime_args]. fold grid. rewrite Hall. auto.
    + unfold compute_kernel. cbn [kernel_core_ranges runtime_args]. auto.
  - intros q Hq. unfold bcast_circular_buffers in Hq. fold grid in Hq. rewrite Hall in Hq.
    rewrite !elem_of_cons, elem_of_nil in Hq.
    destruct Hq as [->|[->|[->|[]]]]; reflexivity.
Qed.

End ArgumentClaims.

(** ** The properties on concrete inputs *)

Example split_scenario_1 :
  split_work_to_cores (mkCoreCoord 2 1) 5 =
  {| num_cores := 2;
     all_cores := [mkCoreRange (mkCoreCoord 0 0) (mkCoreCoord 0 0);
                   mkCoreRange (mkCoreCoord 1 0) (mkCoreCoord 1 0)];
     core_group_1 := [mkCoreRange (mkCoreCoord 0 0) (mkCoreCoord 0 0)];
     core_group_2 := [mkCoreRange (mkCoreCoord 1 0) (mkCoreCoord 1 0)];
     num_tiles_per_core_group_1 := 3;
     num_tiles_per_core_group_2 := 2 |}.
Proof. reflexivity. Qed.

Example split_scenario_2 :
  split_work_to_cores (mkCoreCoord 4 4) 4 =
  {| num_cores := 4;
     all_cores := [mkCoreRange (mkCoreCoord 0 0) (mkCoreCoord 0 3)];
     core_group_1 := [];
     core_group_2 := [mkCoreRange (mkCoreCoord 0 0) (mkCoreCoord 0 3)];
     num_tiles_per_core_group_1 := 2;
     num_tiles_per_core_group_2 := 1 |}.
Proof. reflexivity. Qed.

Example windows_scenario_1 :
  exists pwc,
    @bcast_multi_core_hw tile32
      (@mkTensor tile32 (mkShape 1 5 32 32) tt (Some (mkBuffer 4096 DRAM))
         (mkDevice (mkCoreCoord 2 1)))
      b_1 out_5 BcastOpMath.ADD BcastOpDim.HW = Ok pwc /\
    core_window pwc 0 = Some (0, 3) /\ core_window pwc 1 = Some (3, 2).
Proof. eexists. split; [vm_compute; reflexivity|]. split; vm_compute; reflexivity. Qed.

Example patch_example :
  exists pwc,
    @bcast_multi_core_hw tile32 a_5 b_1 out_5 BcastOpMath.ADD BcastOpDim.HW = Ok pwc /\
    reader_args pwc 1 = Some [4096; 0; 0; 1; 8192; 0; 0; 5; 1; 1; 1; 1; 1; 2; 1] /\
    kernel_runtime_args
      (patched pwc [mkBuffer 100 DRAM; mkBuffer 200 L1] [mkBuffer 300 DRAM])
      0 (core_of_index 2 1)
    = Some [100; 0; 0; 1; 200; 0; 0; 5; 1; 1; 1; 1; 1; 2; 1] /\
    patched pwc [mkBuffer 100 DRAM] [mkBuffer 300 DRAM] = program pwc.
Proof.
  eexists. split; [vm_compute; reflexivity|].
  split; [vm_compute; reflexivity|]. split; vm_compute; reflexivity.
Qed.

(** 8 tiles on a 2 x 3 grid. *)
Lemma split_work_coverage_witness :
  let ws := split_work_to_cores (mkCoreCoord 2 3) 8 in
  num_cores ws = 6 /\
  sum_upto (fun i => tiles_assigned ws (core_of_index 3 i)) (num_cores ws) = 8.
Proof.
  pose proof (split_work_coverage (mkCoreCoord 2 3) 8
                ltac:(simpl; lia) ltac:(simpl; lia) ltac:(lia) ltac:(simpl; lia))
    as (H1 & _ & _ & _ & _ & _ & H2 & _).
  split; [exact H1|exact H2].
Defined.

Lemma split_work_balance_witness :
  let ws := split_work_to_cores (mkCoreCoord 2 3) 8 in
  num_tiles_per_core_group_1 ws = 2 /\ num_tiles_per_core_group_2 ws = 1.
Proof.
  pose proof (split_work_balance (mkCoreCoord 2 3) 8 ltac:(simpl; lia) ltac:(simpl; lia) ltac:(lia))
    as [H _].
  destruct (H ltac:(vm_compute; reflexivity) ltac:(vm_compute; reflexivity)) as (_ & _ & H1 & H2).
  split; [exact H1|exact H2].
Defined.

Lemma grid_2x2_valid : valid_grid (compute_and_storage_grid_size grid_2x2).
Proof. unfold valid_grid, U32.in_range, U32.modulus. simpl. lia. Defined.

Lemma grid_2x2_nonempty : nonempty_grid (compute_and_storage_grid_size grid_2x2).
Proof. unfold nonempty_grid. simpl. lia. Defined.

Lemma windows_partition_witness :
  exists pwc,
    @bcast_multi_core_hw tile32 a_5 b_1 out_5 BcastOpMath.ADD BcastOpDim.HW = Ok pwc /\
    forall t,
      0 <= t < 5 <->
      exists i, 0 <= i < cb_num_cores (override_callback pwc) /\
                in_window (core_window pwc i) t.
Proof.
  eexists. split; [vm_compute; reflexivity|].
  exact (proj1 (proj2 (proj2 (windows_partition a_5 b_1 out_5 BcastOpMath.ADD BcastOpDim.HW _
                                grid_2x2_valid (fun _ => grid_2x2_nonempty) eq_refl)))).
Defined.

Lemma visited_core_in_a_group_witness :
  @bcast_multi_core_hw tile32 a_5 b_1 out_5 BcastOpMath.ADD BcastOpDim.HW
  <> Fatal "Core not in specified core ranges".
Proof.
  exact (proj1 (proj2 (visited_core_in_a_group a_5 b_1 out_5 BcastOpMath.ADD BcastOpDim.HW
                         grid_2x2_valid))).
Defined.

Lemma patch_changes_only_addresses_witness :
  exists pwc,
    @bcast_multi_core_hw tile32 a_5 b_1 out_5 BcastOpMath.ADD BcastOpDim.HW = Ok pwc /\
    circular_buffers (patched pwc [mkBuffer 100 DRAM; mkBuffer 200 L1] [mkBuffer 300 DRAM])
    = circular_buffers (program pwc).
Proof.
  eexists. split; [vm_compute; reflexivity|].
  exact (proj1 (patch_changes_only_addresses a_5 b_1 out_5 BcastOpMath.ADD BcastOpDim.HW _
                  [mkBuffer 100 DRAM; mkBuffer 200 L1] [mkBuffer 300 DRAM] eq_refl)).
Defined.

Lemma patch_idempotent_witness :
  exists pwc,
    @bcast_multi_core_hw tile32 a_5 b_1 out_5 BcastOpMath.ADD BcastOpDim.HW = Ok pwc /\
    let ins := [mkBuffer 100 DRAM; mkBuffer 200 L1] in
    let outs := [mkBuffer 300 DRAM] in
    let first := override_runtime_args_callback (override_callback pwc) ins outs (program pwc) in
    override_runtime_args_callback (override_callback pwc) ins outs first.2 = first.
Proof.
  eexists. split; [vm_compute; reflexivity|].
  exact (patch_idempotent a_5 b_1 out_5 BcastOpMath.ADD BcastOpDim.HW _
           [mkBuffer 100 DRAM; mkBuffer 200 L1] [mkBuffer 300 DRAM] eq_refl).
Defined.

Lemma zero_tiles_construction_witness :
  exists pwc,
    @bcast_multi_core_hw tile32 a_0 b_1 out_0 BcastOpMath.ADD BcastOpDim.HW = Ok pwc /\
    cb_num_cores (override_callback pwc) = 0 /\
    length (kernels (program pwc)) = 3%nat.
Proof.
  destruct (zero_tiles_construction a_0 b_1 out_0 BcastOpMath.ADD
              (mkBuffer 4096 DRAM) (mkBuffer 8192 DRAM) (mkBuffer 12288 DRAM)
              grid_2x2_valid eq_refl eq_refl eq_refl eq_refl)
    as (pwc & Hb & Hn & Hk & _).
  exists pwc. split; [exact Hb|]. split; [exact Hn|]. rewrite Hk. reflexivity.
Defined.

(** C6 as stated fails: with no tiles the Program still holds three kernels. *)
Lemma zero_tiles_counterexample :
  ~ @zero_tiles_no_kernels tile32 a_0 b_1 out_0 BcastOpMath.ADD.
Proof.
  intros Hclaim. destruct (Hclaim eq_refl) as (pwc & Hb & _ & Hk).
  destruct (bcast_built _ _ _ _ _ _ Hb)
    as (src0 & src1 & dst & mr & mw & _ & _ & _ & _ & -> & _).
  discriminate Hk.
Qed.

Lemma scalar_like_flag_witness :
  exists pwc,
    @bcast_multi_core_hw tile32 a_5 b_1 out_5 BcastOpMath.ADD BcastOpDim.HW = Ok pwc /\
    cb_num_cores (override_callback pwc) = 4 /\
    (forall i, 0 <= i < 4 ->
       reader_args pwc i ≫= (fun args => args !! 12%nat) = Some 1) /\
    kernel_runtime_args (program pwc) 0 (mkCoreCoord 0 0)
      ≫= (fun args => args !! 12%nat) = Some 1 /\
    kernel_runtime_args (program pwc) 0 (mkCoreCoord 1 1)
      ≫= (fun args => args !! 12%nat) = Some 1.
Proof.
  eexists. split; [vm_compute; reflexivity|].
  pose proof (scalar_like_flag a_5 b_1 out_5 BcastOpMath.ADD BcastOpDim.HW _ eq_refl)
    as (Hn & Hslot & Hgroups & _).
  split; [exact Hn|]. split; [exact Hslot|]. split.
  - apply (Hgroups grid_2x2_valid (mkCoreCoord 0 0)). left. vm_compute. reflexivity.
  - apply (Hgroups grid_2x2_valid (mkCoreCoord 1 1)). right. vm_compute. reflexivity.
Defined.

Lemma three_tile_queues_witness :
  exists pwc,
    @bcast_multi_core_hw tile32 a_5 b_1 out_5 BcastOpMath.ADD BcastOpDim.HW = Ok pwc /\
    NoDup (buffer_index <$> circular_buffers (program pwc)).
Proof.
  eexists. split; [vm_compute; reflexivity|].
  exact (proj1 (proj2 (three_tile_queues a_5 b_1 out_5 BcastOpMath.ADD BcastOpDim.HW _ eq_refl
                         ltac:(simpl; lia)))).
Defined.

Lemma btensor_tiles_slot_witness :
  exists pwc,
    @bcast_multi_core_hw tile32 a_5 b_1 out_5 BcastOpMath.ADD BcastOpDim.HW = Ok pwc /\
    cb_num_cores (override_callback pwc) = 4 /\
    (forall i, 0 <= i < 4 ->
       reader_args pwc i ≫= (fun args => args !! 7%nat) = Some 5) /\
    kernel_runtime_args (program pwc) 0 (mkCoreCoord 0 0)
      ≫= (fun args => args !! 7%nat) = Some 5 /\
    kernel_runtime_args (program pwc) 0 (mkCoreCoord 1 1)
      ≫= (fun args => args !! 7%nat) = Some 5 /\
    @num_btensor_tiles tile32 a_5 b_1 <> @btensor_own_tiles tile32 b_1.
Proof.
  eexists. split; [vm_compute; reflexivity|].
  pose proof (btensor_tiles_slot a_5 b_1 out_5 BcastOpMath.ADD BcastOpDim.HW _ eq_refl)
    as (Hn & Hslot & Hgroups & _ & Hdiff & _).
  split; [exact Hn|]. split; [exact Hslot|]. split; [|split].
  - apply (Hgroups grid_2x2_valid (mkCoreCoord 0 0)). left. vm_compute. reflexivity.
  - apply (Hgroups grid_2x2_valid (mkCoreCoord 1 1)). right. vm_compute. reflexivity.
  - apply Hdiff.
    + simpl. lia.
    + vm_compute. discriminate.
    + vm_compute. reflexivity.
    + vm_compute. reflexivity.
    + vm_compute. discriminate.
Defined.

(** C10 as stated fails: with [N*C = 2^22 + 1] and one tile of operand B the
    product [N*C*bH*bW] wraps to 1024, so slot 7 holds 1 on each of the four
    active cores, which is operand B's own tile count, although [bN*bC = 1]
    differs from [N*C]. *)
Lemma btensor_tiles_counterexample :
  exists pwc,
    @bcast_multi_core_hw tile32 a_wide b_1 out_wide BcastOpMath.ADD BcastOpDim.HW = Ok pwc /\
    @bcast_num_cores tile32 a_wide = 4 /\
    cb_num_cores (override_callback pwc) = 4 /\
    (forall i, 0 <= i < 4 ->
       reader_args pwc i ≫= (fun args => args !! 7%nat) = Some 1) /\
    @NC_of tile32 b_1 = 1 /\ @NC_of tile32 a_wide = 4194305 /\
    @num_btensor_tiles tile32 a_wide b_1 = 1 /\ @btensor_own_tiles tile32 b_1 = 1 /\
    ~ btensor_tiles_always_differ a_wide b_1 pwc.
Proof.
  eexists. split; [vm_compute; reflexivity|].
  do 2 (split; [vm_compute; reflexivity|]).
  split.
  { intros i Hi.
    assert (i = 0 \/ i = 1 \/ i = 2 \/ i = 3) as [->|[->|[->| ->]]] by lia;
      vm_compute; reflexivity. }
  do 4 (split; [vm_compute; reflexivity|]).
  intros [_ Hdiff]. apply Hdiff; vm_compute; [discriminate|reflexivity].
Qed.

(** * Further properties of construction and patching *)

(** ** Outcome of construction *)

Section ConstructionOutcome.
Context {P : Platform}.

(** X1 (failures of construction).  A broadcast axis other than HW ends in the
    assertion of line 19, whatever the tensors; with the HW axis a tensor
    [output] without buffer ends in "Output buffer should be allocated on
    device!" even when an operand has no buffer either, line 53 coming before
    lines 90-91; and whenever construction returns a Program, the axis is HW
    and each of the three tensors has a buffer. *)
Theorem construction_failures a b output math dim :
  (dim <> BcastOpDim.HW ->
   bcast_multi_core_hw a b output math dim = Fatal "bcast_dim == BcastOpDim::HW") /\
  (dim = BcastOpDim.HW -> buffer output = None ->
   bcast_multi_core_hw a b output math dim
   = Fatal "Output buffer should be allocated on device!") /\
  (forall pwc, bcast_multi_core_hw a b output math dim = Ok pwc ->
     dim = BcastOpDim.HW /\ is_Some (buffer a) /\ is_Some (buffer b) /\
     is_Some (buffer output)).
Proof.
  split; [|split].
  - intros Hdim. destruct dim; [reflexivity|reflexivity|contradiction].
  - intros -> Ho. unfold bcast_multi_core_hw. rewrite Ho. reflexivity.
  - intros pwc Hb.
    destruct (bcast_multi_core_hw_ok _ _ _ _ _ _ Hb)
      as (src0 & src1 & dst & -> & -> & -> & ->).
    repeat split; eauto.
Qed.

(** X2 (visited cores lie in the grid).  On a device grid, the loops of lines
    157 and 218 of a built Program run over as many indices as the work
    split counts, at most [cols * rows]; every index [i] they visit maps to a
    coordinate [(i / rows, i % rows)] inside the grid, which lies in the core
    range of the reader kernel, of the writer kernel and of every queue and
    for which both kernels hold runtime arguments; and two different indices
    never map to the same core. *)
Theorem visited_cores_inside_grid a b output math dim pwc :
  bcast_multi_core_hw a b output math dim = Ok pwc ->
  let grid := compute_and_storage_grid_size (device a) in
  let ws := split_work_to_cores grid (num_tensor_tiles a) in
  let cb := override_callback pwc in
  valid_grid grid ->
  cb_num_cores cb = num_cores ws /\
  cb_num_cores_y cb = y grid /\
  cb_num_cores cb <= x grid * y grid /\
  (forall i, 0 <= i < cb_num_cores cb ->
     let core := core_of_index (cb_num_cores_y cb) i in
     0 <= x core < x grid /\ 0 <= y core < y grid /\
     (exists reader writer,
        kernels (program pwc) !! cb_binary_reader_kernel cb = Some reader /\
        kernels (program pwc) !! cb_unary_writer_kernel cb = Some writer /\
        core_coord_in_core_ranges (kernel_core_ranges reader) core = true /\
        core_coord_in_core_ranges (kernel_core_ranges writer) core = true /\
        is_Some (runtime_args reader !! core_key core) /\
        is_Some (runtime_args writer !! core_key core)) /\
     (forall q, q ∈ circular_buffers (program pwc) ->
        core_coord_in_core_ranges (cb_core_ranges q) core = true)) /\
  (forall i j, 0 <= i < cb_num_cores cb -> 0 <= j < cb_num_cores cb ->
     core_of_index (cb_num_cores_y cb) i = core_of_index (cb_num_cores_y cb) j ->
     i = j).
Proof.
  intros Hbuilt grid ws cb Hgrid.
  destruct (bcast_built _ _ _ _ _ _ Hbuilt)
    as (src0 & src1 & dst & mr & mw & _ & _ & _ & _ & Hpwc & _ & Hact & _).
  subst pwc. subst cb.
  cbn [program override_callback kernels circular_buffers cb_num_cores cb_num_cores_y
       cb_binary_reader_kernel cb_unary_writer_kernel].
  destruct (valid_grid_nonneg a Hgrid) as (Hx & Hy & Ht). fold grid in Hx, Hy.
  revert Hact.
  rewrite (bcast_num_cores_y_valid a Hgrid), (bcast_num_cores_valid a Hgrid).
  fold grid. intros Hact.
  change (num_cores ws) with (Z.min (x grid * y grid) (num_tensor_tiles a)).
  assert (forall i, 0 <= i < Z.min (x grid * y grid) (num_tensor_tiles a) -> 0 < y grid)
    as Hrows.
  { intros i Hi. destruct (Z.eq_dec (y grid) 0) as [E|E]; [rewrite E in Hi; lia|lia]. }
  split; [reflexivity|]. split; [reflexivity|]. split; [lia|]. split.
  - intros i Hi. specialize (Hrows i Hi).
    pose proof (core_of_index_coords (y grid) i Hrows) as [Hyc Hidx].
    set (core := core_of_index (y grid) i) in *.
    assert (core_coord_in_core_ranges (all_cores ws) core = true) as Hall.
    { apply (split_all_cores_iff grid (num_tensor_tiles a) Hx Hy Ht).
      unfold index_of_core. lia. }
    split; [|split; [exact Hyc|split]].
    + split; nia.
    + destruct (Hact i Hi) as (t & _ & Hr & Hw). fold core in Hr, Hw.
      exists (reader_kernel a src0 src1 mr), (writer_kernel a dst mw).
      split; [reflexivity|]. split; [reflexivity|].
      unfold reader_kernel, writer_kernel. cbn [kernel_core_ranges runtime_args].
      fold grid ws. rewrite Hr, Hw.
      split; [exact Hall|]. split; [exact Hall|]. split; eauto.
    + intros q Hq. unfold bcast_circular_buffers in Hq. fold grid ws in Hq.
      rewrite !elem_of_cons, elem_of_nil in Hq.
      destruct Hq as [->|[->|[->|[]]]]; exact Hall.
  - intros i j Hi Hj Heq. apply (core_of_index_inj (y grid)); [|exact Heq].
    specialize (Hrows i Hi). lia.
Qed.


End ConstructionOutcome.

(** ** Kernels and runtime arguments of a built Program *)

Section BuiltProgram.
Context {P : Platform}.

Lemma kernel_runtime_args_reader cbs k0 rest c :
  kernel_runtime_args (mkProgram cbs (k0 :: rest)) 0 c = runtime_args k0 !! core_key c.
Proof. reflexivity. Qed.

Lemma kernel_runtime_args_writer cbs k0 k1 rest c :
  kernel_runtime_args (mkProgram cbs (k0 :: k1 :: rest)) 1 c = runtime_args k1 !! core_key c.
Proof. reflexivity. Qed.

Lemma kernel_runtime_args_other cbs k0 k1 rest h c :
  kernel_runtime_args (mkProgram cbs (k0 :: k1 :: rest)) (S (S h)) c =
  rest !! h ≫= (fun k => runtime_args k !! core_key c).
Proof. reflexivity. Qed.

Lemma compute_kernels_elem a math k :
  k ∈ compute_kernels a math ->
  let ws := split_work_to_cores (compute_and_storage_grid_size (device a))
              (num_tensor_tiles a) in
  k = compute_kernel (core_group_1 ws) (num_tiles_per_core_group_1 ws) math \/
  (core_group_2 ws <> [] /\
   k = compute_kernel (core_group_2 ws) (num_tiles_per_core_group_2 ws) math).
Proof.
  intros Hk ws. unfold compute_kernels in Hk. fold ws in Hk.
  apply elem_of_cons in Hk as [->|Hk]; [left; reflexivity|].
  destruct (core_group_2 ws) as [|r rs] eqn:E2.
  - apply elem_of_nil in Hk. contradiction.
  - apply list_elem_of_singleton in Hk. right. split; [discriminate|exact Hk].
Qed.

Lemma active_key_inv cb (key : Z * Z) :
  key ∈ active_keys cb ->
  exists i, 0 <= i < cb_num_cores cb /\ key = core_key (core_of_index (cb_num_cores_y cb) i).
Proof.
  unfold active_keys. intros Hin. apply list_elem_of_fmap in Hin as (i & -> & Hi).
  apply elem_of_seqZ in Hi. exists i. split; [lia|reflexivity].
Qed.

(** X4 (kernels of a built Program).  A built Program holds, in this order,
    the reader at handle 0 and the writer at handle 1, the handles the
    callback captures, the compute kernel of group 1, and after it the
    compute kernel of group 2 exactly when group 2 is non-empty, and nothing
    else.  Reader and writer run on RISCV_1 and RISCV_0 over the core range
    of the three queues; their compile-time arguments carry the format code
    and one flag per buffer that is 1 exactly for a DRAM buffer, and the
    writer's first argument is the output queue index 16.  Each compute
    kernel runs over the cores of its own group with the HiFi4 configuration,
    the defines of the requested axis and arithmetic, no runtime argument,
    and the tile count of its group as third compile-time argument. *)
Theorem kernels_of_built_program a b output math dim pwc src0 src1 dst :
  bcast_multi_core_hw a b output math dim = Ok pwc ->
  buffer a = Some src0 -> buffer b = Some src1 -> buffer output = Some dst ->
  let ws := split_work_to_cores (compute_and_storage_grid_size (device a))
              (num_tensor_tiles a) in
  let fmt := U32.wrap (DataFormat_code (datatype_to_dataformat_converter (dtype a))) in
  let compute_kernel_of (k : Kernel) (cores : CoreRangeSet) (tiles_per_core : Z) :=
    kernel_path k = get_compute_name BcastOpDim.HW /\
    kernel_config k = ComputeConfig HiFi4 false false /\
    defines k = [(BcastOpDim.HW, math)] /\
    runtime_args k = ∅ /\
    kernel_core_ranges k = cores /\
    compile_time_args k = [1; 1; U32.wrap tiles_per_core] in
  (forall buf, (is_dram buf = 1 <-> buffer_type buf = DRAM) /\
               (is_dram buf = 0 <-> buffer_type buf <> DRAM)) /\
  exists reader writer group_1_kernel group_2_kernels,
    kernels (program pwc) = reader :: writer :: group_1_kernel :: group_2_kernels /\
    cb_binary_reader_kernel (override_callback pwc) = 0%nat /\
    cb_unary_writer_kernel (override_callback pwc) = 1%nat /\
    kernel_config reader = DataMovementConfig RISCV_1 RISCV_1_default /\
    kernel_config writer = DataMovementConfig RISCV_0 RISCV_0_default /\
    compile_time_args reader = [fmt; is_dram src0; is_dram src1] /\
    compile_time_args writer = [16; fmt; is_dram dst] /\
    kernel_core_ranges reader = all_cores ws /\
    kernel_core_ranges writer = all_cores ws /\
    (forall q, q ∈ circular_buffers (program pwc) -> cb_core_ranges q = all_cores ws) /\
    compute_kernel_of group_1_kernel (core_group_1 ws) (num_tiles_per_core_group_1 ws) /\
    (core_group_2 ws = [] -> group_2_kernels = []) /\
    (core_group_2 ws <> [] ->
     exists group_2_kernel,
       group_2_kernels = [group_2_kernel] /\
       compute_kernel_of group_2_kernel (core_group_2 ws) (num_tiles_per_core_group_2 ws)).
Proof.
  intros Hbuilt Ha Hb Ho ws fmt compute_kernel_of.
  destruct (bcast_built _ _ _ _ _ _ Hbuilt)
    as (src0' & src1' & dst' & mr & mw & -> & Ha' & Hb' & Ho' & -> & _).
  rewrite Ha in Ha'. rewrite Hb in Hb'. rewrite Ho in Ho'.
  injection Ha' as <-. injection Hb' as <-. injection Ho' as <-.
  split.
  { intros buf. unfold is_dram. destruct (buffer_type buf); split; split;
      intros E; try reflexivity; try discriminate; try lia; contradiction. }
  exists (reader_kernel a src0 src1 mr), (writer_kernel a dst mw),
         (compute_kernel (core_group_1 ws) (num_tiles_per_core_group_1 ws) math),
         (match core_group_2 ws with
          | [] => []
          | _ :: _ =>
              [compute_kernel (core_group_2 ws) (num_tiles_per_core_group_2 ws) math]
          end).
  cbn [program kernels circular_buffers override_callback
       cb_binary_reader_kernel cb_unary_writer_kernel].
  unfold reader_kernel, writer_kernel.
  cbn [kernel_config compile_time_args kernel_core_ranges].
  fold ws fmt.
  split; [reflexivity|].
  do 8 (split; [reflexivity|]). split; [|split; [|split]].
  - intros q Hq. unfold bcast_circular_buffers in Hq. fold ws in Hq.
    rewrite !elem_of_cons, elem_of_nil in Hq.
    destruct Hq as [->|[->|[->|[]]]]; reflexivity.
  - unfold compute_kernel_of, compute_kernel.
    cbn [kernel_path kernel_config defines runtime_args kernel_core_ranges compile_time_args].
    repeat split; reflexivity.
  - intros ->. reflexivity.
  - intros Hne. destruct (core_group_2 ws) as [|r rs] eqn:E2; [contradiction|].
    eexists. split; [reflexivity|].
    unfold compute_kernel_of, compute_kernel.
    cbn [kernel_path kernel_config defines runtime_args kernel_core_ranges compile_time_args].
    repeat split; reflexivity.
Qed.

(** X5 (argument layout of an active core).  For every active core of a built
    Program the reader holds the 15 arguments of lines 172-186 with the
    addresses of the buffers given at construction, the writer the 3
    arguments of lines 193-195 with the same tile count and the same offset,
    and a compute kernel whose core range contains the core was compiled for
    that very tile count. *)
Theorem runtime_args_layout a b output math dim pwc src0 src1 dst i :
  bcast_multi_core_hw a b output math dim = Ok pwc ->
  buffer a = Some src0 -> buffer b = Some src1 -> buffer output = Some dst ->
  0 <= i < cb_num_cores (override_callback pwc) ->
  exists tiles_per_core num_tiles_read k,
    reader_args pwc i =
      Some [ address src0; 0; 0; tiles_per_core; address src1; 0; 0;
             num_btensor_tiles a b; tiles_per_core; 1; 1; tiles_per_core;
             bnc1 b; num_tiles_read; U32.mul (Ht_of a) (Wt_of a) ] /\
    writer_args pwc i = Some [ address dst; tiles_per_core; num_tiles_read ] /\
    k ∈ kernels (program pwc) /\
    kernel_config k = ComputeConfig HiFi4 false false /\
    compile_time_args k = [1; 1; tiles_per_core] /\
    core_coord_in_core_ranges (kernel_core_ranges k)
      (core_of_index (cb_num_cores_y (override_callback pwc)) i) = true.
Proof.
  intros Hbuilt Ha Hb Ho Hi.
  pose proof (built_callback _ _ _ _ _ _ Hbuilt) as Hcb.
  rewrite Hcb in Hi |- *. cbn [cb_num_cores cb_num_cores_y] in Hi |- *.
  destruct (reader_args_built _ _ _ _ _ _ i Hbuilt Hi)
    as (src0' & src1' & dst' & t & Ha' & Hb' & Ho' & Ht & Hr & Hw).
  rewrite Ha in Ha'. rewrite Hb in Hb'. rewrite Ho in Ho'.
  injection Ha' as <-. injection Hb' as <-. injection Ho' as <-.
  destruct (bcast_built _ _ _ _ _ _ Hbuilt)
    as (s0 & s1 & d & mr & mw & _ & _ & _ & _ & Hpwc & _).
  set (ws := split_work_to_cores (compute_and_storage_grid_size (device a))
               (num_tensor_tiles a)).
  assert (exists k, k ∈ compute_kernels a math /\
            kernel_config k = ComputeConfig HiFi4 false false /\
            compile_time_args k = [1; 1; t] /\
            core_coord_in_core_ranges (kernel_core_ranges k)
              (core_of_index (bcast_num_cores_y a) i) = true) as (k & Hk & Hcfg & Hargs & Hin).
  { unfold tiles_of, num_tensor_tiles_per_core, loop_env in Ht.
    cbn [env_num_cores_y env_core_group_1 env_core_group_2
         env_num_tiles_per_core_group_1 env_num_tiles_per_core_group_2] in Ht.
    fold ws in Ht. change (U32.wrap (y (compute_and_storage_grid_size (device a))))
      with (bcast_num_cores_y a) in Ht.
    destruct (core_coord_in_core_ranges (core_group_1 ws) _) eqn:E1.
    - injection Ht as <-.
      exists (compute_kernel (core_group_1 ws) (num_tiles_per_core_group_1 ws) math).
      split; [unfold compute_kernels; fold ws; apply elem_of_cons; left; reflexivity|].
      unfold compute_kernel. cbn [kernel_config compile_time_args kernel_core_ranges]. auto.
    - destruct (core_coord_in_core_ranges (core_group_2 ws) _) eqn:E2; [|discriminate].
      injection Ht as <-.
      exists (compute_kernel (core_group_2 ws) (num_tiles_per_core_group_2 ws) math).
      split.
      + unfold compute_kernels. fold ws. apply elem_of_cons. right.
        destruct (core_group_2 ws) as [|r rs] eqn:Eg; [discriminate E2|].
        apply list_elem_of_singleton. reflexivity.
      + unfold compute_kernel. cbn [kernel_config compile_time_args kernel_core_ranges]. auto. }
  exists t, (tiles_read (loop_env a b src0 src1 dst) (Z.to_nat i)), k.
  split; [exact Hr|]. split; [exact Hw|]. split.
  - rewrite Hpwc. cbn [program kernels]. apply elem_of_cons. right. apply elem_of_cons. right.
    exact Hk.
  - auto.
Qed.

(** X6 (where runtime arguments are stored).  The callback of a built Program
    visits as many cores as the work split counts, with the row count of the
    grid, and in the Program only the reader and the writer hold runtime
    arguments, exactly for those active cores: 15 arguments per core for the
    reader and 3 for the writer; the compute kernels and the cores outside
    the loop have none. *)
Theorem runtime_args_only_for_active_cores a b output math dim pwc (h : nat) (c : CoreCoord) :
  bcast_multi_core_hw a b output math dim = Ok pwc ->
  let grid := compute_and_storage_grid_size (device a) in
  let ws := split_work_to_cores grid (num_tensor_tiles a) in
  (cb_num_cores (override_callback pwc) = U32.wrap (num_cores ws) /\
   cb_num_cores_y (override_callback pwc) = U32.wrap (y grid)) /\
  (is_Some (kernel_runtime_args (program pwc) h c) <->
   (h = 0%nat \/ h = 1%nat) /\ core_key c ∈ active_keys (override_callback pwc)) /\
  (forall args, kernel_runtime_args (program pwc) h c = Some args ->
     length args = if decide (h = 0%nat) then 15%nat else 3%nat).
Proof.
  intros Hbuilt grid ws.
  destruct (bcast_built _ _ _ _ _ _ Hbuilt)
    as (src0 & src1 & dst & mr & mw & _ & _ & _ & _ & -> & Hy & Hact & Hoth).
  cbn [program override_callback].
  split; [split; reflexivity|].
  set (cb := mkCallback 0 1 (bcast_num_cores a) (bcast_num_cores_y a)).
  assert (forall key : Z * Z, key ∉ active_keys cb -> mr !! key = None /\ mw !! key = None)
    as Hout.
  { intros key Hnin. apply Hoth. intros i Hi ->. apply Hnin.
    apply (active_key_elem cb i). exact Hi. }
  destruct h as [|[|h]].
  - rewrite kernel_runtime_args_reader. unfold reader_kernel. cbn [runtime_args].
    destruct (decide (core_key c ∈ active_keys cb)) as [Hin|Hnin].
    + destruct (active_key_inv cb _ Hin) as (i & Hi & Hkey).
      cbn [cb cb_num_cores cb_num_cores_y] in Hi, Hkey. rewrite Hkey in Hin |- *.
      destruct (Hact i Hi) as (t & _ & -> & _). split.
      * split; [intros _; split; [left; reflexivity|exact Hin]|intros _; eauto].
      * intros args [= <-]. reflexivity.
    + destruct (Hout _ Hnin) as [-> _]. split.
      * split; [intros [? ?]; discriminate|intros [_ ?]; contradiction].
      * intros args ?; discriminate.
  - rewrite kernel_runtime_args_writer. unfold writer_kernel. cbn [runtime_args].
    destruct (decide (core_key c ∈ active_keys cb)) as [Hin|Hnin].
    + destruct (active_key_inv cb _ Hin) as (i & Hi & Hkey).
      cbn [cb cb_num_cores cb_num_cores_y] in Hi, Hkey. rewrite Hkey in Hin |- *.
      destruct (Hact i Hi) as (t & _ & _ & ->). split.
      * split; [intros _; split; [right; reflexivity|exact Hin]|intros _; eauto].
      * intros args [= <-]. reflexivity.
    + destruct (Hout _ Hnin) as [_ ->]. split.
      * split; [intros [? ?]; discriminate|intros [_ ?]; contradiction].
      * intros args ?; discriminate.
  - rewrite kernel_runtime_args_other.
    assert (compute_kernels a math !! h ≫= (fun k => runtime_args k !! core_key c) = None) as ->.
    { destruct (compute_kernels a math !! h) as [k|] eqn:Ek; [|reflexivity].
      apply list_elem_of_lookup_2 in Ek. apply compute_kernels_elem in Ek.
      destruct Ek as [->|[_ ->]]; cbn [mbind option_bind]; unfold compute_kernel;
        cbn [runtime_args]; apply lookup_empty. }
    split.
    + split; [intros [? ?]; discriminate|intros [[?|?] _]; lia].
    + intros args ?; discriminate.
Qed.

End BuiltProgram.

(** ** The override callback on a built Program *)

Section PatchOutcome.
Context {P : Platform}.

Lemma patch_map_absorb (f g : list Z -> list Z) (keys : list (Z * Z))
    (m : gmap (Z * Z) (list Z)) :
  (forall l, f (f l) = f l) -> (forall l, g (g l) = g l) -> (forall l, g (f l) = g l) ->
  patch_map g keys (patch_map f keys m) = patch_map g keys m.
Proof.
  intros Hf Hg Hgf. apply map_eq. intros key.
  rewrite !lookup_patch_map by assumption.
  destruct (decide (key ∈ keys)); [|reflexivity].
  destruct (m !! key); cbn [fmap option_fmap option_map]; [rewrite Hgf|]; reflexivity.
Qed.

Lemma patch_reader_args_absorb sa sb sa' sb' l :
  patch_reader_args sa' sb' (patch_reader_args sa sb l) = patch_reader_args sa' sb' l.
Proof.
  unfold patch_reader_args.
  rewrite (list_insert_insert_ne _ 0 4) by lia.
  rewrite !list_insert_insert_eq. reflexivity.
Qed.

Lemma patch_writer_args_absorb d d' l :
  patch_writer_args d' (patch_writer_args d l) = patch_writer_args d' l.
Proof. unfold patch_writer_args. apply list_insert_insert_eq. Qed.

Lemma patch_reader_args_slots sa sb l :
  (4 < length l)%nat ->
  patch_reader_args sa sb l !! 0%nat = Some (address sa) /\
  patch_reader_args sa sb l !! 4%nat = Some (address sb).
Proof.
  intros Hlen. unfold patch_reader_args. split.
  - rewrite list_lookup_insert_ne by lia. apply list_lookup_insert_eq. lia.
  - apply list_lookup_insert_eq. rewrite length_insert. exact Hlen.
Qed.

Lemma reader_kernel_with a src0 src1 m m' :
  with_runtime_args (reader_kernel a src0 src1 m) m' = reader_kernel a src0 src1 m'.
Proof.
  unfold with_runtime_args, reader_kernel.
  cbn [kernel_path kernel_core_ranges compile_time_args kernel_config defines].
  reflexivity.
Qed.

Lemma writer_kernel_with a dst m m' :
  with_runtime_args (writer_kernel a dst m) m' = writer_kernel a dst m'.
Proof.
  unfold with_runtime_args, writer_kernel.
  cbn [kernel_path kernel_core_ranges compile_time_args kernel_config defines].
  reflexivity.
Qed.

(** The callback on a Program of the built form whose argument vectors are
    long enough, in closed form. *)
Lemma callback_on_built_form (a : Tensor) (src0 src1 dst : Buffer) (computes : list Kernel)
    (cb : Callback) (sa sb d : Buffer) (input_buffers output_buffers : list Buffer)
    (mr mw : gmap (Z * Z) (list Z)) :
  cb_binary_reader_kernel cb = 0%nat ->
  cb_unary_writer_kernel cb = 1%nat ->
  (0 < cb_num_cores cb -> cb_num_cores_y cb <> 0) ->
  (forall i, 0 <= i < cb_num_cores cb ->
     exists l, mr !! core_key (core_of_index (cb_num_cores_y cb) i) = Some l /\
               (4 < length l)%nat) ->
  (forall i, 0 <= i < cb_num_cores cb ->
     exists l, mw !! core_key (core_of_index (cb_num_cores_y cb) i) = Some l /\
               (0 < length l)%nat) ->
  input_buffers !! 0%nat = Some sa ->
  input_buffers !! 1%nat = Some sb ->
  output_buffers !! 0%nat = Some d ->
  override_runtime_args_callback cb input_buffers output_buffers
    (mkProgram (bcast_circular_buffers a)
       (reader_kernel a src0 src1 mr :: writer_kernel a dst mw :: computes)) =
  (Ok tt,
   mkProgram (bcast_circular_buffers a)
     (reader_kernel a src0 src1 (patch_map (patch_reader_args sa sb) (active_keys cb) mr)
      :: writer_kernel a dst (patch_map (patch_writer_args d) (active_keys cb) mw)
      :: computes)).
Proof.
  intros Hr Hw Hy Hk0 Hk1 E0 E1 E2.
  rewrite (callback_closed cb sa sb d input_buffers output_buffers
             (bcast_circular_buffers a) (reader_kernel a src0 src1 mr)
             (writer_kernel a dst mw) computes Hr Hw Hy Hk0 Hk1 E0 E1 E2).
  rewrite reader_kernel_with, writer_kernel_with. reflexivity.
Qed.

Lemma patched_ready (cb : Callback) (f : list Z -> list Z) (m : gmap (Z * Z) (list Z)) (bound : nat) :
  (forall l, f (f l) = f l) -> (forall l, length (f l) = length l) ->
  (forall i, 0 <= i < cb_num_cores cb ->
     exists l, m !! core_key (core_of_index (cb_num_cores_y cb) i) = Some l /\
               (bound < length l)%nat) ->
  forall i, 0 <= i < cb_num_cores cb ->
    exists l, patch_map f (active_keys cb) m
              !! core_key (core_of_index (cb_num_cores_y cb) i) = Some l /\
              (bound < length l)%nat.
Proof.
  intros Hf Hlen Hm i Hi. rewrite lookup_patch_map by exact Hf.
  rewrite decide_True by (apply active_key_elem; exact Hi).
  destruct (Hm i Hi) as (l & -> & Hl). cbn [fmap option_fmap option_map].
  eexists. split; [reflexivity|]. rewrite Hlen. exact Hl.
Qed.

(** X7 (outcome of the callback).  On a built Program the callback succeeds
    exactly when it is given at least two input buffers and one output
    buffer; otherwise [vector::at] throws and the Program is left as it was.
    After a successful call every active core's reader has the address of
    the first input buffer in slot 0 and of the second in slot 4, and its
    writer the address of the first output buffer in slot 0. *)
Theorem patch_outcome a b output math dim pwc input_buffers output_buffers :
  bcast_multi_core_hw a b output math dim = Ok pwc ->
  let cb := override_callback pwc in
  let r := override_runtime_args_callback cb input_buffers output_buffers (program pwc) in
  (r.1 = Ok tt <-> (2 <= length input_buffers)%nat /\ (1 <= length output_buffers)%nat) /\
  (r.1 <> Ok tt -> r = (Fatal "vector::at", program pwc)) /\
  (forall sa sb d,
     input_buffers !! 0%nat = Some sa -> input_buffers !! 1%nat = Some sb ->
     output_buffers !! 0%nat = Some d ->
     forall i, 0 <= i < cb_num_cores cb ->
       let core := core_of_index (cb_num_cores_y cb) i in
       kernel_runtime_args r.2 (cb_binary_reader_kernel cb) core
         ≫= (fun args => args !! 0%nat) = Some (address sa) /\
       kernel_runtime_args r.2 (cb_binary_reader_kernel cb) core
         ≫= (fun args => args !! 4%nat) = Some (address sb) /\
       kernel_runtime_args r.2 (cb_unary_writer_kernel cb) core
         ≫= (fun args => args !! 0%nat) = Some (address d)).
Proof.
  intros Hbuilt cb r.
  destruct (bcast_built _ _ _ _ _ _ Hbuilt)
    as (src0 & src1 & dst & mr & mw & _ & _ & _ & _ & -> & Hstored).
  destruct (stored_runtime_args_ready _ _ _ _ _ _ _ Hstored) as (Hy & Hk0 & Hk1).
  cbn [program override_callback] in *.
  destruct (input_buffers !! 0%nat) as [sa|] eqn:E0.
  2: { assert (r = (Fatal "vector::at",
                    mkProgram (bcast_circular_buffers a)
                      (reader_kernel a src0 src1 mr :: writer_kernel a dst mw
                       :: compute_kernels a math))) as ->.
       { subst r. unfold override_runtime_args_callback. rewrite E0. reflexivity. }
       apply lookup_ge_None in E0. cbn [fst snd].
       split; [split; [discriminate|lia]|]. split; [reflexivity|]. intros ? ? ? [=]. }
  destruct (input_buffers !! 1%nat) as [sb|] eqn:E1.
  2: { assert (r = (Fatal "vector::at",
                    mkProgram (bcast_circular_buffers a)
                      (reader_kernel a src0 src1 mr :: writer_kernel a dst mw
                       :: compute_kernels a math))) as ->.
       { subst r. unfold override_runtime_args_callback. rewrite E0, E1. reflexivity. }
       apply lookup_ge_None in E1. cbn [fst snd].
       split; [split; [discriminate|lia]|]. split; [reflexivity|]. intros ? ? ? _ [=]. }
  destruct (output_buffers !! 0%nat) as [d|] eqn:E2.
  2: { assert (r = (Fatal "vector::at",
                    mkProgram (bcast_circular_buffers a)
                      (reader_kernel a src0 src1 mr :: writer_kernel a dst mw
                       :: compute_kernels a math))) as ->.
       { subst r. unfold override_runtime_args_callback. rewrite E0, E1, E2. reflexivity. }
       apply lookup_ge_None in E2. cbn [fst snd].
       split; [split; [discriminate|lia]|]. split; [reflexivity|]. intros ? ? ? _ _ [=]. }
  pose proof (callback_on_built_form a src0 src1 dst (compute_kernels a math) cb sa sb d
                input_buffers output_buffers mr mw eq_refl eq_refl Hy Hk0 Hk1 E0 E1 E2) as Hcl.
  fold r in Hcl. rewrite Hcl. cbn [fst snd].
  apply lookup_lt_Some in E0, E1, E2.
  split; [split; [intros _; lia|reflexivity]|]. split; [intros Hne; contradiction|].
  intros sa' sb' d' [= <-] [= <-] [= <-] i Hi.
  subst cb. cbn [cb_binary_reader_kernel cb_unary_writer_kernel cb_num_cores cb_num_cores_y] in *.
  rewrite kernel_runtime_args_reader, kernel_runtime_args_writer.
  unfold reader_kernel, writer_kernel. cbn [runtime_args].
  set (cb := mkCallback 0 1 (bcast_num_cores a) (bcast_num_cores_y a)) in *.
  rewrite !lookup_patch_map by (apply patch_reader_args_idemp || apply patch_writer_args_idemp).
  rewrite !decide_True by (apply (active_key_elem cb i); exact Hi).
  destruct (Hk0 i Hi) as (l0 & Hl0 & Hlen0). destruct (Hk1 i Hi) as (l1 & Hl1 & Hlen1).
  cbn [cb cb_num_cores_y] in Hl0, Hl1. rewrite Hl0, Hl1.
  cbn [fmap option_fmap option_map mbind option_bind].
  destruct (patch_reader_args_slots sa sb l0 Hlen0) as [H0 H4].
  split; [exact H0|]. split; [exact H4|].
  unfold patch_writer_args. apply list_lookup_insert_eq. exact Hlen1.
Qed.

End PatchOutcome.

(** ** Patching against rebuilding, and patching twice *)

Section PatchCompose.
Context {P : Platform}.

Lemma reader_runtime_args_patched a b src0 src1 dst sa sb d t off :
  reader_runtime_args
    (loop_env (with_buffer a sa) (with_buffer b sb) sa sb d) t off =
  patch_reader_args sa sb (reader_runtime_args (loop_env a b src0 src1 dst) t off).
Proof. reflexivity. Qed.

Lemma writer_runtime_args_patched a b src0 src1 dst sa sb d t off :
  writer_runtime_args
    (loop_env (with_buffer a sa) (with_buffer b sb) sa sb d) t off =
  patch_writer_args d (writer_runtime_args (loop_env a b src0 src1 dst) t off).
Proof. reflexivity. Qed.

Lemma tiles_of_with_buffer a b src0 src1 dst sa sb d i :
  tiles_of (loop_env (with_buffer a sa) (with_buffer b sb) sa sb d) i =
  tiles_of (loop_env a b src0 src1 dst) i.
Proof. reflexivity. Qed.

Lemma tiles_read_with_buffer a b src0 src1 dst sa sb d (k : nat) :
  tiles_read (loop_env (with_buffer a sa) (with_buffer b sb) sa sb d) k =
  tiles_read (loop_env a b src0 src1 dst) k.
Proof.
  induction k as [|k IH]; [reflexivity|].
  cbn [tiles_read]. rewrite IH.
  rewrite (tiles_of_with_buffer a b src0 src1 dst sa sb d). reflexivity.
Qed.

(** The maps stored for tensors with other buffers are the patched maps. *)
Lemma stored_runtime_args_patched (a b : Tensor) (src0 src1 dst sa sb d : Buffer)
    (mr mw mr' mw' : gmap (Z * Z) (list Z)) :
  stored_runtime_args a b src0 src1 dst mr mw ->
  stored_runtime_args (with_buffer a sa) (with_buffer b sb) sa sb d mr' mw' ->
  let cb := mkCallback 0 1 (bcast_num_cores a) (bcast_num_cores_y a) in
  mr' = patch_map (patch_reader_args sa sb) (active_keys cb) mr /\
  mw' = patch_map (patch_writer_args d) (active_keys cb) mw.
Proof.
  intros (Hy & Hact & Hoth) (Hy' & Hact' & Hoth') cb.
  change (bcast_num_cores (with_buffer a sa)) with (bcast_num_cores a) in *.
  change (bcast_num_cores_y (with_buffer a sa)) with (bcast_num_cores_y a) in *.
  assert (forall key : Z * Z, key ∉ active_keys cb ->
            forall i, 0 <= i < bcast_num_cores a ->
              key <> core_key (core_of_index (bcast_num_cores_y a) i)) as Hout.
  { intros key Hnin i Hi ->. apply Hnin. apply (active_key_elem cb i). exact Hi. }
  split; apply map_eq; intros key.
  - rewrite lookup_patch_map by apply patch_reader_args_idemp.
    destruct (decide (key ∈ active_keys cb)) as [Hin|Hnin].
    + destruct (active_key_inv cb _ Hin) as (i & Hi & ->).
      cbn [cb cb_num_cores cb_num_cores_y] in Hi |- *.
      destruct (Hact i Hi) as (t & Ht & -> & _).
      destruct (Hact' i Hi) as (t' & Ht' & -> & _).
      rewrite (tiles_of_with_buffer a b src0 src1 dst) in Ht'.
      rewrite Ht in Ht'. injection Ht' as <-.
      rewrite (tiles_read_with_buffer a b src0 src1 dst).
      rewrite (reader_runtime_args_patched a b src0 src1 dst). reflexivity.
    + destruct (Hoth key (Hout key Hnin)) as [-> _].
      destruct (Hoth' key (Hout key Hnin)) as [-> _]. reflexivity.
  - rewrite lookup_patch_map by apply patch_writer_args_idemp.
    destruct (decide (key ∈ active_keys cb)) as [Hin|Hnin].
    + destruct (active_key_inv cb _ Hin) as (i & Hi & ->).
      cbn [cb cb_num_cores cb_num_cores_y] in Hi |- *.
      destruct (Hact i Hi) as (t & Ht & _ & ->).
      destruct (Hact' i Hi) as (t' & Ht' & _ & ->).
      rewrite (tiles_of_with_buffer a b src0 src1 dst) in Ht'.
      rewrite Ht in Ht'. injection Ht' as <-.
      rewrite (tiles_read_with_buffer a b src0 src1 dst).
      rewrite (writer_runtime_args_patched a b src0 src1 dst). reflexivity.
    + destruct (Hoth key (Hout key Hnin)) as [_ ->].
      destruct (Hoth' key (Hout key Hnin)) as [_ ->]. reflexivity.
Qed.

(** Construction for tensors that differ in their buffers only succeeds when
    it succeeded for the original tensors. *)
Lemma bcast_with_buffers_succeeds a b output math dim pwc sa sb d :
  bcast_multi_core_hw a b output math dim = Ok pwc ->
  exists pwc',
    bcast_multi_core_hw (with_buffer a sa) (with_buffer b sb) (with_buffer output d)
      math dim = Ok pwc'.
Proof.
  intros Hbuilt.
  destruct (bcast_built _ _ _ _ _ _ Hbuilt)
    as (src0 & src1 & dst & mr & mw & -> & _ & _ & _ & _ & Hy & Hact & _).
  rewrite (bcast_multi_core_hw_unfold (with_buffer a sa) (with_buffer b sb)
             (with_buffer output d) math sa sb d eq_refl eq_refl eq_refl).
  change (bcast_num_cores (with_buffer a sa)) with (bcast_num_cores a).
  destruct (runtime_args_loop_succeeds
              (loop_env (with_buffer a sa) (with_buffer b sb) sa sb d)
              (seqZ 0 (bcast_num_cores a))
              (mkProgram (bcast_circular_buffers (with_buffer a sa))
                 (reader_kernel (with_buffer a sa) sa sb ∅
                  :: writer_kernel (with_buffer a sa) d ∅
                  :: compute_kernels (with_buffer a sa) math), 0)) as [[p off] ->].
  - intros Hne. apply Hy.
    destruct (Z.lt_ge_cases 0 (bcast_num_cores a)) as [|Hle]; [assumption|].
    exfalso. apply Hne. apply seqZ_nil. lia.
  - intros i Hi. apply elem_of_seqZ in Hi.
    rewrite (tiles_of_with_buffer a b src0 src1 dst).
    destruct (Hact i ltac:(lia)) as (t & -> & _). eauto.
  - eauto.
Qed.

(** X8 (patching is rebuilding).  Patching a built Program with buffers of
    the same residency class as the buffers it was built for gives exactly
    the Program, and the callback, that construction returns for the same
    tensors placed at the new buffers. *)
Theorem patch_is_rebuild (a b output : Tensor) math dim pwc (src0 src1 dst sa sb d : Buffer)
    (input_buffers output_buffers : list Buffer) :
  bcast_multi_core_hw a b output math dim = Ok pwc ->
  buffer a = Some src0 -> buffer b = Some src1 -> buffer output = Some dst ->
  input_buffers !! 0%nat = Some sa -> input_buffers !! 1%nat = Some sb ->
  output_buffers !! 0%nat = Some d ->
  buffer_type sa = buffer_type src0 ->
  buffer_type sb = buffer_type src1 ->
  buffer_type d = buffer_type dst ->
  bcast_multi_core_hw (with_buffer a sa) (with_buffer b sb) (with_buffer output d) math dim
  = Ok (with_program pwc (patched pwc input_buffers output_buffers)).
Proof.
  intros Hbuilt Ha Hb Ho E0 E1 E2 Ta Tb Td.
  destruct (bcast_with_buffers_succeeds a b output math dim pwc sa sb d Hbuilt) as [pwc' Hb'].
  rewrite Hb'. f_equal.
  destruct (bcast_built _ _ _ _ _ _ Hbuilt)
    as (s0 & s1 & dd & mr & mw & -> & Ha0 & Hb0 & Ho0 & -> & Hstored).
  rewrite Ha in Ha0. rewrite Hb in Hb0. rewrite Ho in Ho0.
  injection Ha0 as <-. injection Hb0 as <-. injection Ho0 as <-.
  destruct (bcast_built _ _ _ _ _ _ Hb')
    as (s0 & s1 & dd & mr' & mw' & _ & Ha0 & Hb0 & Ho0 & -> & Hstored').
  injection Ha0 as <-. injection Hb0 as <-. injection Ho0 as <-.
  destruct (stored_runtime_args_ready _ _ _ _ _ _ _ Hstored) as (Hy & Hk0 & Hk1).
  destruct (stored_runtime_args_patched a b src0 src1 dst sa sb d mr mw mr' mw'
              Hstored Hstored') as [-> ->].
  unfold with_program, patched. cbn [program override_callback].
  rewrite (callback_on_built_form a src0 src1 dst (compute_kernels a math)
             (mkCallback 0 1 (bcast_num_cores a) (bcast_num_cores_y a)) sa sb d
             input_buffers output_buffers mr mw eq_refl eq_refl Hy Hk0 Hk1 E0 E1 E2).
  cbn [snd].
  change (bcast_num_cores (with_buffer a sa)) with (bcast_num_cores a).
  change (bcast_num_cores_y (with_buffer a sa)) with (bcast_num_cores_y a).
  change (bcast_circular_buffers (with_buffer a sa)) with (bcast_circular_buffers a).
  change (compute_kernels (with_buffer a sa) math) with (compute_kernels a math).
  unfold reader_kernel, writer_kernel, is_dram.
  cbn [with_buffer device shape dtype]. rewrite Ta, Tb, Td. reflexivity.
Qed.

Lemma patch_after_patch (a b output : Tensor) math dim (pwc : ProgramWithCallbacks)
    (first_inputs first_outputs input_buffers output_buffers : list Buffer) :
  bcast_multi_core_hw a b output math dim = Ok pwc ->
  (2 <= length input_buffers)%nat -> (1 <= length output_buffers)%nat ->
  patched (with_program pwc (patched pwc first_inputs first_outputs))
    input_buffers output_buffers
  = patched pwc input_buffers output_buffers.
Proof.
  intros Hbuilt Hin Hout.
  destruct (lookup_lt_is_Some_2 input_buffers 0 ltac:(lia)) as [sa E0].
  destruct (lookup_lt_is_Some_2 input_buffers 1 ltac:(lia)) as [sb E1].
  destruct (lookup_lt_is_Some_2 output_buffers 0 ltac:(lia)) as [d E2].
  destruct (bcast_built _ _ _ _ _ _ Hbuilt)
    as (src0 & src1 & dst & mr & mw & _ & _ & _ & _ & -> & Hstored).
  destruct (stored_runtime_args_ready _ _ _ _ _ _ _ Hstored) as (Hy & Hk0 & Hk1).
  set (cb := mkCallback 0 1 (bcast_num_cores a) (bcast_num_cores_y a)) in *.
  unfold with_program, patched. cbn [program override_callback]. fold cb.
  rewrite (callback_on_built_form a src0 src1 dst (compute_kernels a math) cb sa sb d
             input_buffers output_buffers mr mw eq_refl eq_refl Hy Hk0 Hk1 E0 E1 E2).
  destruct (first_inputs !! 0%nat) as [sa1|] eqn:F0.
  2: { unfold override_runtime_args_callback at 2. rewrite F0. cbn [snd].
       rewrite (callback_on_built_form a src0 src1 dst (compute_kernels a math) cb sa sb d
                  input_buffers output_buffers mr mw eq_refl eq_refl Hy Hk0 Hk1 E0 E1 E2).
       reflexivity. }
  destruct (first_inputs !! 1%nat) as [sb1|] eqn:F1.
  2: { unfold override_runtime_args_callback at 2. rewrite F0, F1. cbn [snd].
       rewrite (callback_on_built_form a src0 src1 dst (compute_kernels a math) cb sa sb d
                  input_buffers output_buffers mr mw eq_refl eq_refl Hy Hk0 Hk1 E0 E1 E2).
       reflexivity. }
  destruct (first_outputs !! 0%nat) as [d1|] eqn:F2.
  2: { unfold override_runtime_args_callback at 2. rewrite F0, F1, F2. cbn [snd].
       rewrite (callback_on_built_form a src0 src1 dst (compute_kernels a math) cb sa sb d
                  input_buffers output_buffers mr mw eq_refl eq_refl Hy Hk0 Hk1 E0 E1 E2).
       reflexivity. }
  rewrite (callback_on_built_form a src0 src1 dst (compute_kernels a math) cb sa1 sb1 d1
             first_inputs first_outputs mr mw eq_refl eq_refl Hy Hk0 Hk1 F0 F1 F2).
  cbn [snd].
  rewrite (callback_on_built_form a src0 src1 dst (compute_kernels a math) cb sa sb d
             input_buffers output_buffers _ _ eq_refl eq_refl Hy
             (patched_ready cb _ mr 4 (patch_reader_args_idemp sa1 sb1)
                (length_patch_reader_args sa1 sb1) Hk0)
             (patched_ready cb _ mw 0 (patch_writer_args_idemp d1)
                (length_patch_writer_args d1) Hk1) E0 E1 E2).
  cbn [snd].
  rewrite (patch_map_absorb (patch_reader_args sa1 sb1) (patch_reader_args sa sb))
    by (intros; apply patch_reader_args_idemp || apply patch_reader_args_absorb).
  rewrite (patch_map_absorb (patch_writer_args d1) (patch_writer_args d))
    by (intros; apply patch_writer_args_idemp || apply patch_writer_args_absorb).
  reflexivity.
Qed.

(** X9 (the last patch wins).  On a built Program, a callback invocation that
    is given enough buffers leaves the same Program whether or not another
    invocation, with any buffers, came before it. *)
Theorem patch_last_wins (a b output : Tensor) math dim (pwc : ProgramWithCallbacks)
    (first_inputs first_outputs input_buffers output_buffers : list Buffer) :
  bcast_multi_core_hw a b output math dim = Ok pwc ->
  (2 <= length input_buffers)%nat -> (1 <= length output_buffers)%nat ->
  patched (with_program pwc (patched pwc first_inputs first_outputs))
    input_buffers output_buffers
  = patched pwc input_buffers output_buffers.
Proof.
  intros Hbuilt Hin Hout.
  exact (patch_after_patch a b output math dim pwc first_inputs first_outputs
           input_buffers output_buffers Hbuilt Hin Hout).
Qed.

(** Patching with the buffers a Program was built for changes nothing. *)
Lemma patch_with_own_buffers (a b output : Tensor) math dim (pwc : ProgramWithCallbacks)
    (src0 src1 dst : Buffer) (input_buffers output_buffers : list Buffer) :
  bcast_multi_core_hw a b output math dim = Ok pwc ->
  buffer a = Some src0 -> buffer b = Some src1 -> buffer output = Some dst ->
  input_buffers !! 0%nat = Some src0 -> input_buffers !! 1%nat = Some src1 ->
  output_buffers !! 0%nat = Some dst ->
  patched pwc input_buffers output_buffers = program pwc.
Proof.
  intros Hbuilt Ha Hb Ho E0 E1 E2.
  destruct (bcast_built _ _ _ _ _ _ Hbuilt)
    as (s0 & s1 & dd & mr & mw & _ & Ha0 & Hb0 & Ho0 & -> & Hstored).
  rewrite Ha in Ha0. rewrite Hb in Hb0. rewrite Ho in Ho0.
  injection Ha0 as <-. injection Hb0 as <-. injection Ho0 as <-.
  destruct (stored_runtime_args_ready _ _ _ _ _ _ _ Hstored) as (Hy & Hk0 & Hk1).
  destruct Hstored as (_ & Hact & _).
  set (cb := mkCallback 0 1 (bcast_num_cores a) (bcast_num_cores_y a)) in *.
  unfold patched. cbn [program override_callback]. fold cb.
  rewrite (callback_on_built_form a src0 src1 dst (compute_kernels a math) cb src0 src1 dst
             input_buffers output_buffers mr mw eq_refl eq_refl Hy Hk0 Hk1 E0 E1 E2).
  cbn [snd].
  assert (patch_map (patch_reader_args src0 src1) (active_keys cb) mr = mr) as ->.
  { apply map_eq. intros key. rewrite lookup_patch_map by apply patch_reader_args_idemp.
    destruct (decide (key ∈ active_keys cb)) as [Hin|]; [|reflexivity].
    destruct (active_key_inv cb _ Hin) as (i & Hi & ->).
    cbn [cb cb_num_cores cb_num_cores_y] in Hi |- *.
    destruct (Hact i Hi) as (t & _ & -> & _). reflexivity. }
  assert (patch_map (patch_writer_args dst) (active_keys cb) mw = mw) as ->.
  { apply map_eq. intros key. rewrite lookup_patch_map by apply patch_writer_args_idemp.
    destruct (decide (key ∈ active_keys cb)) as [Hin|]; [|reflexivity].
    destruct (active_key_inv cb _ Hin) as (i & Hi & ->).
    cbn [cb cb_num_cores cb_num_cores_y] in Hi |- *.
    destruct (Hact i Hi) as (t & _ & _ & ->). reflexivity. }
  reflexivity.
Qed.

(** X10 (patching back).  Whatever buffers a built Program has been patched
    with, patching it with the buffers it was built for gives back the
    Program that construction returned. *)
Theorem patch_round_trip (a b output : Tensor) math dim (pwc : ProgramWithCallbacks)
    (src0 src1 dst : Buffer) (input_buffers output_buffers : list Buffer) :
  bcast_multi_core_hw a b output math dim = Ok pwc ->
  buffer a = Some src0 -> buffer b = Some src1 -> buffer output = Some dst ->
  patched (with_program pwc (patched pwc input_buffers output_buffers)) [src0; src1] [dst]
  = program pwc.
Proof.
  intros Hbuilt Ha Hb Ho.
  rewrite (patch_after_patch a b output math dim pwc input_buffers output_buffers
             [src0; src1] [dst] Hbuilt) by (simpl; lia).
  exact (patch_with_own_buffers a b output math dim pwc src0 src1 dst [src0; src1] [dst]
           Hbuilt Ha Hb Ho eq_refl eq_refl eq_refl).
Qed.

(** X11 (residency flags are not patched).  When a new buffer is of another
    residency class than the buffer the Program was built for, construction
    for the new buffers succeeds but returns a Program that differs from the
    patched one: the callback leaves the compile-time residency flags of
    lines 90-99 as they were. *)
Theorem patch_keeps_stale_residency (a b output : Tensor) math dim
    (pwc : ProgramWithCallbacks) (src0 src1 dst sa sb d : Buffer)
    (input_buffers output_buffers : list Buffer) :
  bcast_multi_core_hw a b output math dim = Ok pwc ->
  buffer a = Some src0 -> buffer b = Some src1 -> buffer output = Some dst ->
  input_buffers !! 0%nat = Some sa -> input_buffers !! 1%nat = Some sb ->
  output_buffers !! 0%nat = Some d ->
  buffer_type sa <> buffer_type src0 \/ buffer_type sb <> buffer_type src1 \/
  buffer_type d <> buffer_type dst ->
  exists rebuilt,
    bcast_multi_core_hw (with_buffer a sa) (with_buffer b sb) (with_buffer output d) math dim
    = Ok rebuilt /\
    (compile_time_args <$> kernels (program rebuilt)) <>
    (compile_time_args <$> kernels (patched pwc input_buffers output_buffers)) /\
    (compile_time_args <$> kernels (patched pwc input_buffers output_buffers)) =
    (compile_time_args <$> kernels (program pwc)).
Proof.
  intros Hbuilt Ha Hb Ho E0 E1 E2 Hdiff.
  destruct (bcast_with_buffers_succeeds a b output math dim pwc sa sb d Hbuilt) as [pwc' Hb'].
  exists pwc'. split; [exact Hb'|].
  destruct (bcast_built _ _ _ _ _ _ Hbuilt)
    as (s0 & s1 & dd & mr & mw & -> & Ha0 & Hb0 & Ho0 & -> & Hstored).
  rewrite Ha in Ha0. rewrite Hb in Hb0. rewrite Ho in Ho0.
  injection Ha0 as <-. injection Hb0 as <-. injection Ho0 as <-.
  destruct (bcast_built _ _ _ _ _ _ Hb')
    as (s0 & s1 & dd & mr' & mw' & _ & Ha0 & Hb0 & Ho0 & -> & _).
  injection Ha0 as <-. injection Hb0 as <-. injection Ho0 as <-.
  destruct (stored_runtime_args_ready _ _ _ _ _ _ _ Hstored) as (Hy & Hk0 & Hk1).
  unfold patched. cbn [program override_callback].
  rewrite (callback_on_built_form a src0 src1 dst (compute_kernels a math)
             (mkCallback 0 1 (bcast_num_cores a) (bcast_num_cores_y a)) sa sb d
             input_buffers output_buffers mr mw eq_refl eq_refl Hy Hk0 Hk1 E0 E1 E2).
  cbn [snd kernels fmap list_fmap]. split; [|reflexivity].
  unfold reader_kernel, writer_kernel. cbn [compile_time_args].
  intros Heq. injection Heq as Hsa Hsb Hd.
  unfold is_dram in Hsa, Hsb, Hd.
  destruct Hdiff as [Hd0|[Hd1|Hd2]].
  - apply Hd0. destruct (buffer_type sa), (buffer_type src0); congruence.
  - apply Hd1. destruct (buffer_type sb), (buffer_type src1); congruence.
  - apply Hd2. destruct (buffer_type d), (buffer_type dst); congruence.
Qed.

End PatchCompose.

(** ** The further properties on concrete inputs *)

Lemma construction_failures_witness :
  @bcast_multi_core_hw tile32 a_5 b_1 out_5 BcastOpMath.ADD BcastOpDim.H
  = Fatal "bcast_dim == BcastOpDim::HW" /\
  @bcast_multi_core_hw tile32 (mkTensor (shape a_5) (dtype a_5) None (device a_5)) b_1
     (mkTensor (shape out_5) (dtype out_5) None (device out_5))
     BcastOpMath.ADD BcastOpDim.HW
  = Fatal "Output buffer should be allocated on device!" /\
  exists pwc,
    @bcast_multi_core_hw tile32 a_5 b_1 out_5 BcastOpMath.ADD BcastOpDim.HW = Ok pwc /\
    is_Some (buffer a_5) /\ is_Some (buffer b_1) /\ is_Some (buffer out_5).
Proof.
  split; [|split].
  - apply (proj1 (construction_failures a_5 b_1 out_5 BcastOpMath.ADD BcastOpDim.H)).
    discriminate.
  - apply (proj1 (proj2 (construction_failures _ b_1 _ BcastOpMath.ADD BcastOpDim.HW)));
      reflexivity.
  - eexists. split; [vm_compute; reflexivity|].
    apply (proj2 (proj2 (construction_failures a_5 b_1 out_5 BcastOpMath.ADD BcastOpDim.HW))
             _ eq_refl).
Defined.

Lemma visited_cores_inside_grid_witness :
  exists pwc,
    @bcast_multi_core_hw tile32 a_5 b_1 out_5 BcastOpMath.ADD BcastOpDim.HW = Ok pwc /\
    cb_num_cores (override_callback pwc) = 4 /\
    exists reader writer,
      kernels (program pwc) !! 0%nat = Some reader /\
      kernels (program pwc) !! 1%nat = Some writer /\
      core_coord_in_core_ranges (kernel_core_ranges reader) (mkCoreCoord 1 1) = true /\
      core_coord_in_core_ranges (kernel_core_ranges writer) (mkCoreCoord 1 1) = true /\
      is_Some (runtime_args reader !! (1, 1)) /\
      is_Some (runtime_args writer !! (1, 1)).
Proof.
  eexists. split; [vm_compute; reflexivity|].
  pose proof (visited_cores_inside_grid a_5 b_1 out_5 BcastOpMath.ADD BcastOpDim.HW _ eq_refl
                grid_2x2_valid) as (Hn & _ & _ & Hin & _).
  split; [exact Hn|].
  destruct (Hin 3 ltac:(vm_compute; split; [discriminate|reflexivity]))
    as (_ & _ & (reader & writer & Hr & Hw & Hrin & Hwin & Hra & Hwa) & _).
  exists reader, writer.
  split; [exact Hr|]. split; [exact Hw|]. split; [exact Hrin|]. split; [exact Hwin|].
  split; [exact Hra|exact Hwa].
Defined.


Lemma kernels_of_built_program_witness :
  exists pwc,
    @bcast_multi_core_hw tile32 a_5 b_1 out_5 BcastOpMath.ADD BcastOpDim.HW = Ok pwc /\
    exists reader writer group_1_kernel group_2_kernel,
      kernels (program pwc) = [reader; writer; group_1_kernel; group_2_kernel] /\
      compile_time_args reader = [5; 1; 1] /\
      compile_time_args writer = [16; 5; 1] /\
      compile_time_args group_1_kernel = [1; 1; 2] /\
      compile_time_args group_2_kernel = [1; 1; 1].
Proof.
  eexists. split; [vm_compute; reflexivity|].
  destruct (kernels_of_built_program a_5 b_1 out_5 BcastOpMath.ADD BcastOpDim.HW _
              (mkBuffer 4096 DRAM) (mkBuffer 8192 DRAM) (mkBuffer 12288 DRAM)
              eq_refl eq_refl eq_refl eq_refl)
    as (_ & reader & writer & k1 & ks & Hk & _ & _ & _ & _ & Hr & Hw & _ & _ & _
        & (_ & _ & _ & _ & _ & Hk1) & _ & Hgroup_2).
  destruct (Hgroup_2 ltac:(vm_compute; discriminate))
    as (k2 & -> & (_ & _ & _ & _ & _ & Hk2)).
  exists reader, writer, k1, k2.
  split; [exact Hk|]. split; [exact Hr|]. split; [exact Hw|]. split; [exact Hk1|exact Hk2].
Defined.

Lemma runtime_args_layout_witness :
  exists pwc,
    @bcast_multi_core_hw tile32 a_5 b_1 out_5 BcastOpMath.ADD BcastOpDim.HW = Ok pwc /\
    exists tiles_per_core num_tiles_read,
      writer_args pwc 2 = Some [12288; tiles_per_core; num_tiles_read].
Proof.
  eexists. split; [vm_compute; reflexivity|].
  destruct (runtime_args_layout a_5 b_1 out_5 BcastOpMath.ADD BcastOpDim.HW _
              (mkBuffer 4096 DRAM) (mkBuffer 8192 DRAM) (mkBuffer 12288 DRAM) 2
              eq_refl eq_refl eq_refl eq_refl
              ltac:(vm_compute; split; [discriminate|reflexivity]))
    as (t & off & k & _ & Hw & _).
  exists t, off. exact Hw.
Defined.

Lemma runtime_args_only_for_active_cores_witness :
  exists pwc,
    @bcast_multi_core_hw tile32 a_5 b_1 out_5 BcastOpMath.ADD BcastOpDim.HW = Ok pwc /\
    cb_num_cores (override_callback pwc) = 4 /\
    is_Some (kernel_runtime_args (program pwc) 0 (mkCoreCoord 1 1)) /\
    ~ is_Some (kernel_runtime_args (program pwc) 2 (mkCoreCoord 0 0)).
Proof.
  eexists. split; [vm_compute; reflexivity|].
  split; [|split].
  - exact (proj1 (proj1 (runtime_args_only_for_active_cores a_5 b_1 out_5 BcastOpMath.ADD
                           BcastOpDim.HW _ 0 (mkCoreCoord 0 0) eq_refl))).
  - apply (proj1 (proj2 (runtime_args_only_for_active_cores a_5 b_1 out_5 BcastOpMath.ADD
                           BcastOpDim.HW _ 0 (mkCoreCoord 1 1) eq_refl))).
    split; [left; reflexivity|].
    match goal with
    | |- _ ∈ active_keys ?cb =>
        exact (active_key_elem cb 3 ltac:(vm_compute; split; [discriminate|reflexivity]))
    end.
  - intros Hsome.
    apply (proj1 (proj2 (runtime_args_only_for_active_cores a_5 b_1 out_5 BcastOpMath.ADD
                           BcastOpDim.HW _ 2 (mkCoreCoord 0 0) eq_refl))) in Hsome.
    destruct Hsome as [[?|?] _]; discriminate.
Defined.

Lemma patch_outcome_witness :
  exists pwc,
    @bcast_multi_core_hw tile32 a_5 b_1 out_5 BcastOpMath.ADD BcastOpDim.HW = Ok pwc /\
    (override_runtime_args_callback (override_callback pwc)
       [mkBuffer 100 DRAM; mkBuffer 200 L1] [mkBuffer 300 DRAM] (program pwc)).1 = Ok tt.
Proof.
  eexists. split; [vm_compute; reflexivity|].
  apply (proj1 (patch_outcome a_5 b_1 out_5 BcastOpMath.ADD BcastOpDim.HW _
                  [mkBuffer 100 DRAM; mkBuffer 200 L1] [mkBuffer 300 DRAM] eq_refl)).
  simpl. lia.
Defined.

Lemma patch_is_rebuild_witness :
  exists pwc,
    @bcast_multi_core_hw tile32 a_5 b_1 out_5 BcastOpMath.ADD BcastOpDim.HW = Ok pwc /\
    @bcast_multi_core_hw tile32
      (with_buffer a_5 (mkBuffer 100 DRAM)) (with_buffer b_1 (mkBuffer 200 DRAM))
      (with_buffer out_5 (mkBuffer 300 DRAM)) BcastOpMath.ADD BcastOpDim.HW
    = Ok (with_program pwc
            (patched pwc [mkBuffer 100 DRAM; mkBuffer 200 DRAM] [mkBuffer 300 DRAM])).
Proof.
  eexists. split; [vm_compute; reflexivity|].
  exact (patch_is_rebuild a_5 b_1 out_5 BcastOpMath.ADD BcastOpDim.HW _
           (mkBuffer 4096 DRAM) (mkBuffer 8192 DRAM) (mkBuffer 12288 DRAM)
           (mkBuffer 100 DRAM) (mkBuffer 200 DRAM) (mkBuffer 300 DRAM)
           [mkBuffer 100 DRAM; mkBuffer 200 DRAM] [mkBuffer 300 DRAM]
           eq_refl eq_refl eq_refl eq_refl eq_refl eq_refl eq_refl eq_refl eq_refl eq_refl).
Defined.

Lemma patch_last_wins_witness :
  exists pwc,
    @bcast_multi_core_hw tile32 a_5 b_1 out_5 BcastOpMath.ADD BcastOpDim.HW = Ok pwc /\
    patched (with_program pwc (patched pwc [mkBuffer 1 L1; mkBuffer 2 L1] [mkBuffer 3 L1]))
      [mkBuffer 100 DRAM; mkBuffer 200 DRAM] [mkBuffer 300 DRAM]
    = patched pwc [mkBuffer 100 DRAM; mkBuffer 200 DRAM] [mkBuffer 300 DRAM].
Proof.
  eexists. split; [vm_compute; reflexivity|].
  exact (patch_last_wins a_5 b_1 out_5 BcastOpMath.ADD BcastOpDim.HW _
           [mkBuffer 1 L1; mkBuffer 2 L1] [mkBuffer 3 L1]
           [mkBuffer 100 DRAM; mkBuffer 200 DRAM] [mkBuffer 300 DRAM]
           eq_refl ltac:(simpl; lia) ltac:(simpl; lia)).
Defined.

Lemma patch_round_trip_witness :
  exists pwc,
    @bcast_multi_core_hw tile32 a_5 b_1 out_5 BcastOpMath.ADD BcastOpDim.HW = Ok pwc /\
    patched (with_program pwc (patched pwc [mkBuffer 1 L1; mkBuffer 2 L1] [mkBuffer 3 L1]))
      [mkBuffer 4096 DRAM; mkBuffer 8192 DRAM] [mkBuffer 12288 DRAM]
    = program pwc.
Proof.
  eexists. split; [vm_compute; reflexivity|].
  exact (patch_round_trip a_5 b_1 out_5 BcastOpMath.ADD BcastOpDim.HW _
           (mkBuffer 4096 DRAM) (mkBuffer 8192 DRAM) (mkBuffer 12288 DRAM)
           [mkBuffer 1 L1; mkBuffer 2 L1] [mkBuffer 3 L1]
           eq_refl eq_refl eq_refl eq_refl).
Defined.

Lemma patch_keeps_stale_residency_witness :
  exists rebuilt,
    @bcast_multi_core_hw tile32
      (with_buffer a_5 (mkBuffer 100 L1)) (with_buffer b_1 (mkBuffer 200 DRAM))
      (with_buffer out_5 (mkBuffer 300 DRAM)) BcastOpMath.ADD BcastOpDim.HW
    = Ok rebuilt.
Proof.
  assert (exists pwc,
            @bcast_multi_core_hw tile32 a_5 b_1 out_5 BcastOpMath.ADD BcastOpDim.HW = Ok pwc)
    as [pwc Hb].
  { eexists. vm_compute. reflexivity. }
  destruct (patch_keeps_stale_residency a_5 b_1 out_5 BcastOpMath.ADD BcastOpDim.HW pwc
              (mkBuffer 4096 DRAM) (mkBuffer 8192 DRAM) (mkBuffer 12288 DRAM)
              (mkBuffer 100 L1) (mkBuffer 200 DRAM) (mkBuffer 300 DRAM)
              [mkBuffer 100 L1; mkBuffer 200 DRAM] [mkBuffer 300 DRAM]
              Hb eq_refl eq_refl eq_refl eq_refl eq_refl eq_refl
              ltac:(left; discriminate))
    as (rebuilt & Hr & _).
  exists rebuilt. exact Hr.
Defined.
